(** * litellm/llms/openai.py: a shallow embedding and its properties

    The module is a facade over the vendor client.  What it computes on its
    own is embedded here: the provider configuration classes (class-level
    attribute stores, [get_config], the parameter allow-lists), the
    text-completion response reshaping, and the retry loop of
    [OpenAIChatCompletion.completion] with its message rewriting and its
    error normalisation.  Everything that belongs to the vendor client or to
    other modules of the package is a field of the [world] record. *)

From Stdlib Require Import ZArith String List Bool.
From stdpp Require Import base option list gmap strings fin_maps.

Set Warnings "-register-all".

Open Scope string_scope.
Open Scope list_scope.

(** ** Python values *)

(** The JSON-like values that travel through the module.  [PObj] stands for
    any other object (a descriptor, a client, ...), identified by a name. *)
Inductive pyval : Type :=
| PNone
| PBool (b : bool)
| PInt (n : Z)
| PStr (s : string)
| PList (l : list pyval)
| PDict (d : list (string * pyval))
| PObj (name : string).

Fixpoint assoc {A : Type} (k : string) (d : list (string * A)) : option A :=
  match d with
  | [] => None
  | (k', v) :: d' => if String.eqb k k' then Some v else assoc k d'
  end.

(** Python's [==] on these values: [bool] is a subclass of [int], lists are
    compared pointwise, dicts key by key. *)
Fixpoint py_eq (a b : pyval) {struct a} : bool :=
  match a, b with
  | PNone, PNone => true
  | PBool x, PBool y => Bool.eqb x y
  | PBool x, PInt n => Z.eqb (Z.b2z x) n
  | PInt n, PBool x => Z.eqb n (Z.b2z x)
  | PInt m, PInt n => Z.eqb m n
  | PStr s, PStr t => String.eqb s t
  | PObj s, PObj t => String.eqb s t
  | PList l, PList l' =>
      (fix go (l l' : list pyval) {struct l} : bool :=
         match l, l' with
         | [], [] => true
         | x :: l, y :: l' => py_eq x y && go l l'
         | _, _ => false
         end) l l'
  | PDict d, PDict d' =>
      Nat.eqb (length d) (length d')
      && (fix go (d : list (string * pyval)) : bool :=
            match d with
            | [] => true
            | (k, v) :: d =>
                match assoc k d' with
                | Some v' => py_eq v v'
                | None => false
                end && go d
            end) d
  | _, _ => false
  end.

(** [v is None] *)
Definition is_None (v : pyval) : bool :=
  match v with PNone => true | _ => false end.

(** Truth value of an object, as [if v:] takes it. *)
Definition py_truthy (v : pyval) : bool :=
  match v with
  | PNone => false
  | PBool b => b
  | PInt n => negb (Z.eqb n 0%Z)
  | PStr s => negb (String.eqb s "")
  | PList l => match l with [] => false | _ => true end
  | PDict d => match d with [] => false | _ => true end
  | PObj _ => true
  end.

(** [isinstance(v, int)]; [True] and [False] are ints. *)
Definition isinstance_int (v : pyval) : bool :=
  match v with PInt _ | PBool _ => true | _ => false end.

(** [needle in hay] on strings: substring search. *)
Fixpoint py_in_str (needle hay : string) : bool :=
  String.prefix needle hay
  || match hay with
     | EmptyString => false
     | String _ hay' => py_in_str needle hay'
     end.

(** [str(v)] inside an f-string, for the two kinds of value the module
    formats: an optional string. *)
Definition str_opt (v : option string) : string :=
  match v with Some s => s | None => "None" end.

(** ** Exceptions and results *)

(** [OpenAIError] (lines 31-53) stores [status_code] and [message] and hands
    the message to [Exception.__init__], so [str(e)] is the message.  Any
    other exception is known by its class name, its [status_code] attribute
    when it has one, and its [str]. *)
Inductive exn : Type :=
| OpenAIError (status_code : pyval) (message : string)
| PyExc (cls : string) (status_code : option pyval) (text : string).

Definition str_exn (e : exn) : string :=
  match e with
  | OpenAIError _ message => message
  | PyExc _ _ text => text
  end.

(** [hasattr(e, "status_code")] together with [e.status_code]. *)
Definition exn_status_code (e : exn) : option pyval :=
  match e with
  | OpenAIError sc _ => Some sc
  | PyExc _ sc _ => sc
  end.

Definition is_OpenAIError (e : exn) : bool :=
  match e with OpenAIError _ _ => true | PyExc _ _ _ => false end.

Definition KeyError (k : string) : exn :=
  PyExc "KeyError" None ("'" ++ k ++ "'")%string.
Definition IndexError : exn :=
  PyExc "IndexError" None "list index out of range".
Definition ValueError (msg : string) : exn :=
  PyExc "ValueError" None msg.

Inductive result (A : Type) : Type :=
| Ok (a : A)
| Raise (e : exn).
Arguments Ok {A} a.
Arguments Raise {A} e.

Definition bind {A B : Type} (r : result A) (k : A -> result B) : result B :=
  match r with
  | Ok a => k a
  | Raise e => Raise e
  end.

Notation "'let*' x ':=' r 'in' k" := (bind r (fun x => k))
  (at level 10, x name, r at level 100, k at level 200).

(** [d[k]] on a dict *)
Definition getitem (d : gmap string pyval) (k : string) : result pyval :=
  match d !! k with
  | Some v => Ok v
  | None => Raise (KeyError k)
  end.

(** [l[i]] on a list, for [i >= 0] *)
Definition list_getitem {A : Type} (l : list A) (i : nat) : result A :=
  match l !! i with
  | Some x => Ok x
  | None => Raise IndexError
  end.

(** [l[-1]] *)
Definition list_getitem_last {A : Type} (l : list A) : result A :=
  match last l with
  | Some x => Ok x
  | None => Raise IndexError
  end.

(** ** Provider configuration classes *)

(** An entry of a class's [__dict__]: a plain value, or one of the kinds of
    object that [get_config] filters out with [isinstance]. *)
Inductive attr : Type :=
| Data (v : pyval)
| FunctionType
| BuiltinFunctionType
| ClassMethod
| StaticMethod.

(** The [isinstance(v, (types.FunctionType, types.BuiltinFunctionType,
    classmethod, staticmethod))] test of [get_config]. *)
Definition isinstance_function (a : attr) : bool :=
  match a with Data _ => false | _ => true end.

(** One step of the comprehension of [get_config]: the value this entry
    contributes, if any. *)
Definition get_config_entry (k : string) (a : attr) : option pyval :=
  if negb (String.prefix "__" k) && negb (isinstance_function a) then
    match a with
    | Data v => if negb (is_None v) then Some v else None
    | _ => None
    end
  else None.

(** [get_config] (a classmethod, the same text in each configuration class):
    [{k: v for k, v in cls.__dict__.items() if ...}]. *)
Definition get_config (cls : gmap string attr) : gmap string pyval :=
  map_fold
    (fun k a acc =>
       match get_config_entry k a with
       | Some v => <[k := v]> acc
       | None => acc
       end)
    ∅ cls.

(** The body shared by every [__init__]: [locals_] holds [self] and the
    parameters; each parameter that is not [None] is written on the class
    with [setattr(self.__class__, key, value)]. *)
Definition config_init_step (cls : gmap string attr) (kv : string * pyval)
  : gmap string attr :=
  if negb (String.eqb kv.1 "self") && negb (is_None kv.2)
  then <[kv.1 := Data kv.2]> cls
  else cls.

Definition config_init (cls : gmap string attr) (locals_ : list (string * pyval))
  : gmap string attr :=
  foldl config_init_step cls locals_.

Module MistralConfig.

(** The parameters of [__init__] (lines 88-98); each defaults to [None]. *)
Record args : Type := {
  temperature : pyval;
  top_p : pyval;
  max_tokens : pyval;
  tools : pyval;
  tool_choice : pyval;
  random_seed : pyval;
  safe_prompt : pyval;
  response_format : pyval;
}.

Definition defaults : args :=
  {| temperature := PNone; top_p := PNone; max_tokens := PNone;
     tools := PNone; tool_choice := PNone; random_seed := PNone;
     safe_prompt := PNone; response_format := PNone |}.

Definition fields : list string :=
  ["temperature"; "top_p"; "max_tokens"; "tools"; "tool_choice";
   "random_seed"; "safe_prompt"; "response_format"].

(** [locals().copy()] at the first line of [__init__]. *)
Definition locals_ (a : args) : list (string * pyval) :=
  [("self", PObj "self");
   ("temperature", temperature a);
   ("top_p", top_p a);
   ("max_tokens", max_tokens a);
   ("tools", tools a);
   ("tool_choice", tool_choice a);
   ("random_seed", random_seed a);
   ("safe_prompt", safe_prompt a);
   ("response_format", response_format a)].

(** The class object as the class statement leaves it (lines 56-162). *)
Definition class_dict : gmap string attr :=
  list_to_map
    [("__module__", Data (PStr "litellm.llms.openai"));
     ("__doc__", Data (PStr "Reference: https://docs.mistral.ai/api/"));
     ("__annotations__", Data (PObj "annotations"));
     ("temperature", Data PNone);
     ("top_p", Data PNone);
     ("max_tokens", Data PNone);
     ("tools", Data PNone);
     ("tool_choice", Data PNone);
     ("random_seed", Data PNone);
     ("safe_prompt", Data PNone);
     ("response_format", Data PNone);
     ("__init__", FunctionType);
     ("get_config", ClassMethod);
     ("get_supported_openai_params", FunctionType);
     ("_map_tool_choice", FunctionType);
     ("map_openai_params", FunctionType);
     ("__dict__", Data (PObj "getset_descriptor"));
     ("__weakref__", Data (PObj "getset_descriptor"))].

(** [MistralConfig(...)]: the effect of the construction on the class. *)
Definition init (cls : gmap string attr) (a : args) : gmap string attr :=
  config_init cls (locals_ a).

Definition get_supported_openai_params : list string :=
  ["stream"; "temperature"; "top_p"; "max_tokens"; "tools"; "tool_choice";
   "seed"; "response_format"].

(** Lines 134-140. *)
Definition _map_tool_choice (tool_choice : string) : string :=
  if String.eqb tool_choice "auto" || String.eqb tool_choice "none"
  then tool_choice
  else if String.eqb tool_choice "required" then "any"
  else "any".

(** The body of the loop of [map_openai_params] (lines 144-161): eight
    independent [if] statements on the parameter's name. *)
Definition map_openai_params_step (param : string) (value : pyval)
    (optional_params : gmap string pyval) : gmap string pyval :=
  let optional_params :=
    if String.eqb param "max_tokens"
    then <["max_tokens" := value]> optional_params else optional_params in
  let optional_params :=
    if String.eqb param "tools"
    then <["tools" := value]> optional_params else optional_params in
  let optional_params :=
    if String.eqb param "stream" && py_eq value (PBool true)
    then <["stream" := value]> optional_params else optional_params in
  let optional_params :=
    if String.eqb param "temperature"
    then <["temperature" := value]> optional_params else optional_params in
  let optional_params :=
    if String.eqb param "top_p"
    then <["top_p" := value]> optional_params else optional_params in
  let optional_params :=
    if String.eqb param "tool_choice"
    then match value with
         | PStr s => <["tool_choice" := PStr (_map_tool_choice s)]> optional_params
         | _ => optional_params
         end
    else optional_params in
  let optional_params :=
    if String.eqb param "seed"
    then <["extra_body" := PDict [("random_seed", value)]]> optional_params
    else optional_params in
  let optional_params :=
    if String.eqb param "response_format"
    then <["response_format" := value]> optional_params else optional_params in
  optional_params.

(** Lines 142-162. *)
Definition map_openai_params
    (non_default_params optional_params : gmap string pyval)
  : gmap string pyval :=
  map_fold map_openai_params_step optional_params non_default_params.

End MistralConfig.

Module OpenAIConfig.

(** The parameters of [__init__] (lines 298-311). *)
Record args : Type := {
  frequency_penalty : pyval;
  function_call : pyval;
  functions : pyval;
  logit_bias : pyval;
  max_tokens : pyval;
  n : pyval;
  presence_penalty : pyval;
  stop : pyval;
  temperature : pyval;
  top_p : pyval;
  response_format : pyval;
}.

Definition defaults : args :=
  {| frequency_penalty := PNone; function_call := PNone; functions := PNone;
     logit_bias := PNone; max_tokens := PNone; n := PNone;
     presence_penalty := PNone; stop := PNone; temperature := PNone;
     top_p := PNone; response_format := PNone |}.

Definition locals_ (a : args) : list (string * pyval) :=
  [("self", PObj "self");
   ("frequency_penalty", frequency_penalty a);
   ("function_call", function_call a);
   ("functions", functions a);
   ("logit_bias", logit_bias a);
   ("max_tokens", max_tokens a);
   ("n", n a);
   ("presence_penalty", presence_penalty a);
   ("stop", stop a);
   ("temperature", temperature a);
   ("top_p", top_p a);
   ("response_format", response_format a)].

Definition class_dict : gmap string attr :=
  list_to_map
    [("__module__", Data (PStr "litellm.llms.openai"));
     ("__doc__",
      Data (PStr "Reference: https://platform.openai.com/docs/api-reference/chat/create"));
     ("__annotations__", Data (PObj "annotations"));
     ("frequency_penalty", Data PNone);
     ("function_call", Data PNone);
     ("functions", Data PNone);
     ("logit_bias", Data PNone);
     ("max_tokens", Data PNone);
     ("n", Data PNone);
     ("presence_penalty", Data PNone);
     ("stop", Data PNone);
     ("temperature", Data PNone);
     ("top_p", Data PNone);
     ("response_format", Data PNone);
     ("__init__", FunctionType);
     ("get_config", ClassMethod);
     ("get_supported_openai_params", FunctionType);
     ("map_openai_params", FunctionType);
     ("__dict__", Data (PObj "getset_descriptor"));
     ("__weakref__", Data (PObj "getset_descriptor"))].

Definition init (cls : gmap string attr) (a : args) : gmap string attr :=
  config_init cls (locals_ a).

Definition base_params : list string :=
  ["frequency_penalty"; "logit_bias"; "logprobs"; "top_logprobs";
   "max_tokens"; "n"; "presence_penalty"; "seed"; "stop"; "stream";
   "stream_options"; "temperature"; "top_p"; "tools"; "tool_choice";
   "user"; "function_call"; "functions"; "max_retries"; "extra_headers"].

(** Lines 335-365. *)
Definition get_supported_openai_params (model : string) : list string :=
  let model_specific_params : list string := [] in
  let model_specific_params :=
    if negb (String.eqb model "gpt-3.5-turbo-16k")
       && negb (String.eqb model "gpt-4")
    then model_specific_params ++ ["response_format"]
    else model_specific_params in
  base_params ++ model_specific_params.

(** [param in supported_openai_params] *)
Definition py_in_list (param : string) (l : list string) : bool :=
  existsb (String.eqb param) l.

(** Lines 367-374.  The loop assigns into [optional_params] itself, which
    is also what is returned. *)
Definition map_openai_params
    (non_default_params optional_params : gmap string pyval) (model : string)
  : gmap string pyval :=
  let supported_openai_params := get_supported_openai_params model in
  map_fold
    (fun param value optional_params =>
       if py_in_list param supported_openai_params
       then <[param := value]> optional_params
       else optional_params)
    optional_params non_default_params.

End OpenAIConfig.

(** ** The shared response envelope *)

(** Modelled from the spec: [Message], [Choices], [ModelResponse] and
    [TextCompletionResponse] are declared in [litellm.utils], which is not
    part of the sources at hand.  The spec describes the envelope as a
    record of choices, usage, id and model that the vendor payload is copied
    into; the constructors below store their arguments as given. *)
Module Message.
Record t : Type := { content : pyval; role : string }.
End Message.

Module Choices.
Record t : Type :=
  { finish_reason : pyval; index : nat; message : Message.t }.
End Choices.

(** One entry of [response_object["choices"]] of a text completion. *)
Module TextChoice.
Record t : Type := { text : pyval; finish_reason : pyval }.
End TextChoice.

(** The vendor payload of a text completion.  [choices] is read without a
    test; [usage], [id] and [model] are read under an ["..." in
    response_object] test, so they are optional here. *)
Module TextCompletionResponse.
Record t : Type := {
  choices : list TextChoice.t;
  usage : option pyval;
  id : option pyval;
  model : option pyval;
}.
End TextCompletionResponse.

Inductive hidden_param : Type :=
| HiddenValue (v : pyval)
| HiddenTextCompletion (r : TextCompletionResponse.t).

Module ModelResponse.
Record t : Type := {
  choices : list Choices.t;
  usage : pyval;
  id : pyval;
  model : pyval;
  _hidden_params : gmap string hidden_param;
}.

Definition set_choices (c : list Choices.t) (r : t) : t :=
  {| choices := c; usage := usage r; id := id r; model := model r;
     _hidden_params := _hidden_params r |}.
Definition set_usage (v : pyval) (r : t) : t :=
  {| choices := choices r; usage := v; id := id r; model := model r;
     _hidden_params := _hidden_params r |}.
Definition set_id (v : pyval) (r : t) : t :=
  {| choices := choices r; usage := usage r; id := v; model := model r;
     _hidden_params := _hidden_params r |}.
Definition set_model (v : pyval) (r : t) : t :=
  {| choices := choices r; usage := usage r; id := id r; model := v;
     _hidden_params := _hidden_params r |}.
Definition set_hidden (k : string) (v : hidden_param) (r : t) : t :=
  {| choices := choices r; usage := usage r; id := id r; model := model r;
     _hidden_params := <[k := v]> (_hidden_params r) |}.
End ModelResponse.

Module OpenAITextCompletionConfig.

(** [enumerate(l)] *)
Definition enumerate {A : Type} (l : list A) : list (nat * A) :=
  zip (seq 0 (length l)) l.

(** The body of the loop of lines 469-477. *)
Definition append_choice (choice_list : list Choices.t)
    (ic : nat * TextChoice.t) : list Choices.t :=
  let message :=
    {| Message.content := TextChoice.text ic.2;
       Message.role := "assistant" |} in
  let choice :=
    {| Choices.finish_reason := TextChoice.finish_reason ic.2;
       Choices.index := ic.1;
       Choices.message := message |} in
  choice_list ++ [choice].

(** Lines 459-494.  The [try ... except Exception as e: raise e] wrapper
    re-raises what it catches, so it does not show here. *)
Definition convert_to_chat_model_response_object
    (response_object : option TextCompletionResponse.t)
    (model_response_object : option ModelResponse.t)
  : result ModelResponse.t :=
  match response_object, model_response_object with
  | Some response_object, Some model_response_object =>
      let choice_list :=
        foldl append_choice []
          (enumerate (TextCompletionResponse.choices response_object)) in
      let model_response_object :=
        ModelResponse.set_choices choice_list model_response_object in
      let model_response_object :=
        match TextCompletionResponse.usage response_object with
        | Some u => ModelResponse.set_usage u model_response_object
        | None => model_response_object
        end in
      let model_response_object :=
        match TextCompletionResponse.id response_object with
        | Some i => ModelResponse.set_id i model_response_object
        | None => model_response_object
        end in
      let model_response_object :=
        match TextCompletionResponse.model response_object with
        | Some m => ModelResponse.set_model m model_response_object
        | None => model_response_object
        end in
      Ok (ModelResponse.set_hidden "original_response"
            (HiddenTextCompletion response_object) model_response_object)
  | _, _ => Raise (ValueError "Error in response object format")
  end.


(** The parameters of [__init__] (lines 421-435). *)
Record args : Type := {
  best_of : pyval;
  echo : pyval;
  frequency_penalty : pyval;
  logit_bias : pyval;
  logprobs : pyval;
  max_tokens : pyval;
  n : pyval;
  presence_penalty : pyval;
  stop : pyval;
  suffix : pyval;
  temperature : pyval;
  top_p : pyval;
}.

Definition locals_ (a : args) : list (string * pyval) :=
  [("self", PObj "self");
   ("best_of", best_of a);
   ("echo", echo a);
   ("frequency_penalty", frequency_penalty a);
   ("logit_bias", logit_bias a);
   ("logprobs", logprobs a);
   ("max_tokens", max_tokens a);
   ("n", n a);
   ("presence_penalty", presence_penalty a);
   ("stop", stop a);
   ("suffix", suffix a);
   ("temperature", temperature a);
   ("top_p", top_p a)].

(** The class object as the class statement leaves it (lines 377-494). *)
Definition class_dict : gmap string attr :=
  list_to_map
    [("__module__", Data (PStr "litellm.llms.openai"));
     ("__doc__",
      Data (PStr "Reference: https://platform.openai.com/docs/api-reference/completions/create"));
     ("__annotations__", Data (PObj "annotations"));
     ("best_of", Data PNone);
     ("echo", Data PNone);
     ("frequency_penalty", Data PNone);
     ("logit_bias", Data PNone);
     ("logprobs", Data PNone);
     ("max_tokens", Data PNone);
     ("n", Data PNone);
     ("presence_penalty", Data PNone);
     ("stop", Data PNone);
     ("suffix", Data PNone);
     ("temperature", Data PNone);
     ("top_p", Data PNone);
     ("__init__", FunctionType);
     ("get_config", ClassMethod);
     ("convert_to_chat_model_response_object", FunctionType);
     ("__dict__", Data (PObj "getset_descriptor"));
     ("__weakref__", Data (PObj "getset_descriptor"))].

Definition init (cls : gmap string attr) (a : args) : gmap string attr :=
  config_init cls (locals_ a).

End OpenAITextCompletionConfig.

(** ** OpenAIChatCompletion.completion *)

Module OpenAIChatCompletion.

(** A chat message is a plain dict. *)
Abbreviation message := (gmap string pyval).

(** The three vendor phrases the handler looks for (lines 647-648, 666). *)
Definition roles_must_alternate : string :=
  "Conversation roles must alternate user/assistant".
Definition roles_should_alternate : string :=
  "user and assistant roles should be alternating".
Definition last_must_be_user : string :=
  "Last message must have role `user`".

Definition alternation_error (e : exn) : bool :=
  py_in_str roles_must_alternate (str_exn e)
  || py_in_str roles_should_alternate (str_exn e).

Definition last_role_error (e : exn) : bool :=
  py_in_str last_must_be_user (str_exn e).

(** [{"role": role, "content": ""}] *)
Definition placeholder (role : string) : message :=
  {[ "role" := PStr role; "content" := PStr "" ]}.

(** One iteration of the loop of lines 654-662, on the list built so far. *)
Definition reformat_step (messages : list message)
    (acc : result (list message)) (i : nat) : result (list message) :=
  let* new_messages := acc in
  let* m_i := list_getitem messages i in
  let new_messages := new_messages ++ [m_i] in
  let* role_i := getitem m_i "role" in
  let* m_next := list_getitem messages (i + 1) in
  let* role_next := getitem m_next "role" in
  if py_eq role_i role_next then
    if py_eq role_i (PStr "user")
    then Ok (new_messages ++ [placeholder "assistant"])
    else Ok (new_messages ++ [placeholder "user"])
  else Ok new_messages.

(** Lines 653-664: the rewritten list, or the exception the rewriting
    raises ([messages[-1]] on an empty list, a message without ["role"]). *)
Definition reformat_messages (messages : list message)
  : result (list message) :=
  let* new_messages :=
    foldl (reformat_step messages) (Ok []) (seq 0 (length messages - 1)) in
  let* last_message := list_getitem_last messages in
  Ok (new_messages ++ [last_message]).

(** The handler of lines 643-672: the messages to retry with, or the
    exception that leaves the handler.  [print_verbose] only logs.  The
    last-message branch appends to the list it was given, in place; what
    is modelled is the contents the next iteration sees. *)
Definition handle_error (e : exn) (messages : option (list message))
  : result (option (list message)) :=
  match messages with
  | Some msgs =>
      if alternation_error e then
        let* new_messages := reformat_messages msgs in
        Ok (Some new_messages)
      else if last_role_error e then
        Ok (Some (msgs ++ [placeholder "user"]))
      else Raise e
  | None => Raise e
  end.

(** The runtime type of the [timeout] argument. *)
Inductive timeout_type : Type :=
| TimeoutFloat
| TimeoutHttpx
| TimeoutOther.

Record args : Type := {
  model_response : ModelResponse.t;
  timeout : timeout_type;
  optional_params : gmap string pyval;
  model : option string;
  messages : option (list message);
  acompletion : bool;
  headers : pyval;
  custom_llm_provider : option string;
}.

(** [data] of line 558 once [max_retries] is popped, with the popped
    value.  The entries of [optional_params] are spread last. *)
Record call : Type := {
  data_model : string;
  data_messages : option (list message);
  data_params : gmap string pyval;
  max_retries : pyval;
  call_model_response : ModelResponse.t;
}.

(** What [completion] hands back. *)
Inductive retval : Type :=
| RetResponse (r : ModelResponse.t)
| RetStream (s : pyval)
| RetCoroutine (method : string) (c : call)
| RetNone.

(** What the module does not define: [prompt_factory] (the prompt
    templates), the vendor client together with the logging calls and
    [convert_to_model_response_object] around it, the [streaming] method's
    vendor call, and the traceback text.  The vendor answers are indexed by
    the attempt, so that a second call with the same data may answer
    differently. *)
Record world : Type := {
  prompt_factory :
    string -> list message -> string -> result (option (list message));
  chat_completions_create : nat -> call -> result ModelResponse.t;
  streaming : nat -> call -> result pyval;
  format_exc : exn -> string;
}.

Definition make_call (optional_params : gmap string pyval)
    (mr : ModelResponse.t) (model : string)
    (messages : option (list message)) : call :=
  {| data_model := model;
     data_messages := messages;
     data_params := delete "max_retries" optional_params;
     max_retries := default (PInt 2) (optional_params !! "max_retries");
     call_model_response := mr |}.

(** The [try] block of lines 560-642, at iteration [i] of the loop. *)
Definition try_body (W : world) (a : args)
    (optional_params : gmap string pyval) (mr : ModelResponse.t)
    (model : string) (i : nat) (messages : option (list message))
  : result retval :=
  let c := make_call optional_params mr model messages in
  let stream :=
    py_truthy (default (PBool false) (optional_params !! "stream")) in
  if acompletion a then
    if stream then Ok (RetCoroutine "async_streaming" c)
    else Ok (RetCoroutine "acompletion" c)
  else if stream then
    let* s := streaming W i c in Ok (RetStream s)
  else if negb (isinstance_int (max_retries c)) then
    Raise (OpenAIError (PInt 422) "max retries must be an int")
  else
    let* r := chat_completions_create W i c in Ok (RetResponse r).

(** One pass through the [try] block, as the trace records it. *)
Record attempt : Type := {
  att_messages : option (list message);
  att_result : result retval;
}.

(** The loop of lines 555-672 over the remaining iterations.  When the
    iterations run out the function body ends, which returns [None]. *)
Fixpoint retry_loop (W : world) (a : args)
    (optional_params : gmap string pyval) (mr : ModelResponse.t)
    (model : string) (iters : list nat) (messages : option (list message))
  : list attempt * result retval :=
  match iters with
  | [] => ([], Ok RetNone)
  | i :: iters' =>
      let r := try_body W a optional_params mr model i messages in
      let att := {| att_messages := messages; att_result := r |} in
      match r with
      | Ok v => ([att], Ok v)
      | Raise e =>
          match handle_error e messages with
          | Ok messages' =>
              let rest :=
                retry_loop W a optional_params mr model iters' messages' in
              (att :: rest.1, rest.2)
          | Raise e' => ([att], Raise e')
          end
      end
  end.

(** Lines 537-553: the provider-specific preparation. *)
Definition prepare (W : world) (a : args) (model : string)
    (messages : list message)
  : result (ModelResponse.t * option (list message)) :=
  if negb (bool_decide (custom_llm_provider a = Some "openai")) then
    let mr :=
      ModelResponse.set_model
        (PStr (str_opt (custom_llm_provider a) ++ "/" ++ model)%string)
        (model_response a) in
    let* messages :=
      if bool_decide (custom_llm_provider a = Some "mistral")
      then prompt_factory W model messages "mistral"
      else Ok (Some messages) in
    let* messages :=
      match messages with
      | Some msgs =>
          if bool_decide (custom_llm_provider a = Some "perplexity")
          then prompt_factory W model msgs "perplexity"
          else Ok messages
      | None => Ok messages
      end in
    Ok (mr, messages)
  else Ok (model_response a, Some messages).

(** The outer [try] block, lines 524-672.  ([super().completion()] before
    it belongs to [BaseLLM] and does nothing.) *)
Definition completion_try (W : world) (a : args)
  : list attempt * result retval :=
  let optional_params :=
    if py_truthy (headers a)
    then <["extra_headers" := headers a]> (optional_params a)
    else optional_params a in
  match model a, messages a with
  | Some model, Some messages =>
      match timeout a with
      | TimeoutOther =>
          ([], Raise (OpenAIError (PInt 422)
                        "Timeout needs to be a float or httpx.Timeout"))
      | _ =>
          match prepare W a model messages with
          | Ok (mr, messages) =>
              retry_loop W a optional_params mr model (seq 0 2) messages
          | Raise e => ([], Raise e)
          end
      end
  | _, _ => ([], Raise (OpenAIError (PInt 422) "Missing model or messages"))
  end.

(** The two outer handlers, lines 673-680. *)
Definition normalize (W : world) (e : exn) : exn :=
  match e with
  | OpenAIError _ _ => e
  | PyExc _ (Some sc) _ => OpenAIError sc (str_exn e)
  | PyExc _ None _ => OpenAIError (PInt 500) (format_exc W e)
  end.

(** [completion]: the attempts made, and the value returned or the
    exception raised. *)
Definition completion (W : world) (a : args)
  : list attempt * result retval :=
  let r := completion_try W a in
  (r.1, match r.2 with
        | Ok v => Ok v
        | Raise e => Raise (normalize W e)
        end).

End OpenAIChatCompletion.

(** The choice that the loop of [convert_to_chat_model_response_object]
    appends at index [idx] for the vendor's [choice]. *)
Definition chat_choice (idx : nat) (choice : TextChoice.t) : Choices.t :=
  {| Choices.finish_reason := TextChoice.finish_reason choice;
     Choices.index := idx;
     Choices.message :=
       {| Message.content := TextChoice.text choice;
          Message.role := "assistant" |} |}.

(** ** Concrete inputs used below *)

(** [MistralConfig(temperature=1)] *)
Definition MistralConfig_temperature_1 : MistralConfig.args :=
  {| MistralConfig.temperature := PInt 1;
     MistralConfig.top_p := PNone;
     MistralConfig.max_tokens := PNone;
     MistralConfig.tools := PNone;
     MistralConfig.tool_choice := PNone;
     MistralConfig.random_seed := PNone;
     MistralConfig.safe_prompt := PNone;
     MistralConfig.response_format := PNone |}.

(** [{"temperature": 1}] and [{"temperature": 2}] *)
Definition temperature_1 : gmap string pyval := {[ "temperature" := PInt 1 ]}.
Definition temperature_2 : gmap string pyval := {[ "temperature" := PInt 2 ]}.

(** ** Vocabulary for the message rewriting *)

Section rewriting_vocabulary.

Import OpenAIChatCompletion.

(** The role of a message, [None] standing for a missing key. *)
Definition role_of (m : message) : pyval := default PNone (m !! "role").

Definition has_role (m : message) : Prop := is_Some (m !! "role").

(** Two messages carry roles that compare equal with [==]. *)
Definition same_role (m m' : message) : bool :=
  match m !! "role", m' !! "role" with
  | Some r, Some r' => py_eq r r'
  | _, _ => false
  end.

(** Some two neighbours of the list have the same role. *)
Fixpoint adjacent_same_role (l : list message) : bool :=
  match l with
  | [] => false
  | m :: rest =>
      match rest with
      | [] => false
      | m' :: _ => same_role m m' || adjacent_same_role rest
      end
  end.

(** The number of neighbouring pairs with the same role. *)
Fixpoint same_role_pairs (l : list message) : nat :=
  match l with
  | [] => 0
  | m :: rest =>
      match rest with
      | [] => 0
      | m' :: _ => (if same_role m m' then 1 else 0) + same_role_pairs rest
      end
  end.

(** An empty turn: role ["user"] or ["assistant"], content [""], and no
    other key. *)
Definition is_placeholder (p : message) : Prop :=
  p = placeholder "user" \/ p = placeholder "assistant".

(** [inserted_into l l']: [l'] is [l] with empty turns inserted; the
    messages of [l] are all there, unchanged and in their order. *)
Inductive inserted_into : list message -> list message -> Prop :=
| inserted_nil : inserted_into [] []
| inserted_keep (m : message) (l l' : list message) :
    inserted_into l l' -> inserted_into (m :: l) (m :: l')
| inserted_turn (p : message) (l l' : list message) :
    is_placeholder p -> inserted_into l l' -> inserted_into l (p :: l').

(** What the loop of the rewriting puts between two neighbours. *)
Definition separator (m m' : message) : list message :=
  if py_eq (role_of m) (role_of m') then
    if py_eq (role_of m) (PStr "user")
    then [placeholder "assistant"]
    else [placeholder "user"]
  else [].

(** The same, written with the roles as the dicts hold them: between [m]
    and [m'] the rewriting inserts nothing when their roles differ, and
    otherwise [{"role": "assistant", "content": ""}] when the role is
    ["user"] and [{"role": "user", "content": ""}] when it is any other. *)
Definition inserted_between (m m' : message) : list message :=
  match m !! "role", m' !! "role" with
  | Some r, Some r' =>
      if py_eq r r' then
        if py_eq r (PStr "user")
        then [ {[ "role" := PStr "assistant"; "content" := PStr "" ]} ]
        else [ {[ "role" := PStr "user"; "content" := PStr "" ]} ]
      else []
  | _, _ => []
  end.

(** The rewriting as a recursion on the list: what the loop has appended
    once it has run ([loop_output]), and the whole result ([alternate]). *)
Fixpoint loop_output (l : list message) : list message :=
  match l with
  | [] => []
  | m :: rest =>
      match rest with
      | [] => []
      | m' :: _ => m :: separator m m' ++ loop_output rest
      end
  end.

Fixpoint alternate (l : list message) : list message :=
  match l with
  | [] => []
  | m :: rest =>
      m :: match rest with
           | [] => []
           | m' :: _ => separator m m'
           end ++ alternate rest
  end.

(** The handler takes the retry branch for this exception. *)
Definition matched_error (e : exn) : bool :=
  alternation_error e || last_role_error e.

End rewriting_vocabulary.

(** ** Concrete conversations and vendors used below *)

Section examples.

Import OpenAIChatCompletion.

Definition user_message (content : string) : message :=
  {[ "role" := PStr "user"; "content" := PStr content ]}.

Definition assistant_message (content : string) : message :=
  {[ "role" := PStr "assistant"; "content" := PStr content ]}.

Definition system_message (content : string) : message :=
  {[ "role" := PStr "system"; "content" := PStr content ]}.

(** A message that lacks the ["role"] key. *)
Definition roleless_message (content : string) : message :=
  {[ "content" := PStr content ]}.

Definition empty_response : ModelResponse.t :=
  {| ModelResponse.choices := [];
     ModelResponse.usage := PNone;
     ModelResponse.id := PNone;
     ModelResponse.model := PNone;
     ModelResponse._hidden_params := ∅ |}.

(** The vendor client's error for a rejected request. *)
Definition bad_request (text : string) : exn :=
  PyExc "BadRequestError" (Some (PInt 400)) text.

(** A vendor that rejects attempt [i] with the [i]-th of the given texts. *)
Definition rejecting_world (texts : list string) : world :=
  {| prompt_factory := fun _ msgs _ => Ok (Some msgs);
     chat_completions_create :=
       fun i _ => Raise (bad_request (nth i texts ""));
     streaming := fun i _ => Raise (bad_request (nth i texts ""));
     format_exc := fun e => ("Traceback (most recent call last): " ++ str_exn e)%string |}.

(** A plain synchronous call to OpenAI with the given messages. *)
Definition chat_args (msgs : list message) : args :=
  {| model_response := empty_response;
     timeout := TimeoutFloat;
     optional_params := ∅;
     model := Some "gpt-4";
     messages := Some msgs;
     acompletion := false;
     headers := PNone;
     custom_llm_provider := Some "openai" |}.

End examples.

(** ** DeepInfraConfig *)

Module DeepInfraConfig.

(** The parameters of [__init__] (lines 186-201). *)
Record args : Type := {
  frequency_penalty : pyval;
  function_call : pyval;
  functions : pyval;
  logit_bias : pyval;
  max_tokens : pyval;
  n : pyval;
  presence_penalty : pyval;
  stop : pyval;
  temperature : pyval;
  top_p : pyval;
  response_format : pyval;
  tools : pyval;
  tool_choice : pyval;
}.

Definition locals_ (a : args) : list (string * pyval) :=
  [("self", PObj "self");
   ("frequency_penalty", frequency_penalty a);
   ("function_call", function_call a);
   ("functions", functions a);
   ("logit_bias", logit_bias a);
   ("max_tokens", max_tokens a);
   ("n", n a);
   ("presence_penalty", presence_penalty a);
   ("stop", stop a);
   ("temperature", temperature a);
   ("top_p", top_p a);
   ("response_format", response_format a);
   ("tools", tools a);
   ("tool_choice", tool_choice a)].

(** The class object as the class statement leaves it (lines 165-256). *)
Definition class_dict : gmap string attr :=
  list_to_map
    [("__module__", Data (PStr "litellm.llms.openai"));
     ("__doc__",
      Data (PStr "Reference: https://deepinfra.com/docs/advanced/openai_api"));
     ("__annotations__", Data (PObj "annotations"));
     ("frequency_penalty", Data PNone);
     ("function_call", Data PNone);
     ("functions", Data PNone);
     ("logit_bias", Data PNone);
     ("max_tokens", Data PNone);
     ("n", Data PNone);
     ("presence_penalty", Data PNone);
     ("stop", Data PNone);
     ("temperature", Data PNone);
     ("top_p", Data PNone);
     ("response_format", Data PNone);
     ("tools", Data PNone);
     ("tool_choice", Data PNone);
     ("__init__", FunctionType);
     ("get_config", ClassMethod);
     ("get_supported_openai_params", FunctionType);
     ("map_openai_params", FunctionType);
     ("__dict__", Data (PObj "getset_descriptor"));
     ("__weakref__", Data (PObj "getset_descriptor"))].

Definition init (cls : gmap string attr) (a : args) : gmap string attr :=
  config_init cls (locals_ a).

(** Lines 225-241. *)
Definition get_supported_openai_params : list string :=
  ["stream"; "frequency_penalty"; "function_call"; "functions"; "logit_bias";
   "max_tokens"; "n"; "presence_penalty"; "stop"; "temperature"; "top_p";
   "response_format"; "tools"; "tool_choice"].

(** The values of this mapping include floats: a finite float is
    [mantissa * 2 ^ exponent], every other value is a [pyval]. *)
Inductive fvalue : Type :=
| Py (v : pyval)
| Float (mantissa exponent : Z).

(** [value == 0]: a float equals 0 exactly when its mantissa is 0 (so
    [0.0] and [-0.0] do), any other value as [py_eq] has it. *)
Definition eq_zero (x : fvalue) : bool :=
  match x with
  | Py v => py_eq v (PInt 0)
  | Float mantissa _ => Z.eqb mantissa 0
  end.

(** The float [0.0001] of line 253, that is [0x1.a36e2eb1c432dp-14]. *)
Definition close_to_zero : fvalue := Float 7378697629483821 (-66).

(** The body of the loop of lines 247-255. *)
Definition map_openai_params_step (model : string)
    (param : string) (value : fvalue) (optional_params : gmap string fvalue)
  : gmap string fvalue :=
  let value :=
    if String.eqb param "temperature" && eq_zero value
       && String.eqb model "mistralai/Mistral-7B-Instruct-v0.1"
    then close_to_zero else value in
  if OpenAIConfig.py_in_list param get_supported_openai_params
  then <[param := value]> optional_params
  else optional_params.

(** Lines 243-256. *)
Definition map_openai_params
    (non_default_params optional_params : gmap string fvalue) (model : string)
  : gmap string fvalue :=
  map_fold (map_openai_params_step model) optional_params non_default_params.

End DeepInfraConfig.

(** ** Vocabulary for MistralConfig.map_openai_params *)

(** The entry that one pass of the loop body writes for [param], if any. *)
Definition Mistral_written (param : string) (value : pyval)
  : option (string * pyval) :=
  if String.eqb param "max_tokens" then Some ("max_tokens", value)
  else if String.eqb param "tools" then Some ("tools", value)
  else if String.eqb param "stream" then
    if py_eq value (PBool true) then Some ("stream", value) else None
  else if String.eqb param "temperature" then Some ("temperature", value)
  else if String.eqb param "top_p" then Some ("top_p", value)
  else if String.eqb param "tool_choice" then
    match value with
    | PStr s => Some ("tool_choice", PStr (MistralConfig._map_tool_choice s))
    | _ => None
    end
  else if String.eqb param "seed" then
    Some ("extra_body", PDict [("random_seed", value)])
  else if String.eqb param "response_format" then
    Some ("response_format", value)
  else None.

(** The keys the loop can write. *)
Definition Mistral_targets : list string :=
  ["max_tokens"; "tools"; "stream"; "temperature"; "top_p"; "tool_choice";
   "extra_body"; "response_format"].

(** The parameter whose pass writes key [k]. *)
Definition Mistral_source (k : string) : option string :=
  if String.eqb k "extra_body" then Some "seed"
  else if OpenAIConfig.py_in_list k
            ["max_tokens"; "tools"; "stream"; "temperature"; "top_p";
             "tool_choice"; "response_format"]
  then Some k
  else None.

(** ** Concrete parameter dicts used below *)

Definition seed_7 : gmap string pyval := {[ "seed" := PInt 7 ]}.
Definition stream_false : gmap string pyval := {[ "stream" := PBool false ]}.
Definition tool_choice_required : gmap string pyval :=
  {[ "tool_choice" := PStr "required" ]}.

(** [{"temperature": 0.0}] and [{"temperature": 0.7, "user": "u"}], the
    second with the float [0.7], that is [0x1.6666666666666p-1]. *)
Definition temperature_float_0 : gmap string DeepInfraConfig.fvalue :=
  {[ "temperature" := DeepInfraConfig.Float 0 0 ]}.
Definition temperature_float_0_7 : gmap string DeepInfraConfig.fvalue :=
  {[ "temperature" := DeepInfraConfig.Float 6305039478318694 (-53);
     "user" := DeepInfraConfig.Py (PStr "u") ]}.

(** ** More concrete calls used below *)

Section more_examples.

Import OpenAIChatCompletion.

(** A synchronous call whose [max_retries] is the string ["3"]. *)
Definition chat_args_bad_max_retries : args :=
  {| model_response := empty_response;
     timeout := TimeoutFloat;
     optional_params := {[ "max_retries" := PStr "3" ]};
     model := Some "gpt-4";
     messages := Some [user_message "hi"];
     acompletion := false;
     headers := PNone;
     custom_llm_provider := Some "openai" |}.

(** An asynchronous call. *)
Definition chat_args_async : args :=
  {| model_response := empty_response;
     timeout := TimeoutFloat;
     optional_params := ∅;
     model := Some "gpt-4";
     messages := Some [user_message "hi"];
     acompletion := true;
     headers := PNone;
     custom_llm_provider := Some "openai" |}.

End more_examples.

(** ** OpenAITextCompletion *)

Module OpenAITextCompletion.

Abbreviation message := (gmap string pyval).

(** An optional string as a Python value. *)
Definition opt_str (s : option string) : pyval :=
  match s with Some s => PStr s | None => PNone end.

(** Lines 1256-1262. *)
Definition validate_environment (api_key : option string)
  : gmap string pyval :=
  let headers : gmap string pyval :=
    {[ "content-type" := PStr "application/json" ]} in
  if py_truthy (opt_str api_key)
  then <["Authorization" := PStr ("Bearer " ++ str_opt api_key)%string]> headers
  else headers.

(** [type(v) == list] *)
Definition is_list (v : pyval) : bool :=
  match v with PList _ => true | _ => false end.

(** ["content" in messages[0] and type(messages[0]["content"]) == list],
    guarded by [len(messages) > 0] (lines 1290-1294). *)
Definition first_content_is_list (messages : list message) : bool :=
  (0 <? length messages)%nat
  && match messages !! 0%nat with
     | Some m0 =>
         bool_decide (is_Some (m0 !! "content"))
         && match m0 !! "content" with
            | Some c => is_list c
            | None => false
            end
     | None => false
     end.

(** [[message["content"] for message in messages]] *)
Fixpoint contents (messages : list message) : result (list pyval) :=
  match messages with
  | [] => Ok []
  | m :: rest =>
      let* c := getitem m "content" in
      let* cs := contents rest in
      Ok (c :: cs)
  end.

(** Lines 1290-1297: the prompt sent to the vendor. *)
Definition prompt (messages : list message) : result pyval :=
  if first_content_is_list messages then
    let* m0 := list_getitem messages 0 in
    getitem m0 "content"
  else
    let* cs := contents messages in
    Ok (PList cs).

Record args : Type := {
  model : option string;
  messages : option (list message);
  api_key : option string;
  headers : option (gmap string pyval);
  optional_params : option (gmap string pyval);
  acompletion : bool;
}.

(** [data] of line 1301 once [max_retries] is popped, with the headers
    that go to the logging call. *)
Record call : Type := {
  data_model : string;
  data_prompt : pyval;
  data_params : gmap string pyval;
  max_retries : pyval;
  call_headers : gmap string pyval;
}.

(** What [completion] hands back: the response, or the generator,
    coroutine or async generator of [streaming], [acompletion] and
    [async_streaming], none of which has started to run. *)
Inductive retval : Type :=
| RetTextCompletion (r : TextCompletionResponse.t)
| RetDeferred (method : string) (c : call).

(** What the module does not define: [logging_obj.pre_call] (which raises
    [AttributeError] when no logging object was passed) and the vendor
    client with the logging and [TextCompletionResponse(...)] after it. *)
Record world : Type := {
  pre_call : call -> result unit;
  completions_create : call -> result TextCompletionResponse.t;
}.

Definition TypeError_not_a_mapping : exn :=
  PyExc "TypeError" None "'NoneType' object is not a mapping".

(** Lines 1264-1374.  The handler [except Exception as e: raise e]
    re-raises what it catches. *)
Definition completion (W : world) (a : args) : result retval :=
  let headers :=
    match headers a with
    | None => validate_environment (api_key a)
    | Some h => h
    end in
  match model a, messages a with
  | Some model, Some messages =>
      let* p := prompt messages in
      match optional_params a with
      | None => Raise TypeError_not_a_mapping
      | Some optional_params =>
          let c :=
            {| data_model := model;
               data_prompt := p;
               data_params := delete "max_retries" optional_params;
               max_retries :=
                 default (PInt 2) (optional_params !! "max_retries");
               call_headers := headers |} in
          let stream :=
            py_truthy (default (PBool false) (optional_params !! "stream")) in
          let* _ := pre_call W c in
          if acompletion a then
            if stream then Ok (RetDeferred "async_streaming" c)
            else Ok (RetDeferred "acompletion" c)
          else if stream then Ok (RetDeferred "streaming" c)
          else
            let* r := completions_create W c in
            Ok (RetTextCompletion r)
      end
  | _, _ => Raise (OpenAIError (PInt 422) "Missing model or messages")
  end.

End OpenAITextCompletion.

(** ** get_openai_client (files, batches, assistants) *)

Module OpenAIClient.

(** The arguments of [get_openai_client] (lines 1514-1522, and the same
    text at 1573 and 1687). *)
Record args : Type := {
  api_key : pyval;
  api_base : pyval;
  timeout : pyval;
  max_retries : pyval;
  organization : pyval;
  client : pyval;
}.

(** [locals()] at the first line. *)
Definition received_args (a : args) : list (string * pyval) :=
  [("self", PObj "self");
   ("api_key", api_key a);
   ("api_base", api_base a);
   ("timeout", timeout a);
   ("max_retries", max_retries a);
   ("organization", organization a);
   ("client", client a)].

(** The body of the loop of lines 1526-1532. *)
Definition data_step (data : gmap string pyval) (kv : string * pyval)
  : gmap string pyval :=
  if String.eqb kv.1 "self" || String.eqb kv.1 "client" then data
  else if String.eqb kv.1 "api_base" && negb (is_None kv.2)
  then <["base_url" := kv.2]> data
  else if negb (is_None kv.2) then <[kv.1 := kv.2]> data
  else data.

(** The keyword arguments that [OpenAI] is called with. *)
Definition client_data (a : args) : gmap string pyval :=
  foldl data_step ∅ (received_args a).

(** Lines 1514-1537; [OpenAI] is the vendor's constructor. *)
Definition get_openai_client (OpenAI : gmap string pyval -> result pyval)
    (a : args) : result pyval :=
  if is_None (client a) then OpenAI (client_data a)
  else Ok (client a).

End OpenAIClient.

(** ** Concrete inputs for the text completion and the client *)

Section text_examples.

Import OpenAITextCompletion.

Definition has_content (m : message) : Prop := is_Some (m !! "content").

(** A message whose content is the list [["x"; "y"]]. *)
Definition list_content_message : message :=
  {[ "role" := PStr "user"; "content" := PList [PStr "x"; PStr "y"] ]}.

(** A message with a role and no content. *)
Definition contentless_message : message := {[ "role" := PStr "user" ]}.

(** A vendor whose call fails with a connection error, which has no
    [status_code]. *)
Definition unreachable_world : world :=
  {| pre_call := fun _ => Ok tt;
     completions_create :=
       fun _ => Raise (PyExc "APIConnectionError" None "Connection error.") |}.

Definition text_args (msgs : list message) : args :=
  {| model := Some "gpt-3.5-turbo-instruct";
     messages := Some msgs;
     api_key := Some "sk-test";
     headers := None;
     optional_params := Some ∅;
     acompletion := false |}.

End text_examples.

(** [get_openai_client(api_key="sk-test", api_base="http://localhost",
    timeout=None, max_retries=None, organization=None)] *)
Definition client_args_local : OpenAIClient.args :=
  {| OpenAIClient.api_key := PStr "sk-test";
     OpenAIClient.api_base := PStr "http://localhost";
     OpenAIClient.timeout := PNone;
     OpenAIClient.max_retries := PNone;
     OpenAIClient.organization := PNone;
     OpenAIClient.client := PNone |}.

(** ** OpenAIChatCompletion.ahealth_check *)

Module HealthCheck.

Abbreviation message := (gmap string pyval).

Record args : Type := {
  model : option string;
  mode : string;
  messages : option (list message);
  input : option pyval;
  prompt : option string;
}.

(** The vendor endpoint that a mode calls. *)
Inductive endpoint : Type :=
| CompletionsCreate
| ChatCompletionsCreate
| EmbeddingsCreate
| ImagesGenerate.

(** One [with_raw_response] call with its keyword arguments. *)
Record request : Type := {
  req_endpoint : endpoint;
  req_model : option string;
  req_prompt : option string;
  req_messages : option (list message);
  req_input : option pyval;
}.

(** The vendor: the [AsyncOpenAI] constructor, and the awaited
    [with_raw_response] call, which answers the headers of the raw response
    ([None] standing for a missing response or one without [headers]). *)
Record world : Type := {
  AsyncOpenAI : result unit;
  with_raw_response : request -> result (option (gmap string pyval));
}.

Definition Exception (msg : string) : exn := PyExc "Exception" None msg.

(** Lines 1202-1229: the request for the mode, or the error raised
    instead. *)
Definition dispatch (a : args) : result request :=
  if String.eqb (mode a) "completion" then
    Ok {| req_endpoint := CompletionsCreate; req_model := model a;
          req_prompt := prompt a; req_messages := None; req_input := None |}
  else if String.eqb (mode a) "chat" then
    match messages a with
    | None => Raise (Exception "messages is not set")
    | Some _ =>
        Ok {| req_endpoint := ChatCompletionsCreate; req_model := model a;
              req_prompt := None; req_messages := messages a;
              req_input := None |}
    end
  else if String.eqb (mode a) "embedding" then
    match input a with
    | None => Raise (Exception "input is not set")
    | Some _ =>
        Ok {| req_endpoint := EmbeddingsCreate; req_model := model a;
              req_prompt := None; req_messages := None;
              req_input := input a |}
    end
  else if String.eqb (mode a) "image_generation" then
    match prompt a with
    | None => Raise (Exception "prompt is not set")
    | Some _ =>
        Ok {| req_endpoint := ImagesGenerate; req_model := model a;
              req_prompt := prompt a; req_messages := None;
              req_input := None |}
    end
  else Raise (Exception "mode not set").

(** [headers.get(k, None) is not None] *)
Definition header_present (headers : gmap string pyval) (k : string) : bool :=
  match headers !! k with
  | Some v => negb (is_None v)
  | None => false
  end.

(** Lines 1230-1246: the dict that is returned. *)
Definition rate_limits (headers : gmap string pyval) : result (gmap string pyval) :=
  let response : gmap string pyval := ∅ in
  let* response :=
    if header_present headers "x-ratelimit-remaining-requests" then
      let* v := getitem headers "x-ratelimit-remaining-requests" in
      Ok (<["x-ratelimit-remaining-requests" := v]> response)
    else Ok response in
  let* response :=
    if header_present headers "x-ratelimit-remaining-tokens" then
      let* v := getitem headers "x-ratelimit-remaining-tokens" in
      Ok (<["x-ratelimit-remaining-tokens" := v]> response)
    else Ok response in
  Ok response.

(** Lines 1179-1246, once awaited: the requests made and the outcome. *)
Definition ahealth_check (W : world) (a : args)
  : list request * result (gmap string pyval) :=
  match AsyncOpenAI W with
  | Raise e => ([], Raise e)
  | Ok _ =>
      if bool_decide (model a = None)
         && negb (String.eqb (mode a) "image_generation")
      then ([], Raise (Exception "model is not set"))
      else
        match dispatch a with
        | Raise e => ([], Raise e)
        | Ok req =>
            match with_raw_response W req with
            | Raise e => ([req], Raise e)
            | Ok None => ([req], Raise (Exception "invalid completion response"))
            | Ok (Some headers) => ([req], rate_limits headers)
            end
        end
  end.

End HealthCheck.

(** ** OpenAIChatCompletion.embedding and image_generation *)

(** The two outer handlers shared by [embedding] (lines 944-951) and
    [image_generation] (lines 1056-1078): an [OpenAIError] passes, anything
    else becomes an [OpenAIError] with [str(e)] as message. *)
Definition normalize_str (e : exn) : exn :=
  match e with
  | OpenAIError _ _ => e
  | PyExc _ (Some sc) _ => OpenAIError sc (str_exn e)
  | PyExc _ None _ => OpenAIError (PInt 500) (str_exn e)
  end.

Definition TypeError_not_a_mapping : exn :=
  PyExc "TypeError" None "'NoneType' object is not a mapping".

Module Embedding.

Record args : Type := {
  model : string;
  input : pyval;
  optional_params : option (gmap string pyval);
  aembedding : pyval;
}.

(** [data] of line 908 once [max_retries] is popped. *)
Record call : Type := {
  data_model : string;
  data_input : pyval;
  data_params : gmap string pyval;
  max_retries : pyval;
}.

Inductive retval : Type :=
| RetResponse (r : pyval)
| RetCoroutine (c : call).

(** What [embedding] calls outside the module. *)
Inductive event : Type :=
| PreCall (c : call)
| EmbeddingsCreate (c : call).

(** [logging_obj.pre_call], and the vendor client with the logging and
    the response conversion after it. *)
Record world : Type := {
  pre_call : call -> result unit;
  embeddings_create : call -> result pyval;
}.

(** The [try] block, lines 907-943. *)
Definition embedding_try (W : world) (a : args)
  : list event * result retval :=
  match optional_params a with
  | None => ([], Raise TypeError_not_a_mapping)
  | Some optional_params =>
      let c :=
        {| data_model := model a;
           data_input := input a;
           data_params := delete "max_retries" optional_params;
           max_retries :=
             default (PInt 2) (optional_params !! "max_retries") |} in
      if negb (isinstance_int (max_retries c)) then
        ([], Raise (OpenAIError (PInt 422) "max retries must be an int"))
      else
        match pre_call W c with
        | Raise e => ([PreCall c], Raise e)
        | Ok _ =>
            if py_eq (aembedding a) (PBool true) then
              ([PreCall c], Ok (RetCoroutine c))
            else
              match embeddings_create W c with
              | Raise e => ([PreCall c; EmbeddingsCreate c], Raise e)
              | Ok r => ([PreCall c; EmbeddingsCreate c], Ok (RetResponse r))
              end
        end
  end.

(** Lines 891-951. *)
Definition embedding (W : world) (a : args) : list event * result retval :=
  let r := embedding_try W a in
  (r.1, match r.2 with
        | Ok v => Ok v
        | Raise e => Raise (normalize_str e)
        end).

End Embedding.

Module ImageGeneration.

(** A logging object: its two methods. *)
Record logger : Type := {
  pre_call : result unit;
  post_call : result unit;
}.

Record args : Type := {
  model : option string;
  prompt : string;
  optional_params : option (gmap string pyval);
  logging_obj : option logger;
  aimg_generation : pyval;
}.

(** [data] of line 1012 once [max_retries] is popped. *)
Record call : Type := {
  data_model : option string;
  data_prompt : string;
  data_params : gmap string pyval;
  max_retries : pyval;
}.

Inductive retval : Type :=
| RetResponse (r : pyval)
| RetCoroutine (c : call).

(** The vendor: the [OpenAI] constructor, [images.generate] with
    [model_dump], and [convert_to_model_response_object]. *)
Record world : Type := {
  OpenAI : call -> result unit;
  images_generate : call -> result pyval;
  convert : pyval -> result pyval;
}.

Definition AttributeError (attribute : string) : exn :=
  PyExc "AttributeError" None
    ("'NoneType' object has no attribute '" ++ attribute ++ "'")%string.

Definition UnboundLocalError (name : string) : exn :=
  PyExc "UnboundLocalError" None
    ("cannot access local variable '" ++ name
     ++ "' where it is not associated with a value")%string.

(** [logging_obj.pre_call(...)] *)
Definition log_pre_call (lo : option logger) : result unit :=
  match lo with
  | None => Raise (AttributeError "pre_call")
  | Some l => pre_call l
  end.

(** [logging_obj.post_call(..., additional_args={"complete_input_dict":
    data}, ...)]: the method is looked up first, then the arguments are
    evaluated, [data] among them, which is unbound when line 1012 raised. *)
Definition log_post_call (lo : option logger) (data : option call)
  : result unit :=
  match lo with
  | None => Raise (AttributeError "post_call")
  | Some l =>
      match data with
      | None => Raise (UnboundLocalError "data")
      | Some _ => post_call l
      end
  end.

Definition make_call (a : args) (optional_params : gmap string pyval) : call :=
  {| data_model := model a;
     data_prompt := prompt a;
     data_params := delete "max_retries" optional_params;
     max_retries := default (PInt 2) (optional_params !! "max_retries") |}.

(** The [try] block, lines 1011-1055. *)
Definition image_generation_try (W : world) (a : args) : result retval :=
  match optional_params a with
  | None => Raise TypeError_not_a_mapping
  | Some optional_params =>
      let c := make_call a optional_params in
      if negb (isinstance_int (max_retries c)) then
        Raise (OpenAIError (PInt 422) "max retries must be an int")
      else if py_eq (aimg_generation a) (PBool true) then
        Ok (RetCoroutine c)
      else
        let* _ := OpenAI W c in
        let* _ := log_pre_call (logging_obj a) in
        let* response := images_generate W c in
        let* _ := log_post_call (logging_obj a) (Some c) in
        let* r := convert W response in
        Ok (RetResponse r)
  end.

(** Lines 996-1078.  Both handlers log with [post_call] before they
    raise. *)
Definition image_generation (W : world) (a : args) : result retval :=
  match image_generation_try W a with
  | Ok v => Ok v
  | Raise e =>
      let data := make_call a <$> optional_params a in
      let* _ := log_post_call (logging_obj a) data in
      Raise (normalize_str e)
  end.

End ImageGeneration.

(** ** OpenAIChatCompletion.async_streaming *)

Module AsyncStreaming.

(** The vendor's streaming response: whether it has a [text] attribute. *)
Record response : Type := { text : option string }.

(** The client construction and [pre_call], the awaited vendor call, and
    the construction of the stream wrapper. *)
Record world : Type := {
  setup : result unit;
  create : result response;
  CustomStreamWrapper : response -> result pyval;
}.

(** [type(e).__name__] *)
Definition type_name (e : exn) : string :=
  match e with
  | OpenAIError _ _ => "OpenAIError"
  | PyExc cls _ _ => cls
  end.

Definition original_response : string :=
  String (Ascii.ascii_of_nat 10)
    (String (Ascii.ascii_of_nat 10) "Original Response: ").

(** The handler of lines 832-846; [response] is [None] until the vendor
    call has returned. *)
Definition handler (response : option response) (e : exn) : exn :=
  match response ≫= text with
  | Some t => OpenAIError (PInt 500) (str_exn e ++ original_response ++ t)%string
  | None =>
      if String.eqb (type_name e) "ReadTimeout"
      then OpenAIError (PInt 408) (type_name e)
      else match exn_status_code e with
           | Some sc => OpenAIError sc (str_exn e)
           | None => OpenAIError (PInt 500) (str_exn e)
           end
  end.

(** Lines 783-846, once awaited. *)
Definition async_streaming (W : world) : result pyval :=
  match setup W with
  | Raise e => Raise (handler None e)
  | Ok _ =>
      match create W with
      | Raise e => Raise (handler None e)
      | Ok response =>
          match CustomStreamWrapper W response with
          | Raise e => Raise (handler (Some response) e)
          | Ok s => Ok s
          end
      end
  end.

End AsyncStreaming.

(** ** Concrete vendors for the health check, embeddings and images *)

(** A vendor whose raw response carries the remaining-requests header, a
    [None] remaining-tokens header and one more header. *)
Definition health_world : HealthCheck.world :=
  {| HealthCheck.AsyncOpenAI := Ok tt;
     HealthCheck.with_raw_response :=
       fun _ =>
         Ok (Some ({[ "x-ratelimit-remaining-requests" := PStr "99";
                      "x-ratelimit-remaining-tokens" := PNone;
                      "content-type" := PStr "application/json" ]}
                   : gmap string pyval)) |}.

Definition health_args_chat : HealthCheck.args :=
  {| HealthCheck.model := Some "gpt-4";
     HealthCheck.mode := "chat";
     HealthCheck.messages := Some [user_message "ping"];
     HealthCheck.input := None;
     HealthCheck.prompt := None |}.

(** A vendor that rejects the embeddings request with status 429. *)
Definition embedding_world_429 : Embedding.world :=
  {| Embedding.pre_call := fun _ => Ok tt;
     Embedding.embeddings_create :=
       fun _ => Raise (PyExc "RateLimitError" (Some (PInt 429)) "slow down") |}.

Definition embedding_args : Embedding.args :=
  {| Embedding.model := "text-embedding-3-small";
     Embedding.input := PList [PStr "hello"];
     Embedding.optional_params := Some ∅;
     Embedding.aembedding := PNone |}.

(** A logging object whose calls return. *)
Definition quiet_logger : ImageGeneration.logger :=
  {| ImageGeneration.pre_call := Ok tt; ImageGeneration.post_call := Ok tt |}.

(** A vendor whose image endpoint times out. *)
Definition image_world_timeout : ImageGeneration.world :=
  {| ImageGeneration.OpenAI := fun _ => Ok tt;
     ImageGeneration.images_generate :=
       fun _ => Raise (PyExc "APITimeoutError" None "Request timed out.");
     ImageGeneration.convert := fun r => Ok r |}.

Definition image_args (optional_params : option (gmap string pyval))
    (lo : option ImageGeneration.logger) : ImageGeneration.args :=
  {| ImageGeneration.model := Some "dall-e-3";
     ImageGeneration.prompt := "a cat";
     ImageGeneration.optional_params := optional_params;
     ImageGeneration.logging_obj := lo;
     ImageGeneration.aimg_generation := PNone |}.

(** A stream whose vendor call times out while reading, with a status
    code on the exception. *)
Definition stream_world_read_timeout : AsyncStreaming.world :=
  {| AsyncStreaming.setup := Ok tt;
     AsyncStreaming.create :=
       Raise (PyExc "ReadTimeout" (Some (PInt 504)) "timed out");
     AsyncStreaming.CustomStreamWrapper := fun _ => Ok (PObj "stream") |}.

(** * Properties *)

(** ** The definitions on small inputs *)

Example py_in_str_inside :
  py_in_str "roles must alternate" "400: roles must alternate (vendor)" = true.
Proof. reflexivity. Qed.

Example py_in_str_absent :
  py_in_str "roles must alternate" "roles must not alternate" = false.
Proof. reflexivity. Qed.

Example get_supported_openai_params_gpt_4 :
  OpenAIConfig.get_supported_openai_params "gpt-4" = OpenAIConfig.base_params.
Proof. reflexivity. Qed.

Example reformat_messages_user_user_assistant :
  OpenAIChatCompletion.reformat_messages
    [user_message "a"; user_message "b"; assistant_message "c"]
  = Ok [user_message "a"; OpenAIChatCompletion.placeholder "assistant";
        user_message "b"; assistant_message "c"].
Proof. reflexivity. Qed.

Example reformat_messages_roleless :
  OpenAIChatCompletion.reformat_messages
    [roleless_message "a"; user_message "b"]
  = Raise (KeyError "role").
Proof. reflexivity. Qed.

Example get_config_fresh_class : get_config MistralConfig.class_dict = ∅.
Proof. reflexivity. Qed.

(** ** Strings and the small Python layer *)

Lemma string_eqb_true (s t : string) : String.eqb s t = true <-> s = t.
Proof. apply String.eqb_eq. Qed.

Lemma string_eqb_false (s t : string) : String.eqb s t = false <-> s <> t.
Proof. apply String.eqb_neq. Qed.

Lemma py_eq_str_r (a : pyval) (s : string) :
  py_eq a (PStr s) = true <-> a = PStr s.
Proof.
  destruct a; simpl; try (split; discriminate).
  rewrite String.eqb_eq. split; intros H; [by subst | by inversion H].
Qed.

Lemma py_eq_str_l (s : string) (b : pyval) :
  py_eq (PStr s) b = true <-> b = PStr s.
Proof.
  destruct b; simpl; try (split; discriminate).
  rewrite String.eqb_eq. split; intros H; [by subst | by inversion H].
Qed.

Lemma is_None_false (v : pyval) : is_None v = false <-> v <> PNone.
Proof. destruct v; simpl; split; intros; congruence. Qed.

Lemma is_None_true (v : pyval) : is_None v = true <-> v = PNone.
Proof. destruct v; simpl; split; intros; congruence. Qed.

Lemma assoc_elem_of {A : Type} (k : string) (v : A) (d : list (string * A)) :
  assoc k d = Some v -> (k, v) ∈ d.
Proof.
  induction d as [|[k' v'] d IH]; simpl; [discriminate|].
  destruct (String.eqb k k') eqn:E.
  - apply String.eqb_eq in E. intros [= ->]. subst. left.
  - intros H. right. by apply IH.
Qed.

Lemma assoc_NoDup {A : Type} (k : string) (v : A) (d : list (string * A)) :
  NoDup d.*1 -> (k, v) ∈ d -> assoc k d = Some v.
Proof.
  induction d as [|[k' v'] d IH]; simpl; intros Hnd Hin.
  - by apply elem_of_nil in Hin.
  - apply NoDup_cons in Hnd as [Hk' Hnd].
    apply elem_of_cons in Hin as [[= -> ->]|Hin].
    + by rewrite String.eqb_refl.
    + destruct (String.eqb k k') eqn:E; [|by apply IH].
      apply String.eqb_eq in E. subst k'. exfalso. apply Hk'.
      apply list_elem_of_fmap. by exists (k, v).
Qed.

Lemma assoc_None {A : Type} (k : string) (d : list (string * A)) :
  assoc k d = None <-> k ∉ d.*1.
Proof.
  induction d as [|[k' v'] d IH]; simpl.
  - split; [intros _; apply not_elem_of_nil | done].
  - rewrite not_elem_of_cons. destruct (String.eqb k k') eqn:E.
    + apply String.eqb_eq in E. split; [discriminate | intros [? _]; done].
    + apply String.eqb_neq in E. rewrite IH. tauto.
Qed.

(** ** Configuration classes *)

Section get_config.

(** [get_config] looks each attribute up independently of the others. *)
Lemma get_config_lookup (cls : gmap string attr) (k : string) :
  get_config cls !! k = cls !! k ≫= get_config_entry k.
Proof.
  unfold get_config.
  apply (map_fold_weak_ind
           (fun (r : gmap string pyval) (m : gmap string attr) =>
              r !! k = m !! k ≫= get_config_entry k)).
  - by rewrite !lookup_empty.
  - intros i a m r Hi IH.
    destruct (decide (i = k)) as [->|Hne].
    + rewrite lookup_insert_eq. simpl. rewrite Hi in IH. simpl in IH.
      destruct (get_config_entry k a) as [v|]; [by rewrite lookup_insert_eq | done].
    + rewrite lookup_insert_ne by done.
      destruct (get_config_entry i a); [by rewrite lookup_insert_ne | done].
Qed.

Lemma get_config_entry_Some (k : string) (a : attr) (v : pyval) :
  get_config_entry k a = Some v <->
  a = Data v /\ String.prefix "__" k = false /\ v <> PNone.
Proof.
  unfold get_config_entry.
  destruct (String.prefix "__" k); simpl.
  - split; [discriminate | intros (_ & ? & _); discriminate].
  - destruct a as [w| | | |]; simpl; try (split; [discriminate | intros (? & _); discriminate]).
    destruct w; simpl; split; try (intros [= <-]; done);
      try (intros ([= <-] & _ & ?); done).
Qed.

Lemma get_config_Some (cls : gmap string attr) (k : string) (v : pyval) :
  get_config cls !! k = Some v <->
  cls !! k = Some (Data v) /\ String.prefix "__" k = false /\ v <> PNone.
Proof.
  rewrite get_config_lookup. destruct (cls !! k) as [a|]; simpl.
  - rewrite get_config_entry_Some. split.
    + intros (-> & ? & ?). done.
    + intros ([= ->] & ? & ?). done.
  - split; [discriminate | intros (? & _); discriminate].
Qed.

End get_config.

Section config_init.

Lemma config_init_step_lookup (cls : gmap string attr) (kv : string * pyval)
    (k : string) :
  config_init_step cls kv !! k =
    if bool_decide (kv.1 = k) && negb (String.eqb kv.1 "self")
       && negb (is_None kv.2)
    then Some (Data kv.2) else cls !! k.
Proof.
  unfold config_init_step. destruct kv as [k' v]; simpl.
  destruct (String.eqb k' "self"); simpl; [by rewrite andb_false_r|].
  destruct (is_None v); simpl; [by rewrite andb_false_r|].
  rewrite !andb_true_r. case_bool_decide as Hk.
  - subst. by rewrite lookup_insert_eq.
  - by rewrite lookup_insert_ne.
Qed.

(** A key that no parameter writes keeps its attribute. *)
Lemma config_init_unwritten (locals_ : list (string * pyval))
    (cls : gmap string attr) (k : string) :
  (forall v, (k, v) ∈ locals_ -> k = "self" \/ v = PNone) ->
  config_init cls locals_ !! k = cls !! k.
Proof.
  unfold config_init. revert cls.
  induction locals_ as [|[k' v'] l IH]; intros cls H; simpl; [done|].
  rewrite IH.
  - rewrite config_init_step_lookup; simpl.
    case_bool_decide as Hk; simpl; [|done]. subst k'.
    destruct (H v') as [->| ->]; [left | done | simpl; by rewrite andb_false_r].
  - intros v Hv. apply H. by right.
Qed.

(** A parameter that is not [None] is written on the class. *)
Lemma config_init_written (locals_ : list (string * pyval))
    (cls : gmap string attr) (k : string) (v : pyval) :
  NoDup locals_.*1 -> (k, v) ∈ locals_ -> k <> "self" -> v <> PNone ->
  config_init cls locals_ !! k = Some (Data v).
Proof.
  unfold config_init. revert cls.
  induction locals_ as [|[k' v'] l IH]; intros cls Hnd Hin Hs Hn; simpl.
  - by apply elem_of_nil in Hin.
  - simpl in Hnd. apply NoDup_cons in Hnd as [Hk' Hnd].
    apply elem_of_cons in Hin as [[= <- <-]|Hin].
    + fold (config_init (config_init_step cls (k, v)) l).
      rewrite config_init_unwritten.
      * rewrite config_init_step_lookup; simpl.
        rewrite bool_decide_eq_true_2 by done.
        apply String.eqb_neq in Hs. apply is_None_false in Hn.
        by rewrite Hs, Hn.
      * intros w Hw. exfalso. apply Hk'. apply list_elem_of_fmap. by exists (k, w).
    + by apply IH.
Qed.

End config_init.

Lemma MistralConfig_locals_NoDup (a : MistralConfig.args) :
  NoDup (MistralConfig.locals_ a).*1.
Proof. simpl. apply (bool_decide_unpack _). vm_compute. exact I. Qed.

Lemma OpenAIConfig_locals_NoDup (a : OpenAIConfig.args) :
  NoDup (OpenAIConfig.locals_ a).*1.
Proof. simpl. apply (bool_decide_unpack _). vm_compute. exact I. Qed.

(** ** OpenAIConfig: the allow-list *)

Lemma py_in_list_true (param : string) (l : list string) :
  OpenAIConfig.py_in_list param l = true <-> param ∈ l.
Proof.
  unfold OpenAIConfig.py_in_list. rewrite existsb_exists. split.
  - intros (x & Hx & E). apply String.eqb_eq in E. subst.
    by apply list_elem_of_In.
  - intros H. exists param. split; [by apply list_elem_of_In | apply String.eqb_refl].
Qed.

Lemma py_in_list_false (param : string) (l : list string) :
  OpenAIConfig.py_in_list param l = false <-> param ∉ l.
Proof.
  rewrite <- py_in_list_true. destruct (OpenAIConfig.py_in_list param l); split;
    intros; congruence.
Qed.

(** The loop of [map_openai_params], key by key. *)
Lemma map_openai_params_lookup
    (non_default_params optional_params : gmap string pyval) (model k : string) :
  OpenAIConfig.map_openai_params non_default_params optional_params model !! k =
    match non_default_params !! k with
    | Some v =>
        if OpenAIConfig.py_in_list k (OpenAIConfig.get_supported_openai_params model)
        then Some v else optional_params !! k
    | None => optional_params !! k
    end.
Proof.
  unfold OpenAIConfig.map_openai_params. cbv zeta.
  set (sup := OpenAIConfig.get_supported_openai_params model).
  apply (map_fold_weak_ind
           (fun (r : gmap string pyval) (m : gmap string pyval) =>
              r !! k = match m !! k with
                       | Some v => if OpenAIConfig.py_in_list k sup
                                   then Some v else optional_params !! k
                       | None => optional_params !! k
                       end)).
  - by rewrite lookup_empty.
  - intros i x m r Hi IH. cbv beta in *.
    destruct (decide (i = k)) as [->|Hne].
    + rewrite (lookup_insert_eq m). rewrite Hi in IH.
      destruct (OpenAIConfig.py_in_list k sup); [by rewrite lookup_insert_eq | done].
    + rewrite (lookup_insert_ne m) by done.
      destruct (OpenAIConfig.py_in_list i sup); [by rewrite lookup_insert_ne | done].
Qed.

(** C10.  ["response_format"] is in the list returned by
    [OpenAIConfig.get_supported_openai_params(model)] exactly when the model
    is neither ["gpt-3.5-turbo-16k"] nor ["gpt-4"]; each of the twenty other
    parameters (["temperature"], ["max_tokens"], ["stream"], ...) is in the
    list whatever the model; and the list holds nothing else. *)
Theorem get_supported_openai_params_members (model : string) :
  ("response_format" ∈ OpenAIConfig.get_supported_openai_params model
   <-> model <> "gpt-3.5-turbo-16k" /\ model <> "gpt-4")
  /\ (forall p : string,
        p ∈ ["frequency_penalty"; "logit_bias"; "logprobs"; "top_logprobs";
             "max_tokens"; "n"; "presence_penalty"; "seed"; "stop"; "stream";
             "stream_options"; "temperature"; "top_p"; "tools"; "tool_choice";
             "user"; "function_call"; "functions"; "max_retries";
             "extra_headers"] ->
        p ∈ OpenAIConfig.get_supported_openai_params model)
  /\ "temperature" ∈ OpenAIConfig.get_supported_openai_params model
  /\ "max_tokens" ∈ OpenAIConfig.get_supported_openai_params model
  /\ "stream" ∈ OpenAIConfig.get_supported_openai_params model
  /\ (forall p : string,
        p ∈ OpenAIConfig.get_supported_openai_params model ->
        p = "response_format"
        \/ p ∈ ["frequency_penalty"; "logit_bias"; "logprobs"; "top_logprobs";
                "max_tokens"; "n"; "presence_penalty"; "seed"; "stop";
                "stream"; "stream_options"; "temperature"; "top_p"; "tools";
                "tool_choice"; "user"; "function_call"; "functions";
                "max_retries"; "extra_headers"]).
Proof.
  assert (Hbase : "response_format" ∉ OpenAIConfig.base_params).
  { apply py_in_list_false. reflexivity. }
  assert (Hall : forall p : string,
            p ∈ ["frequency_penalty"; "logit_bias"; "logprobs"; "top_logprobs";
                 "max_tokens"; "n"; "presence_penalty"; "seed"; "stop";
                 "stream"; "stream_options"; "temperature"; "top_p"; "tools";
                 "tool_choice"; "user"; "function_call"; "functions";
                 "max_retries"; "extra_headers"] ->
            p ∈ OpenAIConfig.get_supported_openai_params model).
  { intros p Hp. unfold OpenAIConfig.get_supported_openai_params. cbv zeta.
    apply elem_of_app. left. exact Hp. }
  split; [|split; [exact Hall|split; [|split; [|split]]]].
  - unfold OpenAIConfig.get_supported_openai_params. cbv zeta.
    destruct (String.eqb model "gpt-3.5-turbo-16k") eqn:E1; cbn [negb andb].
    { apply String.eqb_eq in E1. rewrite app_nil_r. split; [done | tauto]. }
    destruct (String.eqb model "gpt-4") eqn:E2; cbn [negb andb].
    { apply String.eqb_eq in E2. rewrite app_nil_r. split; [done | tauto]. }
    apply String.eqb_neq in E1, E2. split; [done|]. intros _.
    apply elem_of_app. right. apply elem_of_app. right.
    by apply list_elem_of_singleton.
  - apply Hall, py_in_list_true. reflexivity.
  - apply Hall, py_in_list_true. reflexivity.
  - apply Hall, py_in_list_true. reflexivity.
  - intros p. unfold OpenAIConfig.get_supported_openai_params. cbv zeta.
    intros Hp. apply elem_of_app in Hp as [Hp|Hp]; [right; exact Hp|].
    left. destruct (negb _ && negb _).
    + apply elem_of_app in Hp as [Hp|Hp]; [by apply elem_of_nil in Hp|].
      by apply list_elem_of_singleton in Hp.
    + by apply elem_of_nil in Hp.
Qed.

(** C5, as stated, fails where the two dicts share a supported key: the
    prior entry of [optional_params] is replaced, not kept. *)
Lemma map_openai_params_overwrites_prior :
  temperature_1 !! "temperature" = Some (PInt 1)
  /\ OpenAIConfig.map_openai_params temperature_2 temperature_1 "gpt-4"
       !! "temperature" = Some (PInt 2)
  /\ ~ (forall (k : string) (v : pyval),
          OpenAIConfig.map_openai_params temperature_2 temperature_1 "gpt-4"
            !! k = Some v
          <-> temperature_1 !! k = Some v
              \/ (temperature_2 !! k = Some v
                  /\ k ∈ OpenAIConfig.get_supported_openai_params "gpt-4")).
Proof.
  assert (H2 : OpenAIConfig.map_openai_params temperature_2 temperature_1 "gpt-4"
                 !! "temperature" = Some (PInt 2)).
  { rewrite map_openai_params_lookup. reflexivity. }
  split; [reflexivity|]. split; [exact H2|].
  intros H. specialize (H "temperature" (PInt 1)).
  destruct H as [_ H]. rewrite H2 in H.
  assert (Some (PInt 2) = Some (PInt 1)) as [=]. apply H. left. reflexivity.
Qed.

(** C5, amended.  [OpenAIConfig.map_openai_params] is an allow-list with
    overwrite: under a key of [non_default_params] that is in
    [get_supported_openai_params(model)] the returned dict holds the value of
    [non_default_params], unchanged; under every other key it holds what
    [optional_params] held before (or nothing).  So a key outside the
    supported list is never added, and a prior entry survives unless a
    supported key of [non_default_params] replaces it. *)
Theorem map_openai_params_allow_list
    (non_default_params optional_params : gmap string pyval) (model : string) :
  (forall (k : string) (v : pyval),
     non_default_params !! k = Some v ->
     k ∈ OpenAIConfig.get_supported_openai_params model ->
     OpenAIConfig.map_openai_params non_default_params optional_params model !! k
       = Some v)
  /\ (forall k : string,
        non_default_params !! k = None
        \/ k ∉ OpenAIConfig.get_supported_openai_params model ->
        OpenAIConfig.map_openai_params non_default_params optional_params model !! k
          = optional_params !! k).
Proof.
  split.
  - intros k v Hk Hsup. rewrite map_openai_params_lookup, Hk.
    apply py_in_list_true in Hsup. by rewrite Hsup.
  - intros k [Hk|Hsup]; rewrite map_openai_params_lookup.
    + by rewrite Hk.
    + apply py_in_list_false in Hsup. rewrite Hsup.
      by destruct (non_default_params !! k).
Qed.

(** ** Configuration classes: what a construction does to the class *)

Lemma MistralConfig_locals_prefix (a : MistralConfig.args) (k : string) (v : pyval) :
  (k, v) ∈ MistralConfig.locals_ a -> k <> "self" -> String.prefix "__" k = false.
Proof.
  unfold MistralConfig.locals_. intros H Hs.
  repeat (apply elem_of_cons in H as [[= -> _]|H]; [done || reflexivity|]).
  by apply elem_of_nil in H.
Qed.

Lemma OpenAIConfig_locals_prefix (a : OpenAIConfig.args) (k : string) (v : pyval) :
  (k, v) ∈ OpenAIConfig.locals_ a -> k <> "self" -> String.prefix "__" k = false.
Proof.
  unfold OpenAIConfig.locals_. intros H Hs.
  repeat (apply elem_of_cons in H as [[= -> _]|H]; [done || reflexivity|]).
  by apply elem_of_nil in H.
Qed.

(** What [get_config] shows after a construction, for any parameter list
    with distinct names none of which starts with two underscores. *)
Lemma get_config_after_init (locals_ : list (string * pyval))
    (cls : gmap string attr) :
  NoDup locals_.*1 ->
  (forall k v, (k, v) ∈ locals_ -> k <> "self" -> String.prefix "__" k = false) ->
  (forall k v, (k, v) ∈ locals_ -> k <> "self" -> v <> PNone ->
     get_config (config_init cls locals_) !! k = Some v)
  /\ (forall k, (forall v, (k, v) ∈ locals_ -> k = "self" \/ v = PNone) ->
        config_init cls locals_ !! k = cls !! k
        /\ get_config (config_init cls locals_) !! k = get_config cls !! k).
Proof.
  intros Hnd Hpre. split.
  - intros k v Hin Hs Hn. apply get_config_Some.
    split; [by apply config_init_written|]. split; [by eapply Hpre | done].
  - intros k Hk. rewrite !get_config_lookup.
    by rewrite (config_init_unwritten locals_ cls k Hk).
Qed.

(** C7, as stated, fails: the first construction passes [temperature=1],
    the second passes nothing, and [get_config] after the second shows the
    first one's argument. *)
Lemma MistralConfig_init_shared_state :
  get_config (MistralConfig.init MistralConfig.class_dict MistralConfig.defaults)
    !! "temperature" = None
  /\ get_config
       (MistralConfig.init
          (MistralConfig.init MistralConfig.class_dict MistralConfig_temperature_1)
          MistralConfig.defaults)
       !! "temperature" = Some (PInt 1)
  /\ MistralConfig.init MistralConfig.class_dict MistralConfig_temperature_1
     <> MistralConfig.class_dict.
Proof.
  split; [|split].
  - rewrite get_config_lookup. vm_compute. reflexivity.
  - rewrite get_config_lookup. vm_compute. reflexivity.
  - intros H.
    assert (E : MistralConfig.init MistralConfig.class_dict MistralConfig_temperature_1
                  !! "temperature" = MistralConfig.class_dict !! "temperature")
      by (by rewrite H).
    vm_compute in E. discriminate.
Qed.

(** C7, amended.  Constructing [MistralConfig(...)] or [OpenAIConfig(...)]
    writes every argument that is not [None] on the class object, which all
    instances and all later calls share: [get_config] then returns that
    value under the parameter's name.  Attributes for which the argument is
    [None], and all attributes that are not parameters, keep the value they
    had, so [get_config] returns for them what it returned before. *)
Theorem config_init_writes_class (cls : gmap string attr) :
  (forall (a : MistralConfig.args) (k : string) (v : pyval),
     (k, v) ∈ MistralConfig.locals_ a -> k <> "self" -> v <> PNone ->
     get_config (MistralConfig.init cls a) !! k = Some v)
  /\ (forall (a : MistralConfig.args) (k : string),
        (forall v, (k, v) ∈ MistralConfig.locals_ a -> k = "self" \/ v = PNone) ->
        MistralConfig.init cls a !! k = cls !! k
        /\ get_config (MistralConfig.init cls a) !! k = get_config cls !! k)
  /\ (forall (a : OpenAIConfig.args) (k : string) (v : pyval),
        (k, v) ∈ OpenAIConfig.locals_ a -> k <> "self" -> v <> PNone ->
        get_config (OpenAIConfig.init cls a) !! k = Some v)
  /\ (forall (a : OpenAIConfig.args) (k : string),
        (forall v, (k, v) ∈ OpenAIConfig.locals_ a -> k = "self" \/ v = PNone) ->
        OpenAIConfig.init cls a !! k = cls !! k
        /\ get_config (OpenAIConfig.init cls a) !! k = get_config cls !! k).
Proof.
  unfold MistralConfig.init, OpenAIConfig.init.
  split; [|split; [|split]].
  - intros a. apply get_config_after_init;
      [apply MistralConfig_locals_NoDup | apply MistralConfig_locals_prefix].
  - intros a. apply get_config_after_init;
      [apply MistralConfig_locals_NoDup | apply MistralConfig_locals_prefix].
  - intros a. apply get_config_after_init;
      [apply OpenAIConfig_locals_NoDup | apply OpenAIConfig_locals_prefix].
  - intros a. apply get_config_after_init;
      [apply OpenAIConfig_locals_NoDup | apply OpenAIConfig_locals_prefix].
Qed.

(** A field that every construction so far left at [None] still holds the
    [None] of the class statement. *)
Lemma MistralConfig_history_unset (history : list MistralConfig.args)
    (cls : gmap string attr) (f : string) :
  (forall a, a ∈ history -> assoc f (MistralConfig.locals_ a) = Some PNone) ->
  foldl MistralConfig.init cls history !! f = cls !! f.
Proof.
  revert cls. induction history as [|a h IH]; intros cls H; simpl; [done|].
  rewrite IH.
  - unfold MistralConfig.init. apply config_init_unwritten.
    intros v Hv. right.
    apply (assoc_NoDup f v) in Hv; [|apply MistralConfig_locals_NoDup].
    rewrite (H a) in Hv by left. congruence.
  - intros b Hb. apply H. by right.
Qed.

(** C8.  Every declared field of [MistralConfig] is [None] in the class
    statement and in the defaults of [__init__]; [get_config] returns
    exactly the class attributes whose name does not start with ["__"],
    whose value is not a function, builtin, classmethod or staticmethod, and
    whose value is not [None]; so a field that no construction has set is
    absent from what [get_config] returns. *)
Theorem MistralConfig_get_config_spec :
  (forall f : string,
     f ∈ MistralConfig.fields ->
     MistralConfig.class_dict !! f = Some (Data PNone)
     /\ assoc f (MistralConfig.locals_ MistralConfig.defaults) = Some PNone)
  /\ (forall (cls : gmap string attr) (k : string) (v : pyval),
        get_config cls !! k = Some v
        <-> exists a : attr,
              cls !! k = Some a
              /\ String.prefix "__" k = false
              /\ isinstance_function a = false
              /\ a = Data v /\ v <> PNone)
  /\ (forall (history : list MistralConfig.args) (f : string),
        f ∈ MistralConfig.fields ->
        (forall a, a ∈ history ->
                   assoc f (MistralConfig.locals_ a) = Some PNone) ->
        get_config (foldl MistralConfig.init MistralConfig.class_dict history)
          !! f = None).
Proof.
  assert (Hfields : forall f : string, f ∈ MistralConfig.fields ->
            MistralConfig.class_dict !! f = Some (Data PNone)
            /\ assoc f (MistralConfig.locals_ MistralConfig.defaults) = Some PNone).
  { intros f H. unfold MistralConfig.fields in H.
    repeat (apply elem_of_cons in H as [->|H]; [split; reflexivity|]).
    by apply elem_of_nil in H. }
  split; [exact Hfields|]. split.
  - intros cls k v. rewrite get_config_Some. split.
    + intros (H1 & H2 & H3). exists (Data v). done.
    + intros (a & H1 & H2 & _ & -> & H3). done.
  - intros history f Hf Hh.
    rewrite get_config_lookup, (MistralConfig_history_unset history _ f Hh).
    destruct (Hfields f Hf) as [-> _]. simpl.
    unfold get_config_entry. cbn [isinstance_function is_None negb].
    by destruct (negb (String.prefix "__" f) && true).
Qed.

(** ** Text completions: reshaping the vendor payload *)

Section convert.

Import OpenAITextCompletionConfig.

Lemma foldl_append_choice (l : list TextChoice.t) (s : nat)
    (acc : list Choices.t) :
  foldl append_choice acc (zip (seq s (length l)) l)
  = acc ++ imap (fun i c => chat_choice (s + i) c) l.
Proof.
  revert s acc. induction l as [|c l IH]; intros s acc; simpl.
  - by rewrite app_nil_r.
  - rewrite IH. unfold append_choice, chat_choice. simpl.
    rewrite <- app_assoc. simpl. rewrite Nat.add_0_r. do 2 f_equal.
    apply imap_ext. intros i x _. simpl. f_equal. lia.
Qed.

Lemma choice_list_lookup (l : list TextChoice.t) (i : nat) :
  foldl append_choice [] (enumerate l) !! i = chat_choice i <$> l !! i.
Proof.
  unfold enumerate. rewrite foldl_append_choice. simpl.
  by rewrite list_lookup_imap.
Qed.

Lemma choice_list_length (l : list TextChoice.t) :
  length (foldl append_choice [] (enumerate l)) = length l.
Proof.
  unfold enumerate. rewrite foldl_append_choice. simpl. apply length_imap.
Qed.

(** C6.  [convert_to_chat_model_response_object] raises when either
    argument is [None]; otherwise it returns the envelope in which choice
    [i] has index [i], role ["assistant"], the text of the vendor's choice
    [i] as content and that choice's finish reason, and in which [usage],
    [id] and [model] are the vendor's when the payload has them (and are
    left as they were when it has not). *)
Theorem convert_to_chat_model_response_object_spec :
  (forall m : option ModelResponse.t,
     convert_to_chat_model_response_object None m
     = Raise (ValueError "Error in response object format"))
  /\ (forall r : option TextCompletionResponse.t,
        convert_to_chat_model_response_object r None
        = Raise (ValueError "Error in response object format"))
  /\ (forall (r : TextCompletionResponse.t) (m : ModelResponse.t),
        exists out : ModelResponse.t,
          convert_to_chat_model_response_object (Some r) (Some m) = Ok out
          /\ length (ModelResponse.choices out)
             = length (TextCompletionResponse.choices r)
          /\ (forall (i : nat) (c : TextChoice.t),
                TextCompletionResponse.choices r !! i = Some c ->
                ModelResponse.choices out !! i
                = Some {| Choices.finish_reason := TextChoice.finish_reason c;
                          Choices.index := i;
                          Choices.message :=
                            {| Message.content := TextChoice.text c;
                               Message.role := "assistant" |} |})
          /\ ModelResponse.usage out
             = default (ModelResponse.usage m) (TextCompletionResponse.usage r)
          /\ ModelResponse.id out
             = default (ModelResponse.id m) (TextCompletionResponse.id r)
          /\ ModelResponse.model out
             = default (ModelResponse.model m) (TextCompletionResponse.model r)).
Proof.
  split; [by intros [m|] | split; [by intros [r|] |]].
  intros r m. eexists. split; [reflexivity|].
  destruct r as [cs [u|] [i|] [mo|]]; simpl;
    (split; [apply choice_list_length|]);
    (split; [intros j c Hc; rewrite choice_list_lookup, Hc; reflexivity|]);
    done.
Qed.

End convert.

(** ** The message rewriting *)

Section rewriting.

Import OpenAIChatCompletion.

Lemma placeholder_role (r : string) : placeholder r !! "role" = Some (PStr r).
Proof. reflexivity. Qed.

Lemma placeholder_content (r : string) :
  placeholder r !! "content" = Some (PStr "").
Proof. reflexivity. Qed.

Lemma getitem_role (m : message) :
  has_role m -> getitem m "role" = Ok (role_of m).
Proof. intros [r Hr]. unfold getitem, role_of. by rewrite Hr. Qed.

Lemma same_role_eq (m m' : message) :
  has_role m -> has_role m' -> same_role m m' = py_eq (role_of m) (role_of m').
Proof. intros [r Hr] [r' Hr']. unfold same_role, role_of. by rewrite Hr, Hr'. Qed.

(** One iteration at position [length pre] of [pre ++ m :: m' :: rest]. *)
Lemma reformat_step_middle (pre rest : list message) (m m' : message)
    (acc : list message) :
  reformat_step (pre ++ m :: m' :: rest) (Ok acc) (length pre)
  = match m !! "role", m' !! "role" with
    | Some _, Some _ => Ok (acc ++ m :: separator m m')
    | _, _ => Raise (KeyError "role")
    end.
Proof.
  unfold reformat_step, list_getitem. cbn [bind].
  rewrite list_lookup_middle by done. cbn [bind].
  replace (pre ++ m :: m' :: rest) with ((pre ++ [m]) ++ m' :: rest)
    by (by rewrite <- app_assoc).
  rewrite list_lookup_middle by (rewrite length_app; simpl; lia).
  unfold getitem, separator, role_of.
  destruct (m !! "role") as [r|]; [|reflexivity]. cbn [bind].
  destruct (m' !! "role") as [r'|]; [|reflexivity].
  cbn [bind default from_option]. unfold id.
  destruct (py_eq r r').
  - destruct (py_eq r (PStr "user")); by rewrite <- app_assoc.
  - reflexivity.
Qed.

Lemma reformat_step_at (pre rest : list message) (m m' : message)
    (acc : list message) :
  has_role m -> has_role m' ->
  reformat_step (pre ++ m :: m' :: rest) (Ok acc) (length pre)
  = Ok (acc ++ m :: separator m m').
Proof.
  intros [r Hr] [r' Hr']. by rewrite reformat_step_middle, Hr, Hr'.
Qed.

(** Once an iteration has raised, the remaining ones do not run. *)
Lemma foldl_reformat_step_Raise (messages : list message) (e : exn)
    (l : list nat) :
  foldl (reformat_step messages) (Raise e) l = Raise e.
Proof. induction l as [|i l IH]; [done|]. exact IH. Qed.

(** If the loop runs to its end over two or more messages, each of them
    has a role. *)
Lemma reformat_loop_Ok (suf pre acc out : list message) :
  foldl (reformat_step (pre ++ suf)) (Ok acc)
    (seq (length pre) (length suf - 1)) = Ok out ->
  2 <= length suf -> Forall has_role suf.
Proof.
  revert pre acc. induction suf as [|m rest IH]; intros pre acc H Hlen.
  { simpl in Hlen. lia. }
  destruct rest as [|m' rest']; [simpl in Hlen; lia|].
  replace (length (m :: m' :: rest') - 1)
    with (S (length (m' :: rest') - 1)) in H by (simpl; lia).
  rewrite <- cons_seq in H. cbn [foldl] in H.
  rewrite reformat_step_middle in H.
  destruct (m !! "role") as [r|] eqn:Hr;
    [|by rewrite foldl_reformat_step_Raise in H].
  destruct (m' !! "role") as [r'|] eqn:Hr';
    [|by rewrite foldl_reformat_step_Raise in H].
  apply Forall_cons. split; [by eexists|].
  destruct rest' as [|m'' rest''].
  - apply Forall_singleton. by eexists.
  - replace (pre ++ m :: m' :: m'' :: rest'')
      with ((pre ++ [m]) ++ m' :: m'' :: rest'') in H
      by (by rewrite <- app_assoc).
    replace (S (length pre)) with (length (pre ++ [m])) in H
      by (rewrite length_app; simpl; lia).
    apply IH in H; [done | simpl; lia].
Qed.

(** The loop, started anywhere in the list. *)
Lemma reformat_loop (suf pre acc : list message) :
  Forall has_role suf ->
  foldl (reformat_step (pre ++ suf)) (Ok acc)
    (seq (length pre) (length suf - 1))
  = Ok (acc ++ loop_output suf).
Proof.
  revert pre acc. induction suf as [|m rest IH]; intros pre acc Hr.
  - simpl. by rewrite app_nil_r.
  - destruct rest as [|m' rest'].
    + simpl. by rewrite app_nil_r.
    + apply Forall_cons in Hr as [Hm Hrest].
      pose proof Hrest as Hrest'. apply Forall_cons in Hrest' as [Hm' _].
      replace (length (m :: m' :: rest') - 1)
        with (S (length (m' :: rest') - 1)) by (simpl; lia).
      rewrite <- cons_seq. cbn [foldl].
      rewrite reformat_step_at by done.
      replace (pre ++ m :: m' :: rest') with ((pre ++ [m]) ++ m' :: rest')
        by (by rewrite <- app_assoc).
      replace (S (length pre)) with (length (pre ++ [m]))
        by (rewrite length_app; simpl; lia).
      rewrite IH by done. cbn [loop_output]. by rewrite <- app_assoc.
Qed.

Lemma loop_output_last (l : list message) :
  l <> [] ->
  exists x, last l = Some x /\ loop_output l ++ [x] = alternate l.
Proof.
  induction l as [|m rest IH]; [done|]. intros _.
  destruct rest as [|m' rest'].
  - exists m. done.
  - destruct IH as (x & Hx & E); [done|]. exists x. split.
    + by rewrite last_cons, Hx.
    + change (loop_output (m :: m' :: rest'))
        with (m :: separator m m' ++ loop_output (m' :: rest')).
      change (alternate (m :: m' :: rest'))
        with (m :: separator m m' ++ alternate (m' :: rest')).
      by rewrite <- E, <- app_comm_cons, <- app_assoc.
Qed.

(** On a non-empty list of messages with roles the rewriting does not
    raise, and it computes [alternate]. *)
Lemma reformat_messages_alternate (messages : list message) :
  messages <> [] -> Forall has_role messages ->
  reformat_messages messages = Ok (alternate messages).
Proof.
  intros Hne Hr. unfold reformat_messages.
  pose proof (reformat_loop messages [] [] Hr) as H. simpl in H.
  rewrite H. simpl.
  destruct (loop_output_last messages Hne) as (x & Hx & E).
  unfold list_getitem_last. rewrite Hx. simpl. by rewrite E.
Qed.

(** The rewriting raises on the empty list. *)
Lemma reformat_messages_nil : reformat_messages [] = Raise IndexError.
Proof. reflexivity. Qed.

(** If the rewriting succeeds the list was not empty. *)
Lemma reformat_messages_Ok_nonempty (messages out : list message) :
  reformat_messages messages = Ok out -> messages <> [].
Proof.
  intros H ->. rewrite reformat_messages_nil in H. discriminate.
Qed.

(** The rewriting runs to its end exactly on a non-empty list whose
    messages, when there are two or more, all have a role. *)
Lemma reformat_messages_Ok_iff (messages : list message) :
  (exists out, reformat_messages messages = Ok out)
  <-> messages <> []
      /\ (2 <= length messages -> Forall has_role messages).
Proof.
  split.
  - intros [out H]. split; [by eapply reformat_messages_Ok_nonempty|].
    intros Hlen. unfold reformat_messages in H.
    destruct (foldl (reformat_step messages) (Ok [])
                (seq 0 (length messages - 1))) as [new|e] eqn:E;
      [|discriminate].
    by apply (reformat_loop_Ok messages [] [] new).
  - intros [Hne Hr]. destruct messages as [|m [|m' rest]]; [done| |].
    + by exists [m].
    + exists (alternate (m :: m' :: rest)).
      apply reformat_messages_alternate; [done|]. apply Hr. simpl. lia.
Qed.

(** Whenever it does not raise, the rewriting computes [alternate]. *)
Lemma reformat_messages_Ok_alternate (messages out : list message) :
  reformat_messages messages = Ok out -> out = alternate messages.
Proof.
  intros H.
  destruct (proj1 (reformat_messages_Ok_iff messages)) as [Hne Hr]; [eauto|].
  destruct messages as [|m [|m' rest]]; [done| |].
  - by injection H as <-.
  - rewrite reformat_messages_alternate in H; [by injection H as <- | done |].
    apply Hr. simpl. lia.
Qed.

Lemma separator_placeholder (m m' p : message) :
  p ∈ separator m m' -> is_placeholder p.
Proof.
  unfold separator, is_placeholder.
  destruct (py_eq (role_of m) (role_of m'));
    [destruct (py_eq (role_of m) (PStr "user"))|];
    intros H; try (apply list_elem_of_singleton in H; tauto).
  by apply elem_of_nil in H.
Qed.

Lemma separator_length (m m' : message) :
  length (separator m m')
  = if py_eq (role_of m) (role_of m') then 1 else 0.
Proof.
  unfold separator.
  by destruct (py_eq (role_of m) (role_of m')),
       (py_eq (role_of m) (PStr "user")).
Qed.

Lemma inserted_into_separator (sep l l' : list message) :
  (forall p, p ∈ sep -> is_placeholder p) ->
  inserted_into l l' -> inserted_into l (sep ++ l').
Proof.
  induction sep as [|p sep IH]; intros Hp H; simpl; [done|].
  apply inserted_turn.
  - apply Hp. left.
  - apply IH; [|done]. intros q Hq. apply Hp. by right.
Qed.

Lemma alternate_inserted (l : list message) : inserted_into l (alternate l).
Proof.
  induction l as [|m rest IH]; [constructor|].
  cbn [alternate]. apply inserted_keep.
  destruct rest as [|m' rest']; [done|].
  apply inserted_into_separator; [|done].
  intros p. apply separator_placeholder.
Qed.

Lemma alternate_cons (m : message) (rest : list message) :
  exists tl, alternate (m :: rest) = m :: tl.
Proof. cbn [alternate]. eauto. Qed.

Lemma alternate_has_role (l : list message) :
  Forall has_role l -> Forall has_role (alternate l).
Proof.
  induction l as [|m rest IH]; intros H; [constructor|].
  apply Forall_cons in H as [Hm Hrest]. cbn [alternate].
  apply Forall_cons. split; [done|]. apply Forall_app. split; [|by apply IH].
  destruct rest as [|m' rest']; [constructor|].
  apply Forall_forall. intros p Hp.
  destruct (separator_placeholder _ _ _ Hp) as [-> | ->]; by eexists.
Qed.

Lemma adjacent_same_role_cons (m m' : message) (l : list message) :
  adjacent_same_role (m :: m' :: l)
  = same_role m m' || adjacent_same_role (m' :: l).
Proof. reflexivity. Qed.

Lemma same_role_placeholder_r (m : message) (r : string) :
  has_role m -> same_role m (placeholder r) = py_eq (role_of m) (PStr r).
Proof. intros [x Hx]. unfold same_role, role_of. by rewrite Hx. Qed.

Lemma same_role_placeholder_l (r : string) (m : message) :
  has_role m -> same_role (placeholder r) m = py_eq (PStr r) (role_of m).
Proof. intros [x Hx]. unfold same_role, role_of. by rewrite Hx. Qed.

Lemma alternate_no_adjacent (l : list message) :
  Forall has_role l -> adjacent_same_role (alternate l) = false.
Proof.
  induction l as [|m rest IH]; intros H; [done|].
  apply Forall_cons in H as [Hm Hrest].
  destruct rest as [|m' rest']; [done|].
  specialize (IH Hrest).
  pose proof Hrest as Hrest'. apply Forall_cons in Hrest' as [Hm' _].
  destruct (alternate_cons m' rest') as [tl Etl].
  change (alternate (m :: m' :: rest'))
    with (m :: separator m m' ++ alternate (m' :: rest')).
  rewrite Etl in IH |- *. unfold separator.
  destruct (py_eq (role_of m) (role_of m')) eqn:E.
  - destruct (py_eq (role_of m) (PStr "user")) eqn:Eu.
    + change ([placeholder "assistant"] ++ m' :: tl)
        with (placeholder "assistant" :: m' :: tl).
      rewrite !adjacent_same_role_cons.
      rewrite same_role_placeholder_r, same_role_placeholder_l by done.
      apply py_eq_str_r in Eu. rewrite Eu in E |- *.
      apply py_eq_str_l in E. rewrite E, IH. reflexivity.
    + change ([placeholder "user"] ++ m' :: tl)
        with (placeholder "user" :: m' :: tl).
      rewrite !adjacent_same_role_cons.
      rewrite same_role_placeholder_r, same_role_placeholder_l by done.
      rewrite Eu, IH.
      destruct (py_eq (PStr "user") (role_of m')) eqn:E'; [|reflexivity].
      apply py_eq_str_l in E'. rewrite E' in E. congruence.
  - change ([] ++ m' :: tl) with (m' :: tl).
    rewrite adjacent_same_role_cons, same_role_eq by done.
    by rewrite E, IH.
Qed.

Lemma alternate_length (l : list message) :
  Forall has_role l -> length (alternate l) = length l + same_role_pairs l.
Proof.
  induction l as [|m rest IH]; intros H; [done|].
  apply Forall_cons in H as [Hm Hrest].
  destruct rest as [|m' rest']; [done|].
  pose proof Hrest as Hrest'. apply Forall_cons in Hrest' as [Hm' _].
  change (alternate (m :: m' :: rest'))
    with (m :: separator m m' ++ alternate (m' :: rest')).
  cbn [length same_role_pairs]. rewrite length_app, separator_length, IH by done.
  rewrite same_role_eq by done. simpl. lia.
Qed.

(** The two properties above only need the roles that the rewriting reads:
    none for a single message. *)
Lemma alternate_no_adjacent_weak (l : list message) :
  (2 <= length l -> Forall has_role l) ->
  adjacent_same_role (alternate l) = false.
Proof.
  destruct l as [|m [|m' rest]]; [done | done |].
  intros H. apply alternate_no_adjacent, H. simpl. lia.
Qed.

Lemma alternate_length_weak (l : list message) :
  (2 <= length l -> Forall has_role l) ->
  length (alternate l) = length l + same_role_pairs l.
Proof.
  destruct l as [|m [|m' rest]]; [done | done |].
  intros H. apply alternate_length, H. simpl. lia.
Qed.

(** A list that was rewritten can be rewritten again. *)
Lemma reformat_messages_twice (l l' : list message) :
  reformat_messages l = Ok l' -> exists l'', reformat_messages l' = Ok l''.
Proof.
  intros H. pose proof (reformat_messages_Ok_alternate _ _ H) as ->.
  destruct (proj1 (reformat_messages_Ok_iff l)) as [Hne Hr]; [eauto|].
  apply reformat_messages_Ok_iff.
  destruct l as [|m [|m' rest]]; [done| |].
  - split; [done|]. simpl. lia.
  - split.
    + by destruct (alternate_cons m (m' :: rest)) as [tl ->].
    + intros _. apply alternate_has_role, Hr. simpl. lia.
Qed.

End rewriting.

(** ** The retry loop *)

Section retry.

Import OpenAIChatCompletion.

(** The handler retries only for a matched error on a list of messages. *)
Lemma handle_error_Ok (e : exn) (ms ms' : option (list message)) :
  handle_error e ms = Ok ms' ->
  matched_error e = true
  /\ exists l l', ms = Some l /\ ms' = Some l'
       /\ (if alternation_error e then reformat_messages l = Ok l'
           else l' = l ++ [placeholder "user"]).
Proof.
  unfold handle_error, matched_error. destruct ms as [l|]; [|discriminate].
  destruct (alternation_error e) eqn:Ea; simpl.
  - destruct (reformat_messages l) as [l'|x] eqn:Er; simpl; [|discriminate].
    intros [= <-]. split; [done|]. by exists l, l'.
  - destruct (last_role_error e); [|discriminate].
    intros [= <-]. split; [done|]. by eexists _, _.
Qed.

(** Without a match the handler re-raises what it caught. *)
Lemma handle_error_unmatched (e : exn) (ms : option (list message)) :
  matched_error e = false -> handle_error e ms = Raise e.
Proof.
  unfold handle_error, matched_error. intros H.
  apply orb_false_iff in H as [-> ->]. by destruct ms.
Qed.

(** Either a check before the loop raises, or the loop runs over
    [range(2)]. *)
Lemma completion_try_cases (W : world) (a : args) :
  (exists e, completion_try W a = ([], Raise e))
  \/ (exists op mr model ms,
        completion_try W a = retry_loop W a op mr model [0; 1] ms).
Proof.
  unfold completion_try.
  destruct (model a) as [mo|]; [|left; eauto].
  destruct (messages a) as [ms|]; [|left; eauto].
  destruct (timeout a); try (left; eauto; fail);
    (destruct (prepare W a mo ms) as [[mr ms']|e]; [right; eauto 10 | left; eauto]).
Qed.

(** The loop over [range(2)], spelled out. *)
Lemma retry_loop_range_2 (W : world) (a : args) (op : gmap string pyval)
    (mr : ModelResponse.t) (model : string) (ms : option (list message)) :
  retry_loop W a op mr model [0; 1] ms =
    let r0 := try_body W a op mr model 0 ms in
    let a0 := {| att_messages := ms; att_result := r0 |} in
    match r0 with
    | Ok v => ([a0], Ok v)
    | Raise e0 =>
        match handle_error e0 ms with
        | Raise e' => ([a0], Raise e')
        | Ok ms' =>
            let r1 := try_body W a op mr model 1 ms' in
            let a1 := {| att_messages := ms'; att_result := r1 |} in
            match r1 with
            | Ok v => ([a0; a1], Ok v)
            | Raise e1 =>
                match handle_error e1 ms' with
                | Raise e' => ([a0; a1], Raise e')
                | Ok _ => ([a0; a1], Ok RetNone)
                end
            end
        end
    end.
Proof.
  simpl.
  destruct (try_body W a op mr model 0 ms) as [v|e0]; [done|].
  destruct (handle_error e0 ms) as [ms'|e']; [|done].
  destruct (try_body W a op mr model 1 ms') as [v|e1]; [done|].
  by destruct (handle_error e1 ms').
Qed.

(** The loop makes at most as many attempts as it has iterations. *)
Lemma retry_loop_length (W : world) (a : args) (op : gmap string pyval)
    (mr : ModelResponse.t) (model : string) (iters : list nat)
    (ms : option (list message)) :
  length (retry_loop W a op mr model iters ms).1 <= length iters.
Proof.
  revert ms. induction iters as [|i iters IH]; intros ms; simpl; [lia|].
  destruct (try_body W a op mr model i ms) as [v|e]; simpl; [lia|].
  destruct (handle_error e ms) as [ms'|e']; simpl; [|lia].
  specialize (IH ms'). lia.
Qed.

End retry.

(** ** OpenAIChatCompletion.completion: the claims *)

Section completion.

Import OpenAIChatCompletion.

(** After a first rewriting, a second matched error is handled without
    raising as soon as the roles the second rewriting reads are there. *)
Lemma handle_error_again (e0 e1 : exn) (l l' : list message) :
  handle_error e0 (Some l) = Ok (Some l') ->
  matched_error e1 = true ->
  alternation_error e0 = true \/ alternation_error e1 = false
  \/ Forall has_role l ->
  exists l'', handle_error e1 (Some l') = Ok (Some l'').
Proof.
  intros H0 M1 Hcond.
  apply handle_error_Ok in H0 as (_ & l0 & l0' & [= <-] & [= <-] & H0).
  unfold matched_error in M1. unfold handle_error.
  destruct (alternation_error e1) eqn:A1; simpl in M1; [|rewrite M1; eauto].
  assert (exists l'', reformat_messages l' = Ok l'') as [l'' ->];
    [|simpl; eauto].
  destruct (alternation_error e0) eqn:A0.
  - by eapply reformat_messages_twice.
  - destruct Hcond as [?|[?|Hr]]; [done | done |]. subst l'.
    apply reformat_messages_Ok_iff. split; [by destruct l|]. intros _.
    apply Forall_app. split; [done|]. apply Forall_singleton. by eexists.
Qed.

(** What the rewriting puts between two neighbours, read off their
    roles: nothing when the roles differ; one empty turn when they are
    equal, for the assistant after two user messages and for the user after
    two messages of any other role. *)
Lemma separator_inserted_between (m m' : message) :
  has_role m -> has_role m' -> separator m m' = inserted_between m m'.
Proof.
  intros [r Hr] [r' Hr']. unfold separator, inserted_between, role_of.
  rewrite Hr, Hr'. reflexivity.
Qed.

Example reformat_messages_system_system :
  reformat_messages [system_message "a"; system_message "b"]
  = Ok [system_message "a"; placeholder "user"; system_message "b"].
Proof. reflexivity. Qed.

(** C1, as stated, fails on the empty list: [messages[-1]] raises, no list
    is produced, and [completion] ends with the normalised [IndexError]
    after a single attempt.  (It fails likewise, with [KeyError], on two
    messages of which one lacks its role.) *)
Lemma reformat_messages_empty_raises :
  handle_error (bad_request roles_must_alternate) (Some [])
  = Raise IndexError
  /\ reformat_messages [] = Raise IndexError
  /\ reformat_messages [roleless_message "a"; user_message "b"]
     = Raise (KeyError "role")
  /\ completion (rejecting_world [roles_must_alternate]) (chat_args [])
     = ([ {| att_messages := Some [];
             att_result := Raise (bad_request roles_must_alternate) |} ],
        Raise (OpenAIError (PInt 500)
                 "Traceback (most recent call last): list index out of range")).
Proof. repeat split; vm_compute; reflexivity. Qed.

(** C1, amended.  When the caught error's text contains one of the two
    roles-must-alternate phrases and the message list is not empty and,
    if it has two or more messages, each of them has a role, the handler
    retries with the rewritten list.  That list is [alternate messages]:
    each message is followed, when its successor has the same role, by one
    empty turn, of role ["assistant"] when that role is ["user"] and of role
    ["user"] when it is anything else ([inserted_between] spells this out
    for two neighbours).  So no two neighbours of the rewritten list have
    the same role, every original message appears unchanged and in its
    original order, every inserted message has content [""], and exactly one
    message is inserted per pair of neighbours with the same role. *)
Theorem reformat_messages_restores_alternation
    (e : exn) (messages : list message) :
  alternation_error e = true ->
  messages <> [] ->
  (2 <= length messages -> Forall has_role messages) ->
  exists out : list message,
    handle_error e (Some messages) = Ok (Some out)
    /\ reformat_messages messages = Ok out
    /\ adjacent_same_role out = false
    /\ inserted_into messages out
    /\ length out = length messages + same_role_pairs messages
    /\ out = alternate messages
    /\ (forall m : message, alternate [m] = [m])
    /\ (forall (m m' : message) (rest : list message),
          has_role m -> has_role m' ->
          alternate (m :: m' :: rest)
          = m :: inserted_between m m' ++ alternate (m' :: rest)).
Proof.
  intros He Hne Hr.
  destruct (proj2 (reformat_messages_Ok_iff messages)) as [out H]; [done|].
  pose proof (reformat_messages_Ok_alternate _ _ H) as ->.
  exists (alternate messages).
  split; [|split; [exact H|split; [|split; [|split; [|split; [|split]]]]]].
  - unfold handle_error. rewrite He, H. reflexivity.
  - by apply alternate_no_adjacent_weak.
  - apply alternate_inserted.
  - by apply alternate_length_weak.
  - reflexivity.
  - reflexivity.
  - intros m m' rest Hm Hm'. by rewrite <- separator_inserted_between.
Qed.

Lemma reformat_messages_restores_alternation_witness :
  alternation_error (bad_request roles_must_alternate) = true
  /\ [user_message "a"; user_message "b"; assistant_message "c"] <> []
  /\ exists out : list message,
       handle_error (bad_request roles_must_alternate)
         (Some [user_message "a"; user_message "b"; assistant_message "c"])
       = Ok (Some out)
       /\ reformat_messages
            [user_message "a"; user_message "b"; assistant_message "c"]
          = Ok out
       /\ adjacent_same_role out = false
       /\ inserted_into
            [user_message "a"; user_message "b"; assistant_message "c"] out
       /\ length out = 3 + 1
       /\ out = alternate
                  [user_message "a"; user_message "b"; assistant_message "c"]
       /\ (forall m : message, alternate [m] = [m])
       /\ (forall (m m' : message) (rest : list message),
             has_role m -> has_role m' ->
             alternate (m :: m' :: rest)
             = m :: inserted_between m m' ++ alternate (m' :: rest)).
Proof.
  split; [reflexivity|]. split; [discriminate|].
  apply (reformat_messages_restores_alternation
           (bad_request roles_must_alternate)
           [user_message "a"; user_message "b"; assistant_message "c"]).
  - reflexivity.
  - discriminate.
  - intros _. repeat constructor; eexists; reflexivity.
Defined.

(** C2.  Whatever [completion] raises is an [OpenAIError]: when the
    exception that reached the outer handlers has a [status_code], the
    error raised carries that status code and the exception's string as
    message; otherwise it carries status code 500. *)
Theorem completion_raises_OpenAIError (W : world) (a : args) (e : exn) :
  (completion W a).2 = Raise e ->
  exists u : exn,
    (completion_try W a).2 = Raise u
    /\ is_OpenAIError e = true
    /\ match exn_status_code u with
       | Some sc => e = OpenAIError sc (str_exn u)
       | None => exists message, e = OpenAIError (PInt 500) message
       end.
Proof.
  unfold completion. simpl.
  destruct (completion_try W a).2 as [v|u]; [discriminate|].
  intros [= <-]. exists u. split; [done|].
  destruct u as [sc m|cls [sc|] text]; simpl; eauto.
Qed.

Lemma completion_raises_OpenAIError_witness :
  (completion (rejecting_world ["boom"]) (chat_args [user_message "hi"])).2
  = Raise (OpenAIError (PInt 400) "boom")
  /\ exists u : exn,
       (completion_try (rejecting_world ["boom"])
          (chat_args [user_message "hi"])).2 = Raise u
       /\ is_OpenAIError (OpenAIError (PInt 400) "boom") = true
       /\ match exn_status_code u with
          | Some sc => OpenAIError (PInt 400) "boom" = OpenAIError sc (str_exn u)
          | None =>
              exists message,
                OpenAIError (PInt 400) "boom" = OpenAIError (PInt 500) message
          end.
Proof.
  split; [reflexivity|].
  apply (completion_raises_OpenAIError (rejecting_world ["boom"])
           (chat_args [user_message "hi"])).
  reflexivity.
Defined.

(** C3.  [completion] makes at most two attempts.  A second attempt is
    made only after the first failed with a matched error and the handler
    produced the messages it is made with; and whenever the handler has
    rewritten the messages after the first failure, exactly one further
    attempt follows, whatever its outcome. *)
Theorem completion_retries_once (W : world) (a : args) :
  length (completion W a).1 <= 2
  /\ (forall a0 a1 : attempt,
        (completion W a).1 = [a0; a1] ->
        exists e ms',
          att_result a0 = Raise e
          /\ matched_error e = true
          /\ handle_error e (att_messages a0) = Ok ms'
          /\ att_messages a1 = ms')
  /\ (forall (a0 : attempt) (rest : list attempt) (e : exn)
        (ms' : option (list message)),
        (completion W a).1 = a0 :: rest ->
        att_result a0 = Raise e ->
        handle_error e (att_messages a0) = Ok ms' ->
        exists a1, rest = [a1] /\ att_messages a1 = ms').
Proof.
  unfold completion. cbn [fst].
  destruct (completion_try_cases W a) as [[e ->]|(op & mr & mo & ms & ->)].
  { split; [simpl; lia|]. split; intros; discriminate. }
  split; [apply (retry_loop_length W a op mr mo [0; 1] ms)|].
  rewrite retry_loop_range_2. cbv zeta.
  destruct (try_body W a op mr mo 0 ms) as [v|e0] eqn:E0.
  { split; [intros; discriminate|]. simpl. intros ? ? ? ? [= <- <-]. discriminate. }
  destruct (handle_error e0 ms) as [ms'|e'] eqn:H0.
  - pose proof (handle_error_Ok _ _ _ H0) as [Hm _].
    destruct (try_body W a op mr mo 1 ms') as [v|e1];
      [|destruct (handle_error e1 ms')]; simpl;
      (split;
       [intros ? ? [= <- <-]; simpl; by exists e0, ms'
       |intros ? ? ? ? [= <- <-]; simpl; intros [= <-] H; rewrite H0 in H;
        injection H as <-; eauto]).
  - split; [intros; discriminate|]. simpl.
    intros ? ? ? ? [= <- <-]. simpl. intros [= <-] H. congruence.
Qed.

(** C4.  The handler rewrites the messages only when the caught error's
    text contains one of the three vendor phrases and [messages] is not
    [None]; when the text contains none of them, nothing is rewritten, the
    handler re-raises the exception, no further attempt is made, and
    [completion] raises that exception (normalised by the outer
    handlers). *)
Theorem reformat_only_on_matched_error :
  (forall (e : exn) (ms ms' : option (list message)),
     handle_error e ms = Ok ms' ->
     (py_in_str "Conversation roles must alternate user/assistant" (str_exn e)
      || py_in_str "user and assistant roles should be alternating" (str_exn e)
      || py_in_str "Last message must have role `user`" (str_exn e)) = true
     /\ ms <> None)
  /\ (forall (e : exn) (ms : option (list message)),
        py_in_str "Conversation roles must alternate user/assistant" (str_exn e)
        = false ->
        py_in_str "user and assistant roles should be alternating" (str_exn e)
        = false ->
        py_in_str "Last message must have role `user`" (str_exn e) = false ->
        handle_error e ms = Raise e)
  /\ (forall (W : world) (a : args) (att : attempt) (e : exn),
        att ∈ (completion W a).1 ->
        att_result att = Raise e ->
        py_in_str "Conversation roles must alternate user/assistant" (str_exn e)
        = false ->
        py_in_str "user and assistant roles should be alternating" (str_exn e)
        = false ->
        py_in_str "Last message must have role `user`" (str_exn e) = false ->
        last (completion W a).1 = Some att
        /\ (completion W a).2 = Raise (normalize W e)).
Proof.
  assert (Hun : forall e : exn,
            py_in_str "Conversation roles must alternate user/assistant" (str_exn e)
            = false ->
            py_in_str "user and assistant roles should be alternating" (str_exn e)
            = false ->
            py_in_str "Last message must have role `user`" (str_exn e) = false ->
            matched_error e = false).
  { intros e H1 H2 H3. unfold matched_error, alternation_error, last_role_error,
      roles_must_alternate, roles_should_alternate, last_must_be_user.
    by rewrite H1, H2, H3. }
  split; [|split].
  - intros e ms ms' H. apply handle_error_Ok in H as (Hm & l & l' & -> & _).
    split; [exact Hm | discriminate].
  - intros e ms H1 H2 H3. apply handle_error_unmatched. by apply Hun.
  - intros W a att e Hin Hres H1 H2 H3.
    pose proof (Hun e H1 H2 H3) as Hm. clear H1 H2 H3 Hun.
    revert Hin. unfold completion. cbn [fst snd].
    destruct (completion_try_cases W a) as [[x ->]|(op & mr & mo & ms & ->)].
    { intros Hin. by apply elem_of_nil in Hin. }
    rewrite retry_loop_range_2. cbv zeta.
    destruct (try_body W a op mr mo 0 ms) as [v|e0] eqn:E0.
    { intros Hin. apply list_elem_of_singleton in Hin. subst att.
      simpl in Hres. discriminate. }
    destruct (handle_error e0 ms) as [ms'|e'] eqn:H0.
    + pose proof (handle_error_Ok _ _ _ H0) as [Hm0 _].
      assert (Hne : att <> {| att_messages := ms; att_result := Raise e0 |}).
      { intros ->. simpl in Hres. congruence. }
      destruct (try_body W a op mr mo 1 ms') as [v|e1] eqn:E1.
      { intros Hin. apply elem_of_cons in Hin as [?|Hin]; [done|].
        apply list_elem_of_singleton in Hin. subst att. simpl in Hres.
        discriminate. }
      destruct (handle_error e1 ms') as [ms''|e''] eqn:H1;
        intros Hin; (apply elem_of_cons in Hin as [?|Hin]; [done|]);
        apply list_elem_of_singleton in Hin; subst att; simpl in Hres;
        injection Hres as <-.
      * apply handle_error_Ok in H1 as [? _]. congruence.
      * rewrite (handle_error_unmatched e1 ms' Hm) in H1. injection H1 as <-.
        done.
    + intros Hin. apply list_elem_of_singleton in Hin. subst att.
      simpl in Hres. injection Hres as <-.
      rewrite (handle_error_unmatched e0 ms Hm) in H0. injection H0 as <-.
      done.
Qed.

(** When the first failure carries the last-message phrase instead, and
    a message lacks its role, the second rewriting raises [KeyError], which
    [completion] raises as an [OpenAIError] with status code 500. *)
Remark completion_two_matched_failures_may_raise :
  exists (a0 a1 : attempt) (e0 e1 : exn),
    (completion (rejecting_world [last_must_be_user; roles_must_alternate])
       (chat_args [roleless_message "hi"])).1 = [a0; a1]
    /\ att_result a0 = Raise e0 /\ matched_error e0 = true
    /\ att_result a1 = Raise e1 /\ matched_error e1 = true
    /\ (completion (rejecting_world [last_must_be_user; roles_must_alternate])
          (chat_args [roleless_message "hi"])).2
       = Raise (OpenAIError (PInt 500)
                  "Traceback (most recent call last): 'role'")
    /\ (completion (rejecting_world [last_must_be_user; roles_must_alternate])
          (chat_args [roleless_message "hi"])).2
       <> Ok RetNone.
Proof.
  eexists _, _, (bad_request last_must_be_user), (bad_request roles_must_alternate).
  repeat (split; [vm_compute; reflexivity|]).
  vm_compute. discriminate.
Qed.

(** Two failures matched by any of the three phrases end in [None] as
    soon as the second rewriting finds the roles it reads: the first
    failure matched an alternation phrase, or the second matched only the
    last-message phrase, or every message has a role. *)
Lemma completion_two_matched_failures_return_None
    (W : world) (a : args) (a0 a1 : attempt) (e0 e1 : exn) :
  (completion W a).1 = [a0; a1] ->
  att_result a0 = Raise e0 -> matched_error e0 = true ->
  att_result a1 = Raise e1 -> matched_error e1 = true ->
  alternation_error e0 = true \/ alternation_error e1 = false
  \/ (forall ms, att_messages a0 = Some ms -> Forall has_role ms) ->
  (completion W a).2 = Ok RetNone.
Proof.
  unfold completion. cbn [fst snd].
  destruct (completion_try_cases W a) as [[x ->]|(op & mr & mo & ms & ->)];
    [discriminate|].
  rewrite retry_loop_range_2. cbv zeta.
  destruct (try_body W a op mr mo 0 ms) as [v|x0] eqn:E0; [discriminate|].
  destruct (handle_error x0 ms) as [ms'|e'] eqn:H0; [|discriminate].
  destruct (try_body W a op mr mo 1 ms') as [v|x1] eqn:E1.
  { simpl. intros [= <- <-] _ _ H. discriminate. }
  intros Hlog R0 M0 R1 M1 Hcond.
  assert (a0 = {| att_messages := ms; att_result := Raise x0 |}
          /\ a1 = {| att_messages := ms'; att_result := Raise x1 |}) as [-> ->].
  { by destruct (handle_error x1 ms'); injection Hlog as <- <-. }
  simpl in R0, R1, Hcond. injection R0 as ->. injection R1 as ->.
  pose proof (handle_error_Ok _ _ _ H0) as (_ & l & l' & -> & -> & _).
  destruct (handle_error_again e0 e1 l l' H0 M1) as [l'' ->]; [|reflexivity].
  destruct Hcond as [?|[?|Hr]]; [by left | by right; left | right; right].
  by apply Hr.
Qed.

(** C9.  If both attempts of the loop fail with an exception whose text
    matches one of the role-alternation phrases, [completion] raises
    nothing and returns [None]: it falls through the loop. *)
Theorem completion_two_alternation_failures_return_None
    (W : world) (a : args) (a0 a1 : attempt) (e0 e1 : exn) :
  (completion W a).1 = [a0; a1] ->
  att_result a0 = Raise e0 -> alternation_error e0 = true ->
  att_result a1 = Raise e1 -> alternation_error e1 = true ->
  (completion W a).2 = Ok RetNone.
Proof.
  intros Hlog R0 A0 R1 A1.
  apply (completion_two_matched_failures_return_None W a a0 a1 e0 e1);
    try done.
  - unfold matched_error. by rewrite A0.
  - unfold matched_error. by rewrite A1.
  - by left.
Qed.

Lemma completion_two_alternation_failures_return_None_witness :
  (completion (rejecting_world [roles_must_alternate; roles_should_alternate])
     (chat_args [user_message "a"; user_message "b"])).2
  = Ok RetNone.
Proof.
  apply (completion_two_alternation_failures_return_None
           (rejecting_world [roles_must_alternate; roles_should_alternate])
           (chat_args [user_message "a"; user_message "b"])
           {| att_messages := Some [user_message "a"; user_message "b"];
              att_result := Raise (bad_request roles_must_alternate) |}
           {| att_messages :=
                Some [user_message "a"; placeholder "assistant";
                      user_message "b"];
              att_result := Raise (bad_request roles_should_alternate) |}
           (bad_request roles_must_alternate)
           (bad_request roles_should_alternate)).
  - vm_compute. reflexivity.
  - reflexivity.
  - reflexivity.
  - reflexivity.
  - reflexivity.
Defined.

End completion.

(** * Further properties *)

Set Warnings "-clear-no-such-hyp".

(** ** MistralConfig: parameter mapping *)

Section mistral_params.

Ltac eqb_chain p :=
  repeat match goal with
    | |- context [String.eqb p ?s] =>
        let E := fresh "E" in
        destruct (String.eqb p s) eqn:E;
        [apply String.eqb_eq in E; subst p; simpl (String.eqb _ _)|]
    end.

Lemma Mistral_step_written (param : string) (value : pyval)
    (optional_params : gmap string pyval) :
  MistralConfig.map_openai_params_step param value optional_params
  = match Mistral_written param value with
    | Some (k, x) => <[k := x]> optional_params
    | None => optional_params
    end.
Proof.
  unfold MistralConfig.map_openai_params_step, Mistral_written. cbv zeta.
  eqb_chain param; cbn [andb]; try reflexivity.
  - by destruct value.
  - by destruct (py_eq value (PBool true)).
Qed.

Lemma Mistral_written_source (param k : string) (value x : pyval) :
  Mistral_written param value = Some (k, x) -> Mistral_source k = Some param.
Proof.
  unfold Mistral_written.
  eqb_chain param; try (intros [= <- _]; reflexivity); try discriminate.
  - destruct (py_eq value (PBool true)); [|discriminate].
    intros [= <- _]. reflexivity.
  - destruct value; try discriminate. intros [= <- _]. reflexivity.
Qed.

Lemma Mistral_source_inj (k k' param : string) :
  Mistral_source k = Some param -> Mistral_source k' = Some param -> k = k'.
Proof.
  unfold Mistral_source.
  destruct (String.eqb k "extra_body") eqn:E; intros H.
  - apply String.eqb_eq in E. injection H as <-. subst k.
    destruct (String.eqb k' "extra_body") eqn:E'.
    + apply String.eqb_eq in E'. by subst.
    + destruct (OpenAIConfig.py_in_list k' _) eqn:Hin; [|discriminate].
      intros [= ->]. discriminate.
  - destruct (OpenAIConfig.py_in_list k _) eqn:Hin; [|discriminate].
    injection H as <-.
    destruct (String.eqb k' "extra_body") eqn:E'.
    + intros [= <-]. discriminate.
    + destruct (OpenAIConfig.py_in_list k' _); [|discriminate]. by intros [= ->].
Qed.

(** The loop of [map_openai_params], key by key. *)
Lemma Mistral_map_openai_params_lookup
    (non_default_params optional_params : gmap string pyval) (k : string) :
  MistralConfig.map_openai_params non_default_params optional_params !! k
  = match Mistral_source k with
    | Some p =>
        match non_default_params !! p with
        | Some v =>
            match Mistral_written p v with
            | Some (_, x) => Some x
            | None => optional_params !! k
            end
        | None => optional_params !! k
        end
    | None => optional_params !! k
    end.
Proof.
  unfold MistralConfig.map_openai_params.
  apply (map_fold_weak_ind
           (fun (r : gmap string pyval) (m : gmap string pyval) =>
              r !! k = match Mistral_source k with
                       | Some p =>
                           match m !! p with
                           | Some v =>
                               match Mistral_written p v with
                               | Some (_, x) => Some x
                               | None => optional_params !! k
                               end
                           | None => optional_params !! k
                           end
                       | None => optional_params !! k
                       end)).
  - destruct (Mistral_source k); [by rewrite lookup_empty | done].
  - intros i v m r Hi IH. rewrite Mistral_step_written.
    destruct (Mistral_written i v) as [[k' x]|] eqn:W.
    + pose proof (Mistral_written_source _ _ _ _ W) as Hs.
      destruct (decide (k' = k)) as [->|Hne].
      * rewrite lookup_insert_eq, Hs, lookup_insert_eq, W. reflexivity.
      * rewrite lookup_insert_ne by done. rewrite IH.
        destruct (Mistral_source k) as [p|] eqn:Hk; [|done].
        destruct (decide (p = i)) as [->|Hp].
        -- exfalso. apply Hne. by eapply Mistral_source_inj.
        -- by rewrite (lookup_insert_ne m) by done.
    + rewrite IH. destruct (Mistral_source k) as [p|] eqn:Hk; [|done].
      destruct (decide (p = i)) as [->|Hp].
      * by rewrite lookup_insert_eq, Hi, W.
      * by rewrite (lookup_insert_ne m) by done.
Qed.

End mistral_params.

Section mistral_claims.

(** X1.  [MistralConfig._map_tool_choice] leaves ["auto"] and ["none"]
    as they are and turns every other string (["required"] included) into
    ["any"]; so it always answers one of the three values Mistral accepts,
    and applying it twice is the same as applying it once. *)
Theorem Mistral_map_tool_choice_range (tool_choice : string) :
  (tool_choice = "auto" \/ tool_choice = "none" ->
   MistralConfig._map_tool_choice tool_choice = tool_choice)
  /\ (tool_choice <> "auto" -> tool_choice <> "none" ->
      MistralConfig._map_tool_choice tool_choice = "any")
  /\ MistralConfig._map_tool_choice "required" = "any"
  /\ MistralConfig._map_tool_choice tool_choice ∈ ["auto"; "any"; "none"]
  /\ (MistralConfig._map_tool_choice tool_choice = tool_choice
      <-> tool_choice ∈ ["auto"; "any"; "none"])
  /\ MistralConfig._map_tool_choice (MistralConfig._map_tool_choice tool_choice)
     = MistralConfig._map_tool_choice tool_choice.
Proof.
  assert (Hany : tool_choice <> "auto" -> tool_choice <> "none" ->
                 MistralConfig._map_tool_choice tool_choice = "any").
  { intros Ha Hn. unfold MistralConfig._map_tool_choice.
    apply String.eqb_neq in Ha, Hn. rewrite Ha, Hn. cbn [orb].
    by destruct (String.eqb tool_choice "required"). }
  assert (Hid : tool_choice = "auto" \/ tool_choice = "none" ->
                MistralConfig._map_tool_choice tool_choice = tool_choice).
  { by intros [-> | ->]. }
  split; [exact Hid|]. split; [exact Hany|]. split; [reflexivity|].
  destruct (String.eqb tool_choice "auto") eqn:Ea.
  { apply String.eqb_eq in Ea. subst. simpl. repeat split; try done; set_solver. }
  destruct (String.eqb tool_choice "none") eqn:En.
  { apply String.eqb_eq in En. subst. simpl. repeat split; try done; set_solver. }
  apply String.eqb_neq in Ea, En. rewrite (Hany Ea En).
  split; [set_solver|]. split; [|done]. split.
  - intros <-. set_solver.
  - intros Hin. repeat (apply elem_of_cons in Hin as [->|Hin]; [done|]).
    by apply elem_of_nil in Hin.
Qed.

(** X2.  [MistralConfig.map_openai_params] touches only eight keys of
    [optional_params]: every other key (["seed"] among them, and every
    parameter Mistral does not know) keeps the entry it had or stays absent;
    and [max_tokens], [tools], [temperature], [top_p] and [response_format]
    are copied from [non_default_params] unchanged. *)
Theorem Mistral_map_openai_params_frame
    (non_default_params optional_params : gmap string pyval) :
  (forall k : string,
     k ∉ Mistral_targets ->
     MistralConfig.map_openai_params non_default_params optional_params !! k
     = optional_params !! k)
  /\ (forall (k : string) (v : pyval),
        k ∈ ["max_tokens"; "tools"; "temperature"; "top_p"; "response_format"] ->
        non_default_params !! k = Some v ->
        MistralConfig.map_openai_params non_default_params optional_params !! k
        = Some v).
Proof.
  split.
  - intros k Hk. rewrite Mistral_map_openai_params_lookup.
    destruct (Mistral_source k) as [p|] eqn:Hs; [|done].
    exfalso. apply Hk. unfold Mistral_source in Hs. unfold Mistral_targets.
    destruct (String.eqb k "extra_body") eqn:E.
    + apply String.eqb_eq in E. subst. set_solver.
    + destruct (OpenAIConfig.py_in_list k _) eqn:Hin; [|discriminate].
      apply py_in_list_true in Hin.
      repeat (apply elem_of_cons in Hin as [->|Hin];
              [apply list_elem_of_In; simpl; tauto|]).
      by apply elem_of_nil in Hin.
  - intros k v Hk Hv. rewrite Mistral_map_openai_params_lookup.
    repeat (apply elem_of_cons in Hk as [->|Hk];
            [cbn; rewrite Hv; reflexivity|]).
    by apply elem_of_nil in Hk.
Qed.

(** X3.  A ["seed"] among [non_default_params] is passed to Mistral as
    [extra_body = {"random_seed": seed}], which replaces whatever
    [extra_body] held before; no ["seed"] entry is written. *)
Theorem Mistral_map_openai_params_seed
    (non_default_params optional_params : gmap string pyval) (v : pyval) :
  non_default_params !! "seed" = Some v ->
  MistralConfig.map_openai_params non_default_params optional_params
    !! "extra_body" = Some (PDict [("random_seed", v)])
  /\ MistralConfig.map_openai_params non_default_params optional_params
       !! "seed" = optional_params !! "seed".
Proof.
  intros Hv. rewrite !Mistral_map_openai_params_lookup. cbn. by rewrite Hv.
Qed.

Lemma Mistral_map_openai_params_seed_witness :
  seed_7 !! "seed" = Some (PInt 7)
  /\ MistralConfig.map_openai_params seed_7 temperature_1 !! "extra_body"
     = Some (PDict [("random_seed", PInt 7)])
  /\ MistralConfig.map_openai_params seed_7 temperature_1 !! "seed"
     = temperature_1 !! "seed".
Proof.
  split; [reflexivity|].
  apply (Mistral_map_openai_params_seed seed_7 temperature_1 (PInt 7)).
  reflexivity.
Defined.

(** X4.  ["stream"] is forwarded only when its value equals [True]; a
    falsy [stream] leaves the prior entry (or absence) as it was. *)
Theorem Mistral_map_openai_params_stream
    (non_default_params optional_params : gmap string pyval) (v : pyval) :
  non_default_params !! "stream" = Some v ->
  MistralConfig.map_openai_params non_default_params optional_params !! "stream"
  = if py_eq v (PBool true) then Some v else optional_params !! "stream".
Proof.
  intros Hv. rewrite Mistral_map_openai_params_lookup. cbn. rewrite Hv.
  by destruct (py_eq v (PBool true)).
Qed.

Lemma Mistral_map_openai_params_stream_witness :
  stream_false !! "stream" = Some (PBool false)
  /\ MistralConfig.map_openai_params stream_false temperature_1 !! "stream"
     = None.
Proof.
  split; [reflexivity|].
  apply (Mistral_map_openai_params_stream stream_false temperature_1 (PBool false)).
  reflexivity.
Defined.

(** X5.  A ["tool_choice"] that is a string is forwarded after
    [_map_tool_choice], so what Mistral receives is one of ["auto"],
    ["any"], ["none"]; a [tool_choice] that is not a string (OpenAI's object
    form) is not forwarded. *)
Theorem Mistral_map_openai_params_tool_choice
    (non_default_params optional_params : gmap string pyval) (v : pyval) :
  non_default_params !! "tool_choice" = Some v ->
  match v with
  | PStr s =>
      exists t : string,
        MistralConfig.map_openai_params non_default_params optional_params
          !! "tool_choice" = Some (PStr t)
        /\ t = MistralConfig._map_tool_choice s
        /\ t ∈ ["auto"; "any"; "none"]
  | _ =>
      MistralConfig.map_openai_params non_default_params optional_params
        !! "tool_choice" = optional_params !! "tool_choice"
  end.
Proof.
  intros Hv.
  assert (H : MistralConfig.map_openai_params non_default_params optional_params
                !! "tool_choice"
              = match v with
                | PStr s => Some (PStr (MistralConfig._map_tool_choice s))
                | _ => optional_params !! "tool_choice"
                end).
  { rewrite Mistral_map_openai_params_lookup. cbn. rewrite Hv. by destruct v. }
  destruct v; try exact H.
  eexists. split; [exact H|]. split; [done|].
  unfold MistralConfig._map_tool_choice.
  destruct (String.eqb s "auto") eqn:Ea.
  { apply String.eqb_eq in Ea. subst. simpl. set_solver. }
  destruct (String.eqb s "none") eqn:En.
  { apply String.eqb_eq in En. subst. simpl. set_solver. }
  cbn [orb]. destruct (String.eqb s "required"); set_solver.
Qed.

Lemma Mistral_map_openai_params_tool_choice_witness :
  exists t : string,
    MistralConfig.map_openai_params tool_choice_required temperature_1
      !! "tool_choice" = Some (PStr t)
    /\ t = MistralConfig._map_tool_choice "required"
    /\ t ∈ ["auto"; "any"; "none"].
Proof.
  apply (Mistral_map_openai_params_tool_choice tool_choice_required
           temperature_1 (PStr "required")).
  reflexivity.
Defined.

End mistral_claims.

(** ** DeepInfraConfig: parameter mapping *)

Section deepinfra.

Import DeepInfraConfig.

Example close_to_zero_is_not_zero : eq_zero close_to_zero = false.
Proof. reflexivity. Qed.

Example float_zero_is_zero :
  eq_zero (Float 0 0) = true /\ eq_zero (Py (PInt 0)) = true
  /\ eq_zero (Py (PBool false)) = true /\ eq_zero (Py PNone) = false.
Proof. repeat split. Qed.

Lemma DeepInfra_map_openai_params_lookup
    (non_default_params optional_params : gmap string fvalue)
    (model k : string) :
  map_openai_params non_default_params optional_params model !! k
  = match non_default_params !! k with
    | Some v =>
        if OpenAIConfig.py_in_list k get_supported_openai_params
        then Some (if String.eqb k "temperature" && eq_zero v
                      && String.eqb model "mistralai/Mistral-7B-Instruct-v0.1"
                   then close_to_zero else v)
        else optional_params !! k
    | None => optional_params !! k
    end.
Proof.
  unfold map_openai_params.
  apply (map_fold_weak_ind
           (fun (r : gmap string fvalue) (m : gmap string fvalue) =>
              r !! k = match m !! k with
                       | Some v =>
                           if OpenAIConfig.py_in_list k
                                get_supported_openai_params
                           then Some (if String.eqb k "temperature"
                                         && eq_zero v
                                         && String.eqb model
                                              "mistralai/Mistral-7B-Instruct-v0.1"
                                      then close_to_zero else v)
                           else optional_params !! k
                       | None => optional_params !! k
                       end)).
  - by rewrite lookup_empty.
  - intros i x m r Hi IH. unfold map_openai_params_step.
    cbv zeta. destruct (decide (i = k)) as [->|Hne].
    + rewrite (lookup_insert_eq m). rewrite Hi in IH.
      destruct (OpenAIConfig.py_in_list k _); [by rewrite lookup_insert_eq | done].
    + rewrite (lookup_insert_ne m) by done.
      destruct (OpenAIConfig.py_in_list i _); [by rewrite lookup_insert_ne | done].
Qed.

(** X6.  [DeepInfraConfig.map_openai_params] is an allow-list: a key of
    [non_default_params] outside [get_supported_openai_params()] is never
    added, every other key of [optional_params] is left alone, and a
    supported key is written with the value given, unchanged unless it is a
    [temperature] equal to 0 (the int, the float [0.0], [False]) for
    ["mistralai/Mistral-7B-Instruct-v0.1"], in which case [0.0001] is
    written. *)
Theorem DeepInfra_map_openai_params_allow_list
    (non_default_params optional_params : gmap string fvalue)
    (model : string) :
  (forall k : string,
     non_default_params !! k = None \/ k ∉ get_supported_openai_params ->
     map_openai_params non_default_params optional_params model !! k
     = optional_params !! k)
  /\ (forall (k : string) (v : fvalue),
        non_default_params !! k = Some v ->
        k ∈ get_supported_openai_params ->
        k <> "temperature" \/ eq_zero v = false
        \/ model <> "mistralai/Mistral-7B-Instruct-v0.1" ->
        map_openai_params non_default_params optional_params model !! k
        = Some v)
  /\ (forall v : fvalue,
        non_default_params !! "temperature" = Some v ->
        eq_zero v = true ->
        model = "mistralai/Mistral-7B-Instruct-v0.1" ->
        map_openai_params non_default_params optional_params model
          !! "temperature" = Some close_to_zero).
Proof.
  split; [|split].
  - intros k [Hk|Hk]; rewrite DeepInfra_map_openai_params_lookup.
    + by rewrite Hk.
    + apply py_in_list_false in Hk. rewrite Hk.
      by destruct (non_default_params !! k).
  - intros k v Hv Hk Hc. rewrite DeepInfra_map_openai_params_lookup, Hv.
    apply py_in_list_true in Hk. rewrite Hk. f_equal.
    destruct Hc as [Hc|[Hc|Hc]].
    + apply String.eqb_neq in Hc. by rewrite Hc.
    + by rewrite Hc, andb_false_r.
    + apply String.eqb_neq in Hc. by rewrite Hc, andb_false_r.
  - intros v Hv Hz ->. rewrite DeepInfra_map_openai_params_lookup, Hv, Hz.
    reflexivity.
Qed.

(** X7.  For ["mistralai/Mistral-7B-Instruct-v0.1"], which does not
    support a temperature of 0, the [temperature] taken from
    [non_default_params] is forwarded as a value that is not equal to 0: a
    zero, be it [0], [0.0] or [False], is replaced by the float [0.0001],
    anything else is kept. *)
Theorem DeepInfra_map_openai_params_temperature
    (non_default_params optional_params : gmap string fvalue) (v : fvalue) :
  non_default_params !! "temperature" = Some v ->
  exists w : fvalue,
    map_openai_params non_default_params optional_params
      "mistralai/Mistral-7B-Instruct-v0.1" !! "temperature" = Some w
    /\ eq_zero w = false
    /\ w = if eq_zero v then close_to_zero else v.
Proof.
  intros Hv. rewrite DeepInfra_map_openai_params_lookup, Hv.
  change (OpenAIConfig.py_in_list "temperature" get_supported_openai_params)
    with true.
  change (String.eqb "temperature" "temperature") with true.
  rewrite String.eqb_refl, andb_true_r. cbn [andb].
  eexists. split; [reflexivity|].
  destruct (eq_zero v) eqn:E; done.
Qed.

Lemma DeepInfra_map_openai_params_temperature_witness :
  temperature_float_0 !! "temperature" = Some (Float 0 0)
  /\ exists w : fvalue,
       map_openai_params temperature_float_0 temperature_float_0_7
         "mistralai/Mistral-7B-Instruct-v0.1" !! "temperature" = Some w
       /\ eq_zero w = false
       /\ w = if eq_zero (Float 0 0) then close_to_zero else Float 0 0.
Proof.
  split; [reflexivity|].
  apply (DeepInfra_map_openai_params_temperature temperature_float_0
           temperature_float_0_7 (Float 0 0)).
  reflexivity.
Defined.

End deepinfra.

(** ** Configuration classes: construction then [get_config] *)

Section config_round_trip.

Lemma DeepInfraConfig_locals_NoDup (a : DeepInfraConfig.args) :
  NoDup (DeepInfraConfig.locals_ a).*1.
Proof. simpl. apply (bool_decide_unpack _). vm_compute. exact I. Qed.

Lemma DeepInfraConfig_locals_prefix (a : DeepInfraConfig.args) (k : string)
    (v : pyval) :
  (k, v) ∈ DeepInfraConfig.locals_ a -> k <> "self" ->
  String.prefix "__" k = false.
Proof.
  unfold DeepInfraConfig.locals_. intros H Hs.
  repeat (apply elem_of_cons in H as [[= -> _]|H]; [done || reflexivity|]).
  by apply elem_of_nil in H.
Qed.

Lemma OpenAITextCompletionConfig_locals_NoDup
    (a : OpenAITextCompletionConfig.args) :
  NoDup (OpenAITextCompletionConfig.locals_ a).*1.
Proof. simpl. apply (bool_decide_unpack _). vm_compute. exact I. Qed.

Lemma OpenAITextCompletionConfig_locals_prefix
    (a : OpenAITextCompletionConfig.args) (k : string) (v : pyval) :
  (k, v) ∈ OpenAITextCompletionConfig.locals_ a -> k <> "self" ->
  String.prefix "__" k = false.
Proof.
  unfold OpenAITextCompletionConfig.locals_. intros H Hs.
  repeat (apply elem_of_cons in H as [[= -> _]|H]; [done || reflexivity|]).
  by apply elem_of_nil in H.
Qed.

(** On a class that [get_config] shows empty, one construction makes
    [get_config] show the arguments that are not [None], and nothing
    else. *)
Lemma get_config_init_fresh (cls : gmap string attr)
    (locals_ : list (string * pyval)) (k : string) (v : pyval) :
  NoDup locals_.*1 ->
  (forall k v, (k, v) ∈ locals_ -> k <> "self" -> String.prefix "__" k = false) ->
  get_config cls = ∅ ->
  get_config (config_init cls locals_) !! k = Some v
  <-> (k, v) ∈ locals_ /\ k <> "self" /\ v <> PNone.
Proof.
  intros Hnd Hpre Hfresh.
  destruct (get_config_after_init locals_ cls Hnd Hpre) as [Hw Hu].
  split.
  - intros H. destruct (assoc k locals_) as [w|] eqn:Ha.
    + pose proof (assoc_elem_of _ _ _ Ha) as Hin.
      destruct (String.eqb k "self") eqn:Es.
      { apply String.eqb_eq in Es.
        destruct (Hu k) as [_ Hg].
        - intros w' _. by left.
        - rewrite Hg, Hfresh, lookup_empty in H. discriminate. }
      apply String.eqb_neq in Es.
      destruct (is_None w) eqn:En.
      { apply is_None_true in En. subst w.
        destruct (Hu k) as [_ Hg].
        - intros w' Hw'. right.
          apply (assoc_NoDup k w') in Hw'; [congruence | done].
        - rewrite Hg, Hfresh, lookup_empty in H. discriminate. }
      apply is_None_false in En.
      rewrite (Hw k w Hin Es En) in H. injection H as <-. done.
    + apply assoc_None in Ha. destruct (Hu k) as [_ Hg].
      * intros w Hw'. exfalso. apply Ha. apply list_elem_of_fmap. by exists (k, w).
      * rewrite Hg, Hfresh, lookup_empty in H. discriminate.
  - intros (Hin & Hs & Hn). by apply Hw.
Qed.

(** X8.  Round trip through the class: on each of the four configuration
    classes as the class statement leaves it, [get_config()] after one
    construction returns exactly the arguments that were passed and are not
    [None], under their parameter names. *)
Theorem get_config_after_first_construction (k : string) (v : pyval) :
  (forall a : MistralConfig.args,
     get_config (MistralConfig.init MistralConfig.class_dict a) !! k = Some v
     <-> (k, v) ∈ MistralConfig.locals_ a /\ k <> "self" /\ v <> PNone)
  /\ (forall a : DeepInfraConfig.args,
        get_config (DeepInfraConfig.init DeepInfraConfig.class_dict a) !! k
        = Some v
        <-> (k, v) ∈ DeepInfraConfig.locals_ a /\ k <> "self" /\ v <> PNone)
  /\ (forall a : OpenAIConfig.args,
        get_config (OpenAIConfig.init OpenAIConfig.class_dict a) !! k = Some v
        <-> (k, v) ∈ OpenAIConfig.locals_ a /\ k <> "self" /\ v <> PNone)
  /\ (forall a : OpenAITextCompletionConfig.args,
        get_config
          (OpenAITextCompletionConfig.init
             OpenAITextCompletionConfig.class_dict a) !! k = Some v
        <-> (k, v) ∈ OpenAITextCompletionConfig.locals_ a
            /\ k <> "self" /\ v <> PNone).
Proof.
  split; [|split; [|split]]; intros a.
  - apply get_config_init_fresh;
      [apply MistralConfig_locals_NoDup | apply MistralConfig_locals_prefix
      | reflexivity].
  - apply get_config_init_fresh;
      [apply DeepInfraConfig_locals_NoDup | apply DeepInfraConfig_locals_prefix
      | reflexivity].
  - apply get_config_init_fresh;
      [apply OpenAIConfig_locals_NoDup | apply OpenAIConfig_locals_prefix
      | reflexivity].
  - apply get_config_init_fresh;
      [apply OpenAITextCompletionConfig_locals_NoDup
      | apply OpenAITextCompletionConfig_locals_prefix | reflexivity].
Qed.

End config_round_trip.

(** ** The message rewriting: fixed points, ends, growth *)

Section rewriting_more.

Import OpenAIChatCompletion.

Lemma same_role_pairs_none (l : list message) :
  adjacent_same_role l = false -> same_role_pairs l = 0.
Proof.
  induction l as [|m [|m' rest] IH]; [done | done |].
  rewrite adjacent_same_role_cons. intros H.
  apply orb_false_iff in H as [H1 H2].
  change (same_role_pairs (m :: m' :: rest))
    with ((if same_role m m' then 1 else 0) + same_role_pairs (m' :: rest)).
  by rewrite H1, IH.
Qed.

(** A list in which no two neighbours share a role is left as it is. *)
Lemma alternate_fixed (l : list message) :
  (2 <= length l -> Forall has_role l) ->
  adjacent_same_role l = false -> alternate l = l.
Proof.
  induction l as [|m [|m' rest] IH]; [done | done |].
  intros Hr Hadj.
  assert (Hall : Forall has_role (m :: m' :: rest)) by (apply Hr; simpl; lia).
  apply Forall_cons in Hall as [Hm Hrest].
  pose proof Hrest as Hrest'. apply Forall_cons in Hrest' as [Hm' _].
  rewrite adjacent_same_role_cons in Hadj.
  apply orb_false_iff in Hadj as [H1 H2].
  change (alternate (m :: m' :: rest))
    with (m :: separator m m' ++ alternate (m' :: rest)).
  rewrite IH by done. unfold separator.
  rewrite same_role_eq in H1 by done. by rewrite H1.
Qed.

Lemma same_role_pairs_bound (l : list message) :
  same_role_pairs l <= length l - 1.
Proof.
  induction l as [|m [|m' rest] IH]; [done | done |].
  change (same_role_pairs (m :: m' :: rest))
    with ((if same_role m m' then 1 else 0) + same_role_pairs (m' :: rest)).
  simpl length in *. destruct (same_role m m'); lia.
Qed.

Lemma alternate_last (l : list message) : last (alternate l) = last l.
Proof.
  induction l as [|m [|m' rest] IH]; [done | done |].
  change (alternate (m :: m' :: rest))
    with (m :: separator m m' ++ alternate (m' :: rest)).
  destruct (alternate_cons m' rest) as [tl Etl]. rewrite Etl in IH |- *.
  change (m :: separator m m' ++ m' :: tl)
    with ((m :: separator m m') ++ m' :: tl).
  rewrite last_app_cons, IH. reflexivity.
Qed.

(** X9.  The rewriting is idempotent: rewriting a list that was already
    rewritten returns it unchanged, so nothing is inserted twice. *)
Theorem reformat_messages_idempotent (messages out : list message) :
  reformat_messages messages = Ok out ->
  reformat_messages out = Ok out.
Proof.
  intros H. pose proof (reformat_messages_Ok_alternate _ _ H) as ->.
  destruct (proj1 (reformat_messages_Ok_iff messages)) as [Hne Hr]; [eauto|].
  assert (Hr' : 2 <= length (alternate messages) ->
                Forall has_role (alternate messages)).
  { destruct messages as [|m [|m' rest]]; [done | simpl; lia |].
    intros _. apply alternate_has_role, Hr. simpl. lia. }
  destruct (proj2 (reformat_messages_Ok_iff (alternate messages)))
    as [out' Hout'].
  { split; [|done]. destruct messages as [|m rest]; [done|].
    by destruct (alternate_cons m rest) as [tl ->]. }
  rewrite Hout'. f_equal.
  rewrite (reformat_messages_Ok_alternate _ _ Hout').
  apply alternate_fixed; [done|]. by apply alternate_no_adjacent_weak.
Qed.

Lemma reformat_messages_idempotent_witness :
  reformat_messages [user_message "a"; user_message "b"]
  = Ok [user_message "a"; placeholder "assistant"; user_message "b"]
  /\ reformat_messages
       [user_message "a"; placeholder "assistant"; user_message "b"]
     = Ok [user_message "a"; placeholder "assistant"; user_message "b"].
Proof.
  split; [reflexivity|].
  apply (reformat_messages_idempotent [user_message "a"; user_message "b"]).
  reflexivity.
Defined.

(** X10.  A conversation that already alternates is returned unchanged:
    on a non-empty list whose messages have roles and in which no two
    neighbours share a role, the rewriting inserts nothing, so the retry
    sends the same messages again. *)
Theorem reformat_messages_fixed_point (messages : list message) :
  messages <> [] ->
  Forall has_role messages ->
  adjacent_same_role messages = false ->
  reformat_messages messages = Ok messages.
Proof.
  intros Hne Hr Hadj. rewrite reformat_messages_alternate by done.
  f_equal. by apply alternate_fixed.
Qed.

Lemma reformat_messages_fixed_point_witness :
  reformat_messages [user_message "a"; assistant_message "b"; user_message "c"]
  = Ok [user_message "a"; assistant_message "b"; user_message "c"].
Proof.
  apply reformat_messages_fixed_point.
  - discriminate.
  - repeat constructor; eexists; reflexivity.
  - reflexivity.
Defined.

(** X11.  The rewriting inserts only between messages: the rewritten list
    starts with the original first message and ends with the original last
    message, and it has at least as many and at most [2 * n - 1] messages
    for [n] original ones. *)
Theorem reformat_messages_ends_and_growth (messages out : list message) :
  reformat_messages messages = Ok out ->
  head out = head messages
  /\ last out = last messages
  /\ length messages <= length out <= 2 * length messages - 1.
Proof.
  intros H. pose proof (reformat_messages_Ok_alternate _ _ H) as ->.
  destruct (proj1 (reformat_messages_Ok_iff messages)) as [Hne Hr]; [eauto|].
  split; [|split].
  - destruct messages as [|m rest]; [done|].
    by destruct (alternate_cons m rest) as [tl ->].
  - apply alternate_last.
  - rewrite alternate_length_weak by done.
    pose proof (same_role_pairs_bound messages).
    destruct messages; [done|]. simpl length in *. lia.
Qed.

Lemma reformat_messages_ends_and_growth_witness :
  head [user_message "a"; placeholder "assistant"; user_message "b"]
  = head [user_message "a"; user_message "b"]
  /\ last [user_message "a"; placeholder "assistant"; user_message "b"]
     = last [user_message "a"; user_message "b"]
  /\ length [user_message "a"; user_message "b"]
     <= length [user_message "a"; placeholder "assistant"; user_message "b"]
     <= 2 * length [user_message "a"; user_message "b"] - 1.
Proof.
  apply (reformat_messages_ends_and_growth
           [user_message "a"; user_message "b"]).
  reflexivity.
Defined.

End rewriting_more.

(** ** OpenAIChatCompletion.completion: further behaviour *)

Section completion_more.

Import OpenAIChatCompletion.

(** What the [try] block hands back is never [None]. *)
Lemma try_body_not_None (W : world) (a : args) (op : gmap string pyval)
    (mr : ModelResponse.t) (mo : string) (i : nat)
    (ms : option (list message)) :
  try_body W a op mr mo i ms <> Ok RetNone.
Proof.
  unfold try_body.
  destruct (acompletion a).
  - by destruct (py_truthy _).
  - destruct (py_truthy _).
    + by destruct (streaming W i _).
    + destruct (negb _); [done|]. by destruct (chat_completions_create W i _).
Qed.

(** The error for a [max_retries] that is not an int is not one the handler
    retries on. *)
Lemma max_retries_error_unmatched :
  matched_error (OpenAIError (PInt 422) "max retries must be an int") = false.
Proof. reflexivity. Qed.

(** X12.  When the first attempt fails with an error that contains only
    the last-message phrase, a second attempt is always made, and it is made
    with the same messages followed by one empty user turn; this rewriting
    cannot fail, whatever the messages are. *)
Theorem completion_last_message_retry
    (W : world) (a : args) (a0 : attempt) (rest : list attempt) (e : exn)
    (ms : list message) :
  (completion W a).1 = a0 :: rest ->
  att_result a0 = Raise e ->
  att_messages a0 = Some ms ->
  alternation_error e = false ->
  last_role_error e = true ->
  exists a1 : attempt,
    rest = [a1] /\ att_messages a1 = Some (ms ++ [placeholder "user"]).
Proof.
  unfold completion. cbn [fst].
  destruct (completion_try_cases W a) as [[x ->]|(op & mr & mo & ms0 & ->)];
    [discriminate|].
  rewrite retry_loop_range_2. cbv zeta.
  intros Hlog R0 M0 Ha Hl.
  assert (Hh : handle_error e (Some ms) = Ok (Some (ms ++ [placeholder "user"]))).
  { unfold handle_error. by rewrite Ha, Hl. }
  destruct (try_body W a op mr mo 0 ms0) as [v|e0] eqn:E0.
  { injection Hlog as <- <-. discriminate. }
  assert (e0 = e /\ ms0 = Some ms) as [-> ->].
  { destruct (handle_error e0 ms0);
      [destruct (try_body W a op mr mo 1 _); [|destruct (handle_error _ _)]|];
      injection Hlog as <- <-; simpl in R0, M0; by injection R0 as ->. }
  rewrite Hh in Hlog.
  destruct (try_body W a op mr mo 1 _) as [v|e1];
    [|destruct (handle_error e1 _)]; injection Hlog as <- <-; eauto.
Qed.

Lemma completion_last_message_retry_witness :
  exists a1 : attempt,
    [ {| att_messages :=
           Some [user_message "a"; assistant_message "b"; placeholder "user"];
         att_result := Raise (bad_request "boom") |} ] = [a1]
    /\ att_messages a1
       = Some ([user_message "a"; assistant_message "b"] ++ [placeholder "user"]).
Proof.
  apply (completion_last_message_retry
           (rejecting_world [last_must_be_user; "boom"])
           (chat_args [user_message "a"; assistant_message "b"])
           {| att_messages := Some [user_message "a"; assistant_message "b"];
              att_result := Raise (bad_request last_must_be_user) |}
           _ (bad_request last_must_be_user)
           [user_message "a"; assistant_message "b"]);
    reflexivity.
Defined.

(** X13.  The checks before the loop: a missing [model] or missing
    [messages], and a [timeout] that is neither a float nor an
    [httpx.Timeout], raise an [OpenAIError] with status code 422 before any
    attempt is made. *)
Theorem completion_argument_checks (W : world) (a : args) :
  (model a = None \/ messages a = None ->
   completion W a
   = ([], Raise (OpenAIError (PInt 422) "Missing model or messages")))
  /\ (model a <> None -> messages a <> None -> timeout a = TimeoutOther ->
      completion W a
      = ([], Raise (OpenAIError (PInt 422)
                      "Timeout needs to be a float or httpx.Timeout"))).
Proof.
  unfold completion, completion_try. split.
  - intros [H|H]; rewrite H; [done|]. by destruct (model a).
  - intros Hm Hs Ht. rewrite Ht.
    destruct (model a); [|done]. by destruct (messages a).
Qed.

(** X14.  An asynchronous call ([acompletion=True]) never enters the
    retry: at most one pass through the [try] block is made, that pass
    returns the coroutine of [acompletion] or [async_streaming], and this
    coroutine is what [completion] returns. *)
Theorem completion_async_no_retry (W : world) (a : args) :
  acompletion a = true ->
  length (completion W a).1 <= 1
  /\ (forall att : attempt,
        att ∈ (completion W a).1 ->
        exists (method : string) (c : call),
          att_result att = Ok (RetCoroutine method c)
          /\ (method = "acompletion" \/ method = "async_streaming")
          /\ (completion W a).2 = Ok (RetCoroutine method c)).
Proof.
  intros Ha. unfold completion. cbn [fst snd].
  destruct (completion_try_cases W a) as [[x ->]|(op & mr & mo & ms & ->)].
  { split; [simpl; lia|]. intros att Hin. by apply elem_of_nil in Hin. }
  rewrite retry_loop_range_2. cbv zeta. unfold try_body. rewrite Ha.
  destruct (py_truthy _); (split; [simpl; lia|]); intros att Hin;
    apply list_elem_of_singleton in Hin; subst att; simpl; eauto 10.
Qed.

Lemma completion_async_no_retry_witness :
  length (completion (rejecting_world ["boom"]) chat_args_async).1 <= 1
  /\ (forall att : attempt,
        att ∈ (completion (rejecting_world ["boom"]) chat_args_async).1 ->
        exists (method : string) (c : call),
          att_result att = Ok (RetCoroutine method c)
          /\ (method = "acompletion" \/ method = "async_streaming")
          /\ (completion (rejecting_world ["boom"]) chat_args_async).2
             = Ok (RetCoroutine method c)).
Proof.
  apply (completion_async_no_retry (rejecting_world ["boom"]) chat_args_async).
  reflexivity.
Defined.

(** X15.  On the synchronous, non-streaming path a [max_retries] that is
    not an int makes [completion] raise [OpenAIError(422, "max retries must
    be an int")] after one pass, without calling the vendor and without a
    retry. *)
Theorem completion_max_retries_not_int
    (W : world) (a : args) (mo : string) (ms : list message)
    (mr : ModelResponse.t) (ms' : option (list message)) (v : pyval) :
  model a = Some mo -> messages a = Some ms ->
  timeout a <> TimeoutOther ->
  prepare W a mo ms = Ok (mr, ms') ->
  acompletion a = false ->
  py_truthy (default (PBool false) (optional_params a !! "stream")) = false ->
  optional_params a !! "max_retries" = Some v ->
  isinstance_int v = false ->
  completion W a
  = ([ {| att_messages := ms';
          att_result :=
            Raise (OpenAIError (PInt 422) "max retries must be an int") |} ],
     Raise (OpenAIError (PInt 422) "max retries must be an int")).
Proof.
  intros Hmo Hms Ht Hp Ha Hs Hv Hi.
  unfold completion, completion_try. rewrite Hmo, Hms, Hp.
  set (op := if py_truthy (headers a)
             then <["extra_headers" := headers a]> (optional_params a)
             else optional_params a).
  assert (Hop : forall k, k <> "extra_headers" ->
                          op !! k = optional_params a !! k).
  { intros k Hk. unfold op. destruct (py_truthy (headers a)); [|done].
    by rewrite lookup_insert_ne. }
  assert (Hbody : forall i m,
            try_body W a op mr mo i m
            = Raise (OpenAIError (PInt 422) "max retries must be an int")).
  { intros i m. unfold try_body, make_call. cbn [max_retries].
    rewrite Ha, !Hop by done. rewrite Hs, Hv. cbn [default from_option].
    unfold id. by rewrite Hi. }
  assert (Hloop : retry_loop W a op mr mo (seq 0 2) ms'
                  = ([ {| att_messages := ms';
                          att_result :=
                            Raise (OpenAIError (PInt 422)
                                     "max retries must be an int") |} ],
                     Raise (OpenAIError (PInt 422)
                              "max retries must be an int"))).
  { change (seq 0 2) with [0; 1]. rewrite retry_loop_range_2. cbv zeta.
    rewrite Hbody.
    by rewrite (handle_error_unmatched _ ms' max_retries_error_unmatched). }
  destruct (timeout a); [| |done]; by rewrite Hloop.
Qed.

Lemma completion_max_retries_not_int_witness :
  completion (rejecting_world ["boom"]) chat_args_bad_max_retries
  = ([ {| att_messages := Some [user_message "hi"];
          att_result :=
            Raise (OpenAIError (PInt 422) "max retries must be an int") |} ],
     Raise (OpenAIError (PInt 422) "max retries must be an int")).
Proof.
  apply (completion_max_retries_not_int (rejecting_world ["boom"])
           chat_args_bad_max_retries "gpt-4" [user_message "hi"]
           empty_response (Some [user_message "hi"]) (PStr "3"));
    try reflexivity.
  discriminate.
Defined.

(** X16.  [completion] returns [None] only in one way: two attempts were
    made and both failed with an error whose text matches one of the
    special-cased phrases. *)
Theorem completion_None_only_after_two_failures (W : world) (a : args) :
  (completion W a).2 = Ok RetNone ->
  exists (a0 a1 : attempt) (e0 e1 : exn),
    (completion W a).1 = [a0; a1]
    /\ att_result a0 = Raise e0 /\ matched_error e0 = true
    /\ att_result a1 = Raise e1 /\ matched_error e1 = true.
Proof.
  unfold completion. cbn [fst snd].
  destruct (completion_try_cases W a) as [[x ->]|(op & mr & mo & ms & ->)];
    [discriminate|].
  rewrite retry_loop_range_2. cbv zeta.
  destruct (try_body W a op mr mo 0 ms) as [v|e0] eqn:E0.
  { simpl. intros [= ->]. by apply try_body_not_None in E0. }
  destruct (handle_error e0 ms) as [ms'|e'] eqn:H0; [|discriminate].
  destruct (try_body W a op mr mo 1 ms') as [v|e1] eqn:E1.
  { simpl. intros [= ->]. by apply try_body_not_None in E1. }
  destruct (handle_error e1 ms') as [ms''|e''] eqn:H1; [|discriminate].
  intros _. apply handle_error_Ok in H0 as [M0 _].
  apply handle_error_Ok in H1 as [M1 _].
  by eexists _, _, e0, e1.
Qed.

Lemma completion_None_only_after_two_failures_witness :
  exists (a0 a1 : attempt) (e0 e1 : exn),
    (completion (rejecting_world [roles_must_alternate; roles_must_alternate])
       (chat_args [user_message "a"; user_message "b"])).1 = [a0; a1]
    /\ att_result a0 = Raise e0 /\ matched_error e0 = true
    /\ att_result a1 = Raise e1 /\ matched_error e1 = true.
Proof.
  apply (completion_None_only_after_two_failures
           (rejecting_world [roles_must_alternate; roles_must_alternate])
           (chat_args [user_message "a"; user_message "b"])).
  vm_compute. reflexivity.
Defined.

End completion_more.

(** ** OpenAITextCompletion: the prompt and the errors *)

Section text_completion.

Import OpenAITextCompletion.

Lemma contents_Ok (messages : list message) :
  Forall has_content messages ->
  exists cs : list pyval,
    contents messages = Ok cs
    /\ length cs = length messages
    /\ (forall (i : nat) (m : message),
          messages !! i = Some m -> m !! "content" = cs !! i).
Proof.
  induction messages as [|m rest IH]; intros H.
  - exists []. split; [done|]. split; [done|]. intros i m Hi.
    by rewrite lookup_nil in Hi.
  - apply Forall_cons in H as [[c Hc] Hrest].
    destruct (IH Hrest) as (cs & E & Hlen & Hcs).
    exists (c :: cs). split; [|split].
    + simpl. unfold getitem. rewrite Hc. simpl. by rewrite E.
    + simpl. by rewrite Hlen.
    + intros [|i] m' Hi; simpl in Hi |- *.
      * by injection Hi as <-.
      * by apply Hcs.
Qed.

Lemma contents_Raise (messages : list message) :
  Exists (fun m : message => m !! "content" = None) messages ->
  contents messages = Raise (KeyError "content").
Proof.
  induction messages as [|m rest IH]; intros H.
  - by apply Exists_nil in H.
  - simpl. unfold getitem. destruct (m !! "content") as [c|] eqn:Hc; [|done].
    apply Exists_cons in H as [H|H]; [congruence|].
    simpl. by rewrite IH.
Qed.

Lemma contents_Raise_inv (messages : list message) (e : exn) :
  contents messages = Raise e -> e = KeyError "content".
Proof.
  induction messages as [|m rest IH]; [discriminate|].
  simpl. unfold getitem. destruct (m !! "content") as [c|]; simpl.
  - destruct (contents rest) as [cs|x]; simpl; [discriminate|].
    intros [= <-]. by apply IH.
  - by intros [= <-].
Qed.

Lemma prompt_Raise_inv (messages : list message) (e : exn) :
  prompt messages = Raise e -> e = KeyError "content".
Proof.
  unfold prompt. destruct (first_content_is_list messages) eqn:F.
  - unfold first_content_is_list in F. destruct messages as [|m0 rest];
      [discriminate|]. simpl in F.
    unfold list_getitem, getitem. simpl.
    destruct (m0 !! "content"); [discriminate|].
    by rewrite andb_false_r in F.
  - destruct (contents messages) as [cs|x] eqn:E; simpl; [discriminate|].
    intros [= <-]. by eapply contents_Raise_inv.
Qed.

(** X17.  When the content of the first message is a list, that list is
    the prompt, and the remaining messages are not looked at: they may be
    anything, even messages without content. *)
Theorem prompt_first_content_list
    (m0 : message) (rest : list message) (l : list pyval) :
  m0 !! "content" = Some (PList l) ->
  prompt (m0 :: rest) = Ok (PList l).
Proof.
  intros H. unfold prompt, first_content_is_list. simpl. rewrite H.
  rewrite bool_decide_eq_true_2 by eauto. simpl.
  unfold getitem. by rewrite H.
Qed.

Lemma prompt_first_content_list_witness :
  prompt [list_content_message; contentless_message]
  = Ok (PList [PStr "x"; PStr "y"]).
Proof.
  apply (prompt_first_content_list list_content_message [contentless_message]).
  reflexivity.
Defined.

(** X18.  Otherwise (no message, or a first message whose content is
    missing or not a list) the prompt is the list of the messages'
    contents, one per message and in their order, when every message has a
    content; and building it raises [KeyError('content')] when some message
    has none. *)
Theorem prompt_contents (messages : list message) :
  first_content_is_list messages = false ->
  (Forall has_content messages ->
   exists cs : list pyval,
     prompt messages = Ok (PList cs)
     /\ length cs = length messages
     /\ (forall (i : nat) (m : message),
           messages !! i = Some m -> m !! "content" = cs !! i))
  /\ (Exists (fun m : message => m !! "content" = None) messages ->
      prompt messages = Raise (KeyError "content")).
Proof.
  intros F. unfold prompt. rewrite F. split.
  - intros H. destruct (contents_Ok messages H) as (cs & E & Hlen & Hcs).
    exists cs. rewrite E. done.
  - intros H. by rewrite (contents_Raise messages H).
Qed.

Lemma prompt_contents_witness :
  (Forall has_content [user_message "a"; assistant_message "b"] ->
   exists cs : list pyval,
     prompt [user_message "a"; assistant_message "b"] = Ok (PList cs)
     /\ length cs = length [user_message "a"; assistant_message "b"]
     /\ (forall (i : nat) (m : message),
           [user_message "a"; assistant_message "b"] !! i = Some m ->
           m !! "content" = cs !! i))
  /\ (Exists (fun m : message => m !! "content" = None)
        [user_message "a"; assistant_message "b"] ->
      prompt [user_message "a"; assistant_message "b"]
      = Raise (KeyError "content")).
Proof.
  apply (prompt_contents [user_message "a"; assistant_message "b"]).
  reflexivity.
Defined.

(** X19.  [OpenAITextCompletion.completion] does not normalise errors:
    whatever it raises is the 422 [OpenAIError] for a missing model or
    missing messages, the [KeyError] of the prompt, the [TypeError] for
    [optional_params=None], or exactly the exception that the logging call
    or the vendor call raised. *)
Theorem text_completion_errors_unchanged (W : world) (a : args) (e : exn) :
  completion W a = Raise e ->
  e = OpenAIError (PInt 422) "Missing model or messages"
  \/ e = KeyError "content"
  \/ e = TypeError_not_a_mapping
  \/ (exists c : call, pre_call W c = Raise e)
  \/ (exists c : call, completions_create W c = Raise e).
Proof.
  unfold completion.
  destruct (model a) as [mo|]; [|intros [= <-]; by left].
  destruct (messages a) as [ms|]; [|intros [= <-]; by left].
  destruct (prompt ms) as [p|x] eqn:P; simpl.
  2:{ intros [= <-]. right. left. by eapply prompt_Raise_inv. }
  destruct (optional_params a) as [op|]; [|intros [= <-]; tauto].
  match goal with |- context [pre_call W ?c] => set (c0 := c) end.
  destruct (pre_call W c0) as [[]|x] eqn:L; simpl.
  2:{ intros [= <-]. right. right. right. left. by exists c0. }
  destruct (acompletion a).
  - by destruct (py_truthy _).
  - destruct (py_truthy _); [discriminate|].
    destruct (completions_create W c0) as [r|x] eqn:V; simpl; [discriminate|].
    intros [= <-]. right. right. right. right. by exists c0.
Qed.

Lemma text_completion_errors_unchanged_witness :
  completion unreachable_world (text_args [user_message "hi"])
  = Raise (PyExc "APIConnectionError" None "Connection error.")
  /\ (PyExc "APIConnectionError" None "Connection error."
      = OpenAIError (PInt 422) "Missing model or messages"
      \/ PyExc "APIConnectionError" None "Connection error."
         = KeyError "content"
      \/ PyExc "APIConnectionError" None "Connection error."
         = TypeError_not_a_mapping
      \/ (exists c : call,
            pre_call unreachable_world c
            = Raise (PyExc "APIConnectionError" None "Connection error."))
      \/ (exists c : call,
            completions_create unreachable_world c
            = Raise (PyExc "APIConnectionError" None "Connection error."))).
Proof.
  split; [reflexivity|].
  apply (text_completion_errors_unchanged unreachable_world
           (text_args [user_message "hi"])).
  reflexivity.
Defined.

End text_completion.

(** ** get_openai_client: the arguments handed to the vendor *)

Section client_data.

Import OpenAIClient.

(** X20.  The keyword arguments built for the vendor's [OpenAI]
    constructor hold no [None]: each of [api_key], [timeout],
    [max_retries] and [organization] is present exactly when it is not
    [None], [api_base] is passed under the name [base_url], and nothing else
    is passed ([self], [client] and [api_base] never are).  When a client
    is given, it is returned and no client is constructed. *)
Theorem client_data_spec (a : args) :
  (forall (k : string) (v : pyval),
     client_data a !! k = Some v ->
     v <> PNone
     /\ k ∈ ["api_key"; "base_url"; "timeout"; "max_retries"; "organization"])
  /\ client_data a !! "api_key"
     = (if is_None (api_key a) then None else Some (api_key a))
  /\ client_data a !! "base_url"
     = (if is_None (api_base a) then None else Some (api_base a))
  /\ client_data a !! "timeout"
     = (if is_None (timeout a) then None else Some (timeout a))
  /\ client_data a !! "max_retries"
     = (if is_None (max_retries a) then None else Some (max_retries a))
  /\ client_data a !! "organization"
     = (if is_None (organization a) then None else Some (organization a))
  /\ (forall OpenAI : gmap string pyval -> result pyval,
        is_None (client a) = false ->
        get_openai_client OpenAI a = Ok (client a)).
Proof.
  unfold client_data, received_args, get_openai_client.
  cbn [foldl]. unfold data_step.
  cbn [fst snd String.eqb Ascii.eqb Bool.eqb orb andb].
  destruct (is_None (api_key a)) eqn:E1, (is_None (api_base a)) eqn:E2,
    (is_None (timeout a)) eqn:E3, (is_None (max_retries a)) eqn:E4,
    (is_None (organization a)) eqn:E5; cbn [negb andb];
    try apply is_None_false in E1; try apply is_None_false in E2;
    try apply is_None_false in E3; try apply is_None_false in E4;
    try apply is_None_false in E5;
    (split;
     [intros k v H;
      repeat (apply lookup_insert_Some in H as [[<- <-]|[? H]];
              [split; [assumption | apply list_elem_of_In; simpl; tauto]|]);
      by rewrite lookup_empty in H
     |repeat (split; [reflexivity|]); intros OpenAI ->; reflexivity]).
Qed.

End client_data.

(** ** ahealth_check *)

Section health_check.

Import HealthCheck.

Lemma rate_limits_step (headers response : gmap string pyval) (k : string) :
  (if header_present headers k
   then let* v := getitem headers k in Ok (<[k := v]> response)
   else Ok response)
  = Ok (match headers !! k with
        | Some v => if is_None v then response else <[k := v]> response
        | None => response
        end).
Proof.
  unfold header_present, getitem.
  destruct (headers !! k) as [v|]; [|done]. by destruct (is_None v).
Qed.

Lemma rate_limits_lookup (headers : gmap string pyval) :
  exists response : gmap string pyval,
    rate_limits headers = Ok response
    /\ forall (k : string) (v : pyval),
         response !! k = Some v
         <-> (k = "x-ratelimit-remaining-requests"
              \/ k = "x-ratelimit-remaining-tokens")
             /\ headers !! k = Some v /\ v <> PNone.
Proof.
  unfold rate_limits. cbv zeta. rewrite rate_limits_step. cbn [bind].
  rewrite rate_limits_step. cbn [bind].
  eexists. split; [reflexivity|]. intros k v.
  destruct (headers !! "x-ratelimit-remaining-requests") as [r|] eqn:Hr;
    [destruct (is_None r) eqn:Nr;
     [apply is_None_true in Nr | apply is_None_false in Nr]|];
    (destruct (headers !! "x-ratelimit-remaining-tokens") as [t|] eqn:Ht;
     [destruct (is_None t) eqn:Nt;
      [apply is_None_true in Nt | apply is_None_false in Nt]|]);
    subst;
    repeat first [ rewrite lookup_empty | rewrite lookup_insert_Some ];
    naive_solver.
Qed.

(** X21.  The health check makes at most one vendor request, and only
    once what the mode needs is there: the mode is one of the four known
    ones and decides the endpoint, a model is set unless the mode is
    ["image_generation"], and [messages], [input] or [prompt] is set for the
    chat, embedding or image mode.  (The completion mode asks for no
    prompt.) *)
Theorem ahealth_check_requests (W : world) (a : args) :
  length (ahealth_check W a).1 <= 1
  /\ (forall req : request,
        req ∈ (ahealth_check W a).1 ->
        dispatch a = Ok req
        /\ (is_Some (model a) \/ mode a = "image_generation")
        /\ match req_endpoint req with
           | CompletionsCreate => mode a = "completion"
           | ChatCompletionsCreate =>
               mode a = "chat" /\ is_Some (messages a)
               /\ req_messages req = messages a
           | EmbeddingsCreate =>
               mode a = "embedding" /\ is_Some (input a)
               /\ req_input req = input a
           | ImagesGenerate =>
               mode a = "image_generation" /\ is_Some (prompt a)
               /\ req_prompt req = prompt a
           end).
Proof.
  unfold ahealth_check.
  destruct (AsyncOpenAI W) as [[]|e].
  2:{ split; [simpl; lia|]. intros req H. by apply elem_of_nil in H. }
  destruct (bool_decide (model a = None)
            && negb (String.eqb (mode a) "image_generation")) eqn:Hm.
  { split; [simpl; lia|]. intros req H. by apply elem_of_nil in H. }
  assert (Hmodel : is_Some (model a) \/ mode a = "image_generation").
  { apply andb_false_iff in Hm as [Hm|Hm].
    - apply bool_decide_eq_false in Hm. left.
      destruct (model a); [eauto | done].
    - right. apply negb_false_iff in Hm. by apply String.eqb_eq. }
  destruct (dispatch a) as [req|e] eqn:D.
  2:{ split; [simpl; lia|]. intros req H. by apply elem_of_nil in H. }
  assert (Hreq : match req_endpoint req with
                 | CompletionsCreate => mode a = "completion"
                 | ChatCompletionsCreate =>
                     mode a = "chat" /\ is_Some (messages a)
                     /\ req_messages req = messages a
                 | EmbeddingsCreate =>
                     mode a = "embedding" /\ is_Some (input a)
                     /\ req_input req = input a
                 | ImagesGenerate =>
                     mode a = "image_generation" /\ is_Some (prompt a)
                     /\ req_prompt req = prompt a
                 end).
  { unfold dispatch in D.
    destruct (String.eqb (mode a) "completion") eqn:E1.
    { injection D as <-. simpl. by apply String.eqb_eq. }
    destruct (String.eqb (mode a) "chat") eqn:E2.
    { destruct (messages a) eqn:M; [|discriminate]. injection D as <-. simpl.
      apply String.eqb_eq in E2. eauto. }
    destruct (String.eqb (mode a) "embedding") eqn:E3.
    { destruct (input a) eqn:M; [|discriminate]. injection D as <-. simpl.
      apply String.eqb_eq in E3. eauto. }
    destruct (String.eqb (mode a) "image_generation") eqn:E4; [|discriminate].
    destruct (prompt a) eqn:M; [|discriminate]. injection D as <-. simpl.
    apply String.eqb_eq in E4. eauto. }
  assert (forall r : result (gmap string pyval),
            length ([req], r).1 <= 1
            /\ (forall req0 : request,
                  req0 ∈ ([req], r).1 ->
                  Ok req = Ok req0
                  /\ (is_Some (model a) \/ mode a = "image_generation")
                  /\ match req_endpoint req0 with
                     | CompletionsCreate => mode a = "completion"
                     | ChatCompletionsCreate =>
                         mode a = "chat" /\ is_Some (messages a)
                         /\ req_messages req0 = messages a
                     | EmbeddingsCreate =>
                         mode a = "embedding" /\ is_Some (input a)
                         /\ req_input req0 = input a
                     | ImagesGenerate =>
                         mode a = "image_generation" /\ is_Some (prompt a)
                         /\ req_prompt req0 = prompt a
                     end)) as Hall.
  { intros r. split; [simpl; lia|]. intros req0 H. simpl in H.
    apply list_elem_of_singleton in H. by subst. }
  destruct (with_raw_response W req) as [[h|]|e]; apply Hall.
Qed.

(** X22.  When the health check returns, it returns exactly the rate-limit
    headers of the vendor's raw response: the entries of
    ["x-ratelimit-remaining-requests"] and ["x-ratelimit-remaining-tokens"]
    that are present and not [None], with their values, and nothing
    else. *)
Theorem ahealth_check_response (W : world) (a : args)
    (response : gmap string pyval) :
  (ahealth_check W a).2 = Ok response ->
  exists (req : request) (headers : gmap string pyval),
    (ahealth_check W a).1 = [req]
    /\ with_raw_response W req = Ok (Some headers)
    /\ forall (k : string) (v : pyval),
         response !! k = Some v
         <-> (k = "x-ratelimit-remaining-requests"
              \/ k = "x-ratelimit-remaining-tokens")
             /\ headers !! k = Some v /\ v <> PNone.
Proof.
  unfold ahealth_check.
  destruct (AsyncOpenAI W) as [[]|e]; [|discriminate].
  destruct (bool_decide (model a = None) && _); [discriminate|].
  destruct (dispatch a) as [req|e]; [|discriminate].
  destruct (with_raw_response W req) as [[h|]|e] eqn:V; try discriminate.
  simpl. intros H. exists req, h. split; [done|]. split; [done|].
  destruct (rate_limits_lookup h) as (r & Hr & Hk).
  rewrite Hr in H. by injection H as <-.
Qed.

Lemma ahealth_check_response_witness :
  (ahealth_check health_world health_args_chat).2
  = Ok {[ "x-ratelimit-remaining-requests" := PStr "99" ]}
  /\ exists (req : request) (headers : gmap string pyval),
       (ahealth_check health_world health_args_chat).1 = [req]
       /\ with_raw_response health_world req = Ok (Some headers)
       /\ forall (k : string) (v : pyval),
            ({[ "x-ratelimit-remaining-requests" := PStr "99" ]}
             : gmap string pyval) !! k = Some v
            <-> (k = "x-ratelimit-remaining-requests"
                 \/ k = "x-ratelimit-remaining-tokens")
                /\ headers !! k = Some v /\ v <> PNone.
Proof.
  split; [reflexivity|].
  apply (ahealth_check_response health_world health_args_chat).
  reflexivity.
Defined.

End health_check.

(** ** embedding, image_generation, async_streaming: what they raise *)

Section error_mapping.

(** The mapping shared by the handlers, in one formula. *)
Lemma normalize_str_eq (u : exn) :
  normalize_str u
  = OpenAIError (default (PInt 500) (exn_status_code u)) (str_exn u).
Proof. by destruct u as [sc m|cls [sc|] text]. Qed.

(** X23.  Whatever [embedding] raises is an [OpenAIError] whose message
    is the string of the exception that reached the outer handlers and
    whose status code is that exception's [status_code], or 500 when it has
    none. *)
Theorem embedding_raises_OpenAIError
    (W : Embedding.world) (a : Embedding.args) (e : exn) :
  (Embedding.embedding W a).2 = Raise e ->
  exists u : exn,
    (Embedding.embedding_try W a).2 = Raise u
    /\ e = OpenAIError (default (PInt 500) (exn_status_code u)) (str_exn u).
Proof.
  unfold Embedding.embedding. cbn [snd].
  destruct (Embedding.embedding_try W a).2 as [v|u]; [discriminate|].
  intros [= <-]. exists u. split; [done|]. apply normalize_str_eq.
Qed.

Lemma embedding_raises_OpenAIError_witness :
  (Embedding.embedding embedding_world_429 embedding_args).2
  = Raise (OpenAIError (PInt 429) "slow down")
  /\ exists u : exn,
       (Embedding.embedding_try embedding_world_429 embedding_args).2 = Raise u
       /\ OpenAIError (PInt 429) "slow down"
          = OpenAIError (default (PInt 500) (exn_status_code u)) (str_exn u).
Proof.
  split; [reflexivity|].
  apply (embedding_raises_OpenAIError embedding_world_429 embedding_args).
  reflexivity.
Defined.

(** X24.  [embedding] fails early, before it logs or calls the vendor:
    with [optional_params=None] (its default) building the request raises a
    [TypeError], which comes out as an [OpenAIError] with status code 500;
    with a [max_retries] that is not an int it raises [OpenAIError(422,
    "max retries must be an int")]. *)
Theorem embedding_early_errors (W : Embedding.world) (a : Embedding.args) :
  (Embedding.optional_params a = None ->
   Embedding.embedding W a
   = ([], Raise (OpenAIError (PInt 500) "'NoneType' object is not a mapping")))
  /\ (forall (optional_params : gmap string pyval) (v : pyval),
        Embedding.optional_params a = Some optional_params ->
        optional_params !! "max_retries" = Some v ->
        isinstance_int v = false ->
        Embedding.embedding W a
        = ([], Raise (OpenAIError (PInt 422) "max retries must be an int"))).
Proof.
  unfold Embedding.embedding, Embedding.embedding_try. split.
  - by intros ->.
  - intros op v -> Hv Hi. cbn [Embedding.max_retries].
    rewrite Hv. cbn [default from_option]. unfold id. by rewrite Hi.
Qed.

(** X25.  With a logging object whose [post_call] returns and
    [optional_params] a dict, whatever [image_generation] raises is an
    [OpenAIError] whose message is the string of the exception caught and
    whose status code is that exception's, or 500 when it has none. *)
Theorem image_generation_raises_OpenAIError
    (W : ImageGeneration.world) (a : ImageGeneration.args)
    (l : ImageGeneration.logger) (optional_params : gmap string pyval)
    (e : exn) :
  ImageGeneration.logging_obj a = Some l ->
  ImageGeneration.post_call l = Ok tt ->
  ImageGeneration.optional_params a = Some optional_params ->
  ImageGeneration.image_generation W a = Raise e ->
  exists u : exn,
    ImageGeneration.image_generation_try W a = Raise u
    /\ e = OpenAIError (default (PInt 500) (exn_status_code u)) (str_exn u).
Proof.
  intros Hl Hp Ho. unfold ImageGeneration.image_generation.
  destruct (ImageGeneration.image_generation_try W a) as [v|u]; [discriminate|].
  rewrite Hl, Ho. cbn [fmap option_fmap option_map ImageGeneration.log_post_call].
  rewrite Hp. cbn [bind]. intros [= <-]. exists u. split; [done|].
  apply normalize_str_eq.
Qed.

Lemma image_generation_raises_OpenAIError_witness :
  ImageGeneration.image_generation image_world_timeout
    (image_args (Some ∅) (Some quiet_logger))
  = Raise (OpenAIError (PInt 500) "Request timed out.")
  /\ exists u : exn,
       ImageGeneration.image_generation_try image_world_timeout
         (image_args (Some ∅) (Some quiet_logger)) = Raise u
       /\ OpenAIError (PInt 500) "Request timed out."
          = OpenAIError (default (PInt 500) (exn_status_code u)) (str_exn u).
Proof.
  split; [reflexivity|].
  apply (image_generation_raises_OpenAIError image_world_timeout
           (image_args (Some ∅) (Some quiet_logger)) quiet_logger ∅);
    reflexivity.
Defined.

(** X26.  With [optional_params=None] (its default) [image_generation]
    does not raise an [OpenAIError]: building the request raises, and the
    handler's logging call then raises on its own, an [AttributeError] when
    there is no logging object and otherwise an [UnboundLocalError] for
    [data], which was never assigned. *)
Theorem image_generation_without_optional_params
    (W : ImageGeneration.world) (a : ImageGeneration.args) :
  ImageGeneration.optional_params a = None ->
  exists text : string,
    ImageGeneration.image_generation W a
    = Raise (PyExc (match ImageGeneration.logging_obj a with
                    | None => "AttributeError"
                    | Some _ => "UnboundLocalError"
                    end) None text).
Proof.
  intros Ho.
  unfold ImageGeneration.image_generation, ImageGeneration.image_generation_try.
  rewrite Ho. cbn [fmap option_fmap option_map].
  unfold ImageGeneration.log_post_call.
  destruct (ImageGeneration.logging_obj a); cbn [bind]; eauto.
Qed.

Lemma image_generation_without_optional_params_witness :
  exists text : string,
    ImageGeneration.image_generation image_world_timeout
      (image_args None (Some quiet_logger))
    = Raise (PyExc "UnboundLocalError" None text).
Proof.
  apply (image_generation_without_optional_params image_world_timeout
           (image_args None (Some quiet_logger))).
  reflexivity.
Defined.

(** X27.  Without a logging object ([logging_obj=None], its default) the
    synchronous [image_generation] cannot succeed: it either hands back the
    coroutine of the asynchronous path or raises an [AttributeError]. *)
Theorem image_generation_without_logging_obj
    (W : ImageGeneration.world) (a : ImageGeneration.args) :
  ImageGeneration.logging_obj a = None ->
  (exists c : ImageGeneration.call,
     ImageGeneration.image_generation W a = Ok (ImageGeneration.RetCoroutine c))
  \/ (exists text : string,
        ImageGeneration.image_generation W a
        = Raise (PyExc "AttributeError" None text)).
Proof.
  intros Hl.
  unfold ImageGeneration.image_generation, ImageGeneration.image_generation_try.
  rewrite Hl.
  destruct (ImageGeneration.optional_params a) as [op|];
    [|right; cbn; eauto].
  cbv zeta. destruct (negb _); [right; cbn; eauto|].
  destruct (py_eq _ _); [left; eauto|].
  right. destruct (ImageGeneration.OpenAI W _) as [[]|u]; cbn; eauto.
Qed.

Lemma image_generation_without_logging_obj_witness :
  (exists c : ImageGeneration.call,
     ImageGeneration.image_generation image_world_timeout
       (image_args (Some ∅) None)
     = Ok (ImageGeneration.RetCoroutine c))
  \/ (exists text : string,
        ImageGeneration.image_generation image_world_timeout
          (image_args (Some ∅) None)
        = Raise (PyExc "AttributeError" None text)).
Proof.
  apply (image_generation_without_logging_obj image_world_timeout
           (image_args (Some ∅) None)).
  reflexivity.
Defined.

(** X28.  Whatever the awaited [async_streaming] raises is an
    [OpenAIError]: with status code 500 and the response text appended when
    the vendor's response has a [text]; otherwise with status code 408 for
    a [ReadTimeout], whether or not it carries a status code of its own, and
    else with the exception's status code, or 500 when it has none. *)
Theorem async_streaming_raises_OpenAIError
    (W : AsyncStreaming.world) (e : exn) :
  AsyncStreaming.async_streaming W = Raise e ->
  exists (u : exn) (r : option AsyncStreaming.response),
    (AsyncStreaming.setup W = Raise u /\ r = None
     \/ AsyncStreaming.create W = Raise u /\ r = None
     \/ exists resp,
          AsyncStreaming.create W = Ok resp
          /\ AsyncStreaming.CustomStreamWrapper W resp = Raise u
          /\ r = Some resp)
    /\ is_OpenAIError e = true
    /\ match r ≫= AsyncStreaming.text with
       | Some t =>
           e = OpenAIError (PInt 500)
                 (str_exn u ++ AsyncStreaming.original_response ++ t)%string
       | None =>
           if String.eqb (AsyncStreaming.type_name u) "ReadTimeout"
           then e = OpenAIError (PInt 408) "ReadTimeout"
           else e = OpenAIError (default (PInt 500) (exn_status_code u))
                      (str_exn u)
       end.
Proof.
  assert (Hh : forall (r : option AsyncStreaming.response) (u : exn),
            is_OpenAIError (AsyncStreaming.handler r u) = true
            /\ match r ≫= AsyncStreaming.text with
               | Some t =>
                   AsyncStreaming.handler r u
                   = OpenAIError (PInt 500)
                       (str_exn u ++ AsyncStreaming.original_response ++ t)%string
               | None =>
                   if String.eqb (AsyncStreaming.type_name u) "ReadTimeout"
                   then AsyncStreaming.handler r u
                        = OpenAIError (PInt 408) "ReadTimeout"
                   else AsyncStreaming.handler r u
                        = OpenAIError (default (PInt 500) (exn_status_code u))
                            (str_exn u)
               end).
  { intros r u. unfold AsyncStreaming.handler.
    destruct (r ≫= AsyncStreaming.text) as [t|]; [done|].
    destruct (String.eqb (AsyncStreaming.type_name u) "ReadTimeout") eqn:E.
    - apply String.eqb_eq in E. by rewrite E.
    - by destruct (exn_status_code u). }
  unfold AsyncStreaming.async_streaming.
  destruct (AsyncStreaming.setup W) as [[]|u] eqn:S.
  2:{ intros [= <-]. exists u, None. split; [by left | apply Hh]. }
  destruct (AsyncStreaming.create W) as [resp|u] eqn:C.
  2:{ intros [= <-]. exists u, None. split; [right; by left | apply Hh]. }
  destruct (AsyncStreaming.CustomStreamWrapper W resp) as [s|u] eqn:Wr;
    [discriminate|].
  intros [= <-]. exists u, (Some resp). split; [|apply Hh].
  right. right. by exists resp.
Qed.

Lemma async_streaming_raises_OpenAIError_witness :
  AsyncStreaming.async_streaming stream_world_read_timeout
  = Raise (OpenAIError (PInt 408) "ReadTimeout")
  /\ exists (u : exn) (r : option AsyncStreaming.response),
       (AsyncStreaming.setup stream_world_read_timeout = Raise u /\ r = None
        \/ AsyncStreaming.create stream_world_read_timeout = Raise u
           /\ r = None
        \/ exists resp,
             AsyncStreaming.create stream_world_read_timeout = Ok resp
             /\ AsyncStreaming.CustomStreamWrapper stream_world_read_timeout
                  resp = Raise u
             /\ r = Some resp)
       /\ is_OpenAIError (OpenAIError (PInt 408) "ReadTimeout") = true
       /\ match r ≫= AsyncStreaming.text with
          | Some t =>
              OpenAIError (PInt 408) "ReadTimeout"
              = OpenAIError (PInt 500)
                  (str_exn u ++ AsyncStreaming.original_response ++ t)%string
          | None =>
              if String.eqb (AsyncStreaming.type_name u) "ReadTimeout"
              then OpenAIError (PInt 408) "ReadTimeout"
                   = OpenAIError (PInt 408) "ReadTimeout"
              else OpenAIError (PInt 408) "ReadTimeout"
                   = OpenAIError (default (PInt 500) (exn_status_code u))
                       (str_exn u)
          end.
Proof.
  split; [reflexivity|].
  apply (async_streaming_raises_OpenAIError stream_world_read_timeout).
  reflexivity.
Defined.

End error_mapping.

(** ** The parameter loops do not depend on the order of iteration *)

Section order_independence.

(** Two passes of the loop body for different parameters commute, so the
    dict a loop builds is the same in whatever order the entries of
    [non_default_params] are visited. *)
Lemma Mistral_step_comm (p p' : string) (v v' : pyval)
    (optional_params : gmap string pyval) :
  p <> p' ->
  MistralConfig.map_openai_params_step p v
    (MistralConfig.map_openai_params_step p' v' optional_params)
  = MistralConfig.map_openai_params_step p' v'
      (MistralConfig.map_openai_params_step p v optional_params).
Proof.
  intros Hne. rewrite !Mistral_step_written.
  destruct (Mistral_written p v) as [[k x]|] eqn:W;
    destruct (Mistral_written p' v') as [[k' x']|] eqn:W'; try done.
  apply insert_insert_ne. intros <-.
  apply Mistral_written_source in W, W'. congruence.
Qed.

Lemma DeepInfra_step_comm (model p p' : string)
    (v v' : DeepInfraConfig.fvalue)
    (optional_params : gmap string DeepInfraConfig.fvalue) :
  p <> p' ->
  DeepInfraConfig.map_openai_params_step model p v
    (DeepInfraConfig.map_openai_params_step model p' v' optional_params)
  = DeepInfraConfig.map_openai_params_step model p' v'
      (DeepInfraConfig.map_openai_params_step model p v optional_params).
Proof.
  intros Hne. unfold DeepInfraConfig.map_openai_params_step. cbv zeta.
  destruct (OpenAIConfig.py_in_list p _), (OpenAIConfig.py_in_list p' _);
    try done.
  by apply insert_insert_ne.
Qed.

End order_independence.
